(** * The voting front-end: navigation, request flow and result rendering

    A shallow embedding of the two React applications of the repository:
    the tab-based single-component app (creator / voter tabs) and the
    session-based app [my-voting-app/src/App.jsx] (login, dashboards,
    analytics).  Event handlers are embedded as computations in a small
    state-and-exception monad that records every request handed to [fetch];
    the network is a parameter of each run.  JavaScript numbers are IEEE 754
    binary64 values, taken from the Standard Library's [SpecFloat]. *)

From Stdlib Require Import ZArith List String Ascii Bool Lia.
From Stdlib Require Import DecimalString.
From Stdlib Require Import SpecFloat.
Import ListNotations.

Set Warnings "-register-all".

Open Scope Z_scope.
Open Scope string_scope.

(** ** JavaScript values *)

Module JS.

(** The values that flow through the handlers: [undefined] and the values
    [JSON.parse] and [Response.json] produce.  Objects keep their members
    in source order; numbers are the integers (ids, counts, HTTP codes,
    all below 2^53). *)
Inductive value : Type :=
| VUndef
| VNull
| VBool (b : bool)
| VNum (z : Z)
| VStr (s : string)
| VArr (items : list value)
| VObj (members : list (string * value)).

(** [ToBoolean]: what [if (v)], [!v] and [v || w] test. *)
Definition truthy (v : value) : bool :=
  match v with
  | VUndef | VNull => false
  | VBool b => b
  | VNum z => negb (z =? 0)%Z
  | VStr s => negb (s =? "")%string
  | VArr _ | VObj _ => true
  end.

(** [a || b] *)
Definition or_else (a b : value) : value := if truthy a then a else b.

(** Member lookup in an object; for a repeated key the last member wins,
    as in [JSON.parse]. *)
Fixpoint lookup (k : string) (ms : list (string * value)) : value :=
  match ms with
  | [] => VUndef
  | (k', v) :: rest =>
      match lookup k rest with
      | VUndef => if (k =? k')%string then v else VUndef
      | found => found
      end
  end.

Definition string_of_Z (z : Z) : string := NilZero.string_of_int (Z.to_int z).

(** [ToString], as used by template literals and by [new Error(v)]. *)
Fixpoint to_string (v : value) : string :=
  match v with
  | VUndef => "undefined"
  | VNull => "null"
  | VBool true => "true"
  | VBool false => "false"
  | VNum z => string_of_Z z
  | VStr s => s
  | VArr items =>
      (fix join (l : list value) : string :=
         match l with
         | [] => ""
         | x :: rest =>
             let sx := match x with
                       | VUndef | VNull => ""
                       | _ => to_string x
                       end in
             match rest with
             | [] => sx
             | _ :: _ => sx ++ "," ++ join rest
             end
         end) items
  | VObj _ => "[object Object]"
  end.

(** [v === 'literal'] *)
Definition is_str (v : value) (lit : string) : bool :=
  match v with
  | VStr s => (s =? lit)%string
  | _ => false
  end.

(** Exceptions: every value thrown in this program is an [Error] object,
    of which the handlers read [message] only. *)
Record exn : Type := { ename : string; emessage : string }.

(** [new Error(v)]: the message is [ToString v], and is left at the
    prototype's empty string when [v] is [undefined]. *)
Definition new_Error (v : value) : exn :=
  {| ename := "Error";
     emessage := match v with VUndef => "" | _ => to_string v end |}.

Definition TypeError (msg : string) : exn :=
  {| ename := "TypeError"; emessage := msg |}.

Definition SyntaxError (msg : string) : exn :=
  {| ename := "SyntaxError"; emessage := msg |}.

Definition RangeError (msg : string) : exn :=
  {| ename := "RangeError"; emessage := msg |}.

(** [v.k] and [v?.k].  Reading a member of [null] or [undefined] throws;
    the members this program reads ([error], [message], [is_active],
    [role], ...) exist on no primitive and on no array, where the read
    yields [undefined]. *)
Definition get (v : value) (k : string) : exn + value :=
  match v with
  | VUndef =>
      inl (TypeError ("Cannot read properties of undefined (reading '" ++ k ++ "')"))
  | VNull =>
      inl (TypeError ("Cannot read properties of null (reading '" ++ k ++ "')"))
  | VObj ms => inr (lookup k ms)
  | _ => inr VUndef
  end.

Definition get_opt (v : value) (k : string) : value :=
  match v with
  | VObj ms => lookup k ms
  | _ => VUndef
  end.

End JS.

(** ** Rendering: what can go wrong *)

Module Render.
Import JS.

(** A component returns its elements or throws.  Neither app has an error
    boundary, so an exception in a render, in the component's own code or
    in React while it builds the children, takes the whole page down.  A
    render is therefore a value of [exn + list W]: the exception, or the
    parts of the page in document order. *)

(** What React accepts as a child of an element: text and numbers, the
    values that render nothing ([null], [undefined], booleans), and
    arrays of such.  A plain object is refused. *)
Fixpoint child_ok (v : value) : bool :=
  match v with
  | VObj _ => false
  | VArr items => forallb child_ok items
  | _ => true
  end.

(** The [Error] React throws for an object child; [emessage] holds the
    start of its text. *)
Definition invalid_child : exn :=
  {| ename := "Error"; emessage := "Objects are not valid as a React child" |}.

Section Parts.
Context {W : Type}.

(** One part after another: the first exception wins. *)
Definition seq (a b : exn + list W) : exn + list W :=
  match a with
  | inl e => inl e
  | inr x =>
      match b with
      | inl e => inl e
      | inr y => inr (x ++ y)%list
      end
  end.

(** [{v}] inside an element: nothing of its own in the list of parts, or
    the refusal. *)
Definition child (v : value) : exn + list W :=
  if child_ok v then inr [] else inl invalid_child.

Fixpoint children (vs : list value) : exn + list W :=
  match vs with
  | [] => inr []
  | v :: rest => seq (child v) (children rest)
  end.

(** Whether every part of a render that goes through satisfies [P]. *)
Definition all_parts (P : W -> bool) (r : exn + list W) : bool :=
  match r with
  | inr l => forallb P l
  | inl _ => true
  end.

End Parts.

(** [pollData.options.map(option => ...)] on a truthy [pollData]: the
    elements of the array, or the [TypeError] of calling [map] where there
    is none. *)
Definition options_of (pollData : value) : exn + list value :=
  match get_opt pollData "options" with
  | VArr items => inr items
  | VUndef => inl (TypeError "Cannot read properties of undefined (reading 'map')")
  | VNull => inl (TypeError "Cannot read properties of null (reading 'map')")
  | _ => inl (TypeError "pollData.options.map is not a function")
  end.

(** The members an object has: of several with one key, the last. *)
Fixpoint own (ms : list (string * value)) : list (string * value) :=
  match ms with
  | [] => []
  | (k, v) :: rest =>
      if existsb (String.eqb k) (map fst rest) then own rest
      else (k, v) :: own rest
  end.

(** The values that [Object.entries(v)] pairs with keys, in no particular
    order: the members of an object, the elements of an array, the
    characters of a string, nothing for a number or a boolean.
    [Object.entries] throws on [undefined] and [null]. *)
Definition entry_values (v : value) : exn + list value :=
  match v with
  | VUndef | VNull => inl (TypeError "Cannot convert undefined or null to object")
  | VObj ms => inr (map snd (own ms))
  | VArr items => inr items
  | VStr str => inr (map (fun c => VStr (String c EmptyString)) (list_ascii_of_string str))
  | VBool _ | VNum _ => inr []
  end.

(** A poll-status body from which the voting form can be built: its
    [options] are an array, and the question and the options are values
    React takes as children. *)
Definition poll_ok (poll : value) : bool :=
  match get_opt poll "options" with
  | VArr opts => child_ok (get_opt poll "question") && forallb child_ok opts
  | _ => false
  end.

(** A results body from which [ResultsDisplay] can be built: [results] is
    there, and the question, the total and the counts are values React
    takes as children. *)
Definition results_ok (data : value) : bool :=
  match entry_values (get_opt data "results") with
  | inr votes =>
      child_ok (get_opt data "question") && child_ok (get_opt data "total_votes")
      && forallb child_ok votes
  | inl _ => false
  end.

End Render.

Declare Scope render_scope.
Delimit Scope render_scope with render.
Notation "a +++ b" := (Render.seq a b)
  (at level 60, right associativity) : render_scope.

(** ** Numbers: binary64 arithmetic and [toFixed(1)] *)

Module Num.

Definition double : Type := spec_float.

(** The Number an integer literal or an integer JSON number denotes. *)
Definition of_Z (z : Z) : double := binary_normalize 53 1024 z 0 false.

Definition div (x y : double) : double := SFdiv 53 1024 x y.
Definition mul (x y : double) : double := SFmul 53 1024 x y.

(** [Number.prototype.toFixed(1)] on a finite [x = m * 2^e > 0]: the
    integer [n] for which [n / 10 - x] is as close to zero as possible,
    the larger one if there are two; that is [floor (10 x + 1/2)]. *)
Definition tenths (m : positive) (e : Z) : Z :=
  if (0 <=? e)%Z then 10 * Zpos m * 2 ^ e
  else (20 * Zpos m + 2 ^ (- e)) / 2 ^ (- e + 1).

(** The digits of [n], padded to two, with the point before the last. *)
Definition fixed1 (n : Z) : string :=
  JS.string_of_Z (n / 10) ++ "." ++ JS.string_of_Z (n mod 10).

(** [x >= 10^21], where [toFixed] hands over to [Number::toString]. *)
Definition ge_1e21 (m : positive) (e : Z) : bool :=
  if (0 <=? e)%Z then (10 ^ 21 <=? Zpos m * 2 ^ e)%Z
  else (10 ^ 21 * 2 ^ (- e) <=? Zpos m)%Z.

(** [x.toFixed(1)].  [None] stands for the exponent notation of
    [Number::toString] on [|x| >= 10^21], which is not modelled. *)
Definition toFixed1 (x : double) : option string :=
  match x with
  | S754_nan => Some "NaN"
  | S754_infinity false => Some "Infinity"
  | S754_infinity true => Some "-Infinity"
  | S754_zero _ => Some "0.0"
  | S754_finite s m e =>
      if ge_1e21 m e then None
      else Some ((if s then "-" else "") ++ fixed1 (tenths m e))
  end.

End Num.

(** ** The results renderer (tab-based app, [ResultsDisplay]) *)

Module Results.
Import JS.

(** The results payload: [results] holds the entries of the object in
    [Object.entries] order, each count a JSON integer. *)
Record ResultsPayload : Type := {
  question : value;
  results : list (string * Z);
  total_votes : Z;
  is_active : value
}.

(** [(votes / total_votes) * 100] *)
Definition share (votes total_votes : Z) : Num.double :=
  Num.mul (Num.div (Num.of_Z votes) (Num.of_Z total_votes)) (Num.of_Z 100).

(** [total_votes > 0 ? ((votes / total_votes) * 100).toFixed(1) : 0] *)
Definition percentage (votes total_votes : Z) : option value :=
  if (total_votes >? 0)%Z then
    option_map VStr (Num.toFixed1 (share votes total_votes))
  else Some (VNum 0).

(** One [result-item] per entry: option, votes and percentage. *)
Definition result_items (d : ResultsPayload) : list (string * Z * option value) :=
  map (fun '(option, votes) => (option, votes, percentage votes (total_votes d)))
      (results d).

End Results.

(** ** JSON text *)

Module JSONText.
Import JS.

(** A reader for the JSON texts whose values fit [value]: objects, arrays,
    strings with the two-character escapes, integers and the three
    literals.  Texts with a fraction, an exponent or a [\u] escape are
    grammatical JSON but denote no [value]; this reader rejects them, and
    the statements about [JSON.parse] below are made for any reader. *)

Definition quote : ascii := "034"%char.
Definition backslash : ascii := "092"%char.

Definition is_ws (c : ascii) : bool :=
  (c =? " ")%char || (c =? "009")%char || (c =? "010")%char || (c =? "013")%char.

Definition is_digit (c : ascii) : bool :=
  (48 <=? nat_of_ascii c)%nat && (nat_of_ascii c <=? 57)%nat.

Definition digit (c : ascii) : Z := Z.of_nat (nat_of_ascii c) - 48.

Fixpoint skip_ws (s : string) : string :=
  match s with
  | String c rest => if is_ws c then skip_ws rest else s
  | EmptyString => s
  end.

Definition unescape (c : ascii) : option ascii :=
  if (c =? quote)%char then Some quote
  else if (c =? backslash)%char then Some backslash
  else if (c =? "/")%char then Some "/"%char
  else if (c =? "b")%char then Some "008"%char
  else if (c =? "f")%char then Some "012"%char
  else if (c =? "n")%char then Some "010"%char
  else if (c =? "r")%char then Some "013"%char
  else if (c =? "t")%char then Some "009"%char
  else None.

(** The characters of a string literal, after its opening quote. *)
Fixpoint read_chars (s : string) : option (string * string) :=
  match s with
  | EmptyString => None
  | String c rest =>
      if (c =? quote)%char then Some (EmptyString, rest)
      else if (c =? backslash)%char then
        match rest with
        | String e rest' =>
            match unescape e, read_chars rest' with
            | Some ch, Some (str, r) => Some (String ch str, r)
            | _, _ => None
            end
        | EmptyString => None
        end
      else if (nat_of_ascii c <? 32)%nat then None
      else
        match read_chars rest with
        | Some (str, r) => Some (String c str, r)
        | None => None
        end
  end.

Fixpoint read_digits (s : string) (acc : Z) : Z * string :=
  match s with
  | String c rest => if is_digit c then read_digits rest (10 * acc + digit c) else (acc, s)
  | EmptyString => (acc, s)
  end.

(** An integer: digits without a leading zero, not followed by a fraction
    or an exponent. *)
Definition read_nat (s : string) : option (Z * string) :=
  match s with
  | String c rest =>
      if is_digit c then
        let '(n, r) := if (c =? "0")%char then (0, rest) else read_digits s 0 in
        match r with
        | String d _ =>
            if is_digit d || (d =? ".")%char || (d =? "e")%char || (d =? "E")%char
            then None else Some (n, r)
        | EmptyString => Some (n, r)
        end
      else None
  | EmptyString => None
  end.

Definition read_number (s : string) : option (value * string) :=
  match s with
  | String "-" rest =>
      match read_nat rest with
      | Some (n, r) => Some (VNum (- n), r)
      | None => None
      end
  | _ =>
      match read_nat s with
      | Some (n, r) => Some (VNum n, r)
      | None => None
      end
  end.

Fixpoint strip (lit s : string) : option string :=
  match lit, s with
  | EmptyString, _ => Some s
  | String a lit', String b s' => if (a =? b)%char then strip lit' s' else None
  | String _ _, EmptyString => None
  end.

Definition read_literal (s : string) : option (value * string) :=
  match strip "true" s, strip "false" s, strip "null" s with
  | Some r, _, _ => Some (VBool true, r)
  | _, Some r, _ => Some (VBool false, r)
  | _, _, Some r => Some (VNull, r)
  | _, _, _ => None
  end.

(** A value, the elements of an array after its bracket or a comma, and
    the members of an object after its brace or a comma. *)
Fixpoint read_value (fuel : nat) (s : string) {struct fuel} : option (value * string) :=
  match fuel with
  | O => None
  | S n =>
      match skip_ws s with
      | EmptyString => None
      | String c rest =>
          if (c =? "{")%char then
            match skip_ws rest with
            | String "}" r => Some (VObj [], r)
            | _ => read_members n rest []
            end
          else if (c =? "[")%char then
            match skip_ws rest with
            | String "]" r => Some (VArr [], r)
            | _ => read_elements n rest []
            end
          else if (c =? quote)%char then
            match read_chars rest with
            | Some (str, r) => Some (VStr str, r)
            | None => None
            end
          else if is_digit c || (c =? "-")%char then read_number (String c rest)
          else read_literal (String c rest)
      end
  end
with read_elements (fuel : nat) (s : string) (acc : list value) {struct fuel}
  : option (value * string) :=
  match fuel with
  | O => None
  | S n =>
      match read_value n s with
      | Some (v, r) =>
          match skip_ws r with
          | String "," r' => read_elements n r' (acc ++ [v])%list
          | String "]" r' => Some (VArr (acc ++ [v])%list, r')
          | _ => None
          end
      | None => None
      end
  end
with read_members (fuel : nat) (s : string) (acc : list (string * value)) {struct fuel}
  : option (value * string) :=
  match fuel with
  | O => None
  | S n =>
      match skip_ws s with
      | String c rest =>
          if (c =? quote)%char then
            match read_chars rest with
            | Some (key, r1) =>
                match skip_ws r1 with
                | String ":" r2 =>
                    match read_value n r2 with
                    | Some (v, r3) =>
                        match skip_ws r3 with
                        | String "," r4 => read_members n r4 (acc ++ [(key, v)])%list
                        | String "}" r4 => Some (VObj (acc ++ [(key, v)])%list, r4)
                        | _ => None
                        end
                    | None => None
                    end
                | _ => None
                end
            | None => None
            end
          else None
      | EmptyString => None
      end
  end.

(** [JSON.parse(text)] *)
Definition parse (text : string) : exn + value :=
  match read_value (2 * String.length text + 2) text with
  | Some (v, rest) =>
      match skip_ws rest with
      | EmptyString => inr v
      | String _ _ => inl (SyntaxError "Unexpected non-whitespace character after JSON")
      end
  | None => inl (SyntaxError "Unexpected token in JSON")
  end.

(** A string literal and a member, for writing JSON texts. *)
Definition lit (s : string) : string := String quote (s ++ String quote EmptyString).
Definition member (key val : string) : string := lit key ++ ":" ++ val.

End JSONText.

(** ** Requests, responses and the network *)

Module Net.
Import JS.

Inductive method : Type := GET | POST.

(** A [File] picked in a file input. *)
Record file : Type := { file_name : string; file_text : string }.

Inductive form_value : Type :=
| Text (s : string)
| Upload (f : file).

(** What [fetch] is given as [body]: nothing, [JSON.stringify v], or a
    [FormData] with its entries in [append] order. *)
Inductive payload : Type :=
| NoBody
| JsonBody (v : value)
| FormBody (entries : list (string * form_value)).

Record request : Type := {
  req_method : method;
  req_url : string;
  req_body : payload
}.

(** The body of a response: text that [Response.json] parses, or text on
    which it rejects with a [SyntaxError]. *)
Inductive body : Type :=
| Json (v : value)
| Malformed (msg : string).

(** [fetch] rejects (no connection, CORS, ...) or resolves to a response
    with a status code. *)
Inductive response : Type :=
| Rejected (msg : string)
| Http (status : Z) (b : body).

(** [Response.ok]: the status is in the range 200-299. *)
Definition ok (status : Z) : bool := (200 <=? status)%Z && (status <=? 299)%Z.

(** The backend and the transport, as seen from the client: the answer
    to a request may depend on the requests sent before it. *)
Definition network : Type := list request -> request -> response.

Definition API_URL : string := "http://127.0.0.1:5000".

End Net.

(** ** Handlers as computations *)

Module Exec.
Import JS Net.

(** What a handler does besides updating its component's state. *)
Inductive effect : Type :=
| Fetched (r : request)
| Called (callback : string) (args : list value)
| Scheduled (delay : Z) (callback : string) (args : list value)
| Alerted (msg : string)
| Unhandled (e : exn).

Fixpoint requests (t : list effect) : list request :=
  match t with
  | [] => []
  | Fetched r :: rest => r :: requests rest
  | _ :: rest => requests rest
  end.

Section Monad.
Context {St : Type}.

(** The component state and the effects so far, oldest first. *)
Record world : Type := { state : St; trace : list effect }.

(** A computation returns normally or throws; an exception that leaves
    an [async] handler is a rejected promise nobody handles. *)
Inductive outcome (A : Type) : Type :=
| Returned (a : A) (w : world)
| Threw (e : exn) (w : world).
Arguments Returned {A} a w.
Arguments Threw {A} e w.

Definition M (A : Type) : Type := network -> world -> outcome A.

Definition ret {A} (a : A) : M A := fun _ w => Returned a w.

Definition bind {A B} (c : M A) (k : A -> M B) : M B :=
  fun net w =>
    match c net w with
    | Returned a w' => k a net w'
    | Threw e w' => Threw e w'
    end.

Definition throw {A} (e : exn) : M A := fun _ w => Threw e w.

(** [try { body } catch (error) { handler error }] *)
Definition try_catch {A} (body : M A) (handler : exn -> M A) : M A :=
  fun net w =>
    match body net w with
    | Returned a w' => Returned a w'
    | Threw e w' => handler e net w'
    end.

Definition read : M St := fun _ w => Returned (state w) w.

(** A state setter, [setX(v)]. *)
Definition set (f : St -> St) : M unit :=
  fun _ w => Returned tt {| state := f (state w); trace := trace w |}.

Definition emit (e : effect) : M unit :=
  fun _ w => Returned tt {| state := state w; trace := (trace w ++ [e])%list |}.

Definition lift {A} (r : exn + A) : M A :=
  match r with
  | inl e => throw e
  | inr a => ret a
  end.

(** [await fetch(url, init)]: the request goes out, then the promise
    rejects with a [TypeError] or resolves to the status and body. *)
Definition fetch (r : request) : M (Z * body) :=
  fun net w =>
    let w' := {| state := state w; trace := (trace w ++ [Fetched r])%list |} in
    match net (requests (trace w)) r with
    | Rejected msg => Threw (TypeError msg) w'
    | Http status b => Returned (status, b) w'
    end.

(** [await response.json()] *)
Definition json (b : body) : M value :=
  match b with
  | Json v => ret v
  | Malformed msg => throw (SyntaxError msg)
  end.

(** A call of an [async] function that is not awaited: the caller goes
    on, and a rejection of the promise is handled by nobody. *)
Definition detach (c : M unit) : M unit :=
  fun net w =>
    match c net w with
    | Returned _ w' => Returned tt w'
    | Threw e w' =>
        Returned tt {| state := state w'; trace := (trace w' ++ [Unhandled e])%list |}
    end.

(** Running a handler from the state its closure captured. *)
Definition run {A} (c : M A) (net : network) (s : St) : outcome A :=
  c net {| state := s; trace := [] |}.

Definition final {A} (o : outcome A) : world :=
  match o with
  | Returned _ w => w
  | Threw _ w => w
  end.

Definition uncaught {A} (o : outcome A) : option exn :=
  match o with
  | Returned _ _ => None
  | Threw e _ => Some e
  end.

(** [c] keeps the invariant [I] of the component state, however it
    ends. *)
Definition keeps (I : St -> Prop) {A} (c : M A) : Prop :=
  forall net w, I (state w) -> I (state (final (c net w))).

End Monad.

Arguments world St : clear implicits.
Arguments outcome St A : clear implicits.
Arguments M St A : clear implicits.
Arguments Returned {St A} a w.
Arguments Threw {St A} e w.

End Exec.

Declare Scope handler_scope.
Delimit Scope handler_scope with handler.
Notation "x <- c ;; k" := (Exec.bind c (fun x => k))
  (at level 61, c at next level, right associativity) : handler_scope.
Notation "c ;; k" := (Exec.bind c (fun _ => k))
  (at level 61, right associativity) : handler_scope.

(** The [{ text, isError }] feedback slot of a component. *)
Record Message : Type := { text : JS.value; isError : bool }.

(** ** The tab-based app (one component, creator and voter tabs) *)

Module TabApp.
Import JS Net Exec.
Local Open Scope handler_scope.

(** The [useState] cells of [App]. *)
Record State : Type := {
  view : string;
  message : Message;
  question : string;
  options : string;
  voters : string;
  creatorInfo : value;
  managePollId : value;
  creatorId : value;
  creatorResults : value;
  voterPollId : string;
  voterId : string;
  pollData : value;
  voterResults : value;
  selectedOption : string
}.

Definition initial : State :=
  {| view := "creator";
     message := {| text := VStr ""; isError := false |};
     question := ""; options := ""; voters := "";
     creatorInfo := VNull;
     managePollId := VStr ""; creatorId := VStr "";
     creatorResults := VNull;
     voterPollId := ""; voterId := "";
     pollData := VNull; voterResults := VNull;
     selectedOption := "" |}.

Definition setView (v : string) : M State unit :=
  set (fun s =>
    {| view := v; message := message s; question := question s;
       options := options s; voters := voters s; creatorInfo := creatorInfo s;
       managePollId := managePollId s; creatorId := creatorId s;
       creatorResults := creatorResults s; voterPollId := voterPollId s;
       voterId := voterId s; pollData := pollData s;
       voterResults := voterResults s; selectedOption := selectedOption s |}).

Definition setMessage (m : Message) : M State unit :=
  set (fun s =>
    {| view := view s; message := m; question := question s;
       options := options s; voters := voters s; creatorInfo := creatorInfo s;
       managePollId := managePollId s; creatorId := creatorId s;
       creatorResults := creatorResults s; voterPollId := voterPollId s;
       voterId := voterId s; pollData := pollData s;
       voterResults := voterResults s; selectedOption := selectedOption s |}).

Definition setCreatorInfo (v : value) : M State unit :=
  set (fun s =>
    {| view := view s; message := message s; question := question s;
       options := options s; voters := voters s; creatorInfo := v;
       managePollId := managePollId s; creatorId := creatorId s;
       creatorResults := creatorResults s; voterPollId := voterPollId s;
       voterId := voterId s; pollData := pollData s;
       voterResults := voterResults s; selectedOption := selectedOption s |}).

Definition setManagePollId (v : value) : M State unit :=
  set (fun s =>
    {| view := view s; message := message s; question := question s;
       options := options s; voters := voters s; creatorInfo := creatorInfo s;
       managePollId := v; creatorId := creatorId s;
       creatorResults := creatorResults s; voterPollId := voterPollId s;
       voterId := voterId s; pollData := pollData s;
       voterResults := voterResults s; selectedOption := selectedOption s |}).

Definition setCreatorId (v : value) : M State unit :=
  set (fun s =>
    {| view := view s; message := message s; question := question s;
       options := options s; voters := voters s; creatorInfo := creatorInfo s;
       managePollId := managePollId s; creatorId := v;
       creatorResults := creatorResults s; voterPollId := voterPollId s;
       voterId := voterId s; pollData := pollData s;
       voterResults := voterResults s; selectedOption := selectedOption s |}).

Definition setCreatorResults (v : value) : M State unit :=
  set (fun s =>
    {| view := view s; message := message s; question := question s;
       options := options s; voters := voters s; creatorInfo := creatorInfo s;
       managePollId := managePollId s; creatorId := creatorId s;
       creatorResults := v; voterPollId := voterPollId s;
       voterId := voterId s; pollData := pollData s;
       voterResults := voterResults s; selectedOption := selectedOption s |}).

Definition setPollData (v : value) : M State unit :=
  set (fun s =>
    {| view := view s; message := message s; question := question s;
       options := options s; voters := voters s; creatorInfo := creatorInfo s;
       managePollId := managePollId s; creatorId := creatorId s;
       creatorResults := creatorResults s; voterPollId := voterPollId s;
       voterId := voterId s; pollData := v;
       voterResults := voterResults s; selectedOption := selectedOption s |}).

Definition setVoterResults (v : value) : M State unit :=
  set (fun s =>
    {| view := view s; message := message s; question := question s;
       options := options s; voters := voters s; creatorInfo := creatorInfo s;
       managePollId := managePollId s; creatorId := creatorId s;
       creatorResults := creatorResults s; voterPollId := voterPollId s;
       voterId := voterId s; pollData := pollData s;
       voterResults := v; selectedOption := selectedOption s |}).

(** The radio buttons' [onChange]. *)
Definition setSelectedOption (o : string) : M State unit :=
  set (fun s =>
    {| view := view s; message := message s; question := question s;
       options := options s; voters := voters s; creatorInfo := creatorInfo s;
       managePollId := managePollId s; creatorId := creatorId s;
       creatorResults := creatorResults s; voterPollId := voterPollId s;
       voterId := voterId s; pollData := pollData s;
       voterResults := voterResults s; selectedOption := o |}).

Definition clearMessages : M State unit :=
  setMessage {| text := VStr ""; isError := false |} ;;
  setCreatorInfo VNull ;;
  setCreatorResults VNull ;;
  setVoterResults VNull ;;
  setPollData VNull.

Definition handleSetView (newView : string) : M State unit :=
  clearMessages ;;
  setView newView.

Definition post_json (path : string) (v : value) : request :=
  {| req_method := POST; req_url := API_URL ++ path; req_body := JsonBody v |}.

Definition get_url (path : string) : request :=
  {| req_method := GET; req_url := API_URL ++ path; req_body := NoBody |}.

(** [catch (error) { setMessage({ text: error.message, isError: true }) }] *)
Definition show_error (error : exn) : M State unit :=
  setMessage {| text := VStr (emessage error); isError := true |}.

(** The requests of the voter tab. *)
Definition status_request (s : State) : request :=
  get_url ("/poll_status/" ++ voterPollId s).

Definition results_request (s : State) : request :=
  post_json "/results" (VObj [("poll_id", VStr (voterPollId s))]).

Definition vote_request (s : State) : request :=
  post_json "/vote"
    (VObj [("poll_id", VStr (voterPollId s));
           ("voter_id", VStr (voterId s));
           ("selection", VStr (selectedOption s))]).

(** The request of the two buttons of the creator tab. *)
Definition manage_request (action : string) (s : State) : request :=
  post_json (if (action =? "end")%string then "/end_poll" else "/results")
    (VObj [("poll_id", managePollId s); ("creator_id", creatorId s)]).

Definition handleCreatePoll : M State unit :=
  s <- read ;;
  clearMessages ;;
  try_catch
    (res <- fetch (post_json "/create_poll"
              (VObj [("question", VStr (question s));
                     ("options", VStr (options s));
                     ("voters", VStr (voters s))])) ;;
     data <- json (snd res) ;;
     (if negb (ok (fst res)) then
        e <- lift (get data "error") ;;
        throw (new_Error (or_else e (VStr "Failed to create poll.")))
      else ret tt) ;;
     setCreatorInfo data ;;
     poll_id <- lift (get data "poll_id") ;;
     setManagePollId poll_id ;;
     creator_id <- lift (get data "creator_id") ;;
     setCreatorId creator_id)
    show_error.

Definition handleManageAction (action : string) : M State unit :=
  s <- read ;;
  clearMessages ;;
  try_catch
    (res <- fetch (manage_request action s) ;;
     data <- json (snd res) ;;
     (if negb (ok (fst res)) then
        e <- lift (get data "error") ;;
        (if truthy e then throw (new_Error e)
         else
           m <- lift (get data "message") ;;
           throw (new_Error (or_else m (VStr ("Failed to " ++ action ++ " poll.")))))
      else ret tt) ;;
     if (action =? "end")%string then
       m <- lift (get data "message") ;;
       setMessage {| text := m; isError := false |}
     else setCreatorResults data)
    show_error.

Definition handleAccessPoll : M State unit :=
  s <- read ;;
  clearMessages ;;
  try_catch
    (res <- fetch (status_request s) ;;
     data <- json (snd res) ;;
     (if negb (ok (fst res)) then
        e <- lift (get data "error") ;;
        throw (new_Error (or_else e (VStr "Could not fetch poll status.")))
      else ret tt) ;;
     active <- lift (get data "is_active") ;;
     if truthy active then setPollData data
     else
       setMessage {| text := VStr "This poll has ended. Fetching results...";
                     isError := false |} ;;
       resultsRes <- fetch (results_request s) ;;
       resultsData <- json (snd resultsRes) ;;
       (if negb (ok (fst resultsRes)) then
          e <- lift (get resultsData "error") ;;
          throw (new_Error (or_else e (VStr "Could not fetch results.")))
        else ret tt) ;;
       setVoterResults resultsData)
    show_error.

Definition handleVote : M State unit :=
  s <- read ;;
  clearMessages ;;
  if negb (truthy (VStr (selectedOption s))) then
    setMessage {| text := VStr "Please select an option to vote."; isError := true |}
  else
    try_catch
      (res <- fetch (vote_request s) ;;
       data <- json (snd res) ;;
       (if negb (ok (fst res)) then
          e <- lift (get data "error") ;;
          throw (new_Error (or_else e (VStr "Failed to cast vote.")))
        else ret tt) ;;
       setPollData VNull ;;
       m <- lift (get data "message") ;;
       setMessage {| text := m; isError := false |})
      show_error.

(** The user's actions on the page other than typing and picking a radio
    button, each with the network it meets. *)
Inductive interaction : Type :=
| ClickTab (newView : string)
| SubmitCreatePoll
| ClickManage (action : string)
| SubmitAccessPoll
| ClickVote.

Definition handler (a : interaction) : M State unit :=
  match a with
  | ClickTab newView => handleSetView newView
  | SubmitCreatePoll => handleCreatePoll
  | ClickManage action => handleManageAction action
  | SubmitAccessPoll => handleAccessPoll
  | ClickVote => handleVote
  end.

(** The state after a sequence of actions, each handler run to its end
    before the next action. *)
Fixpoint after (acts : list (interaction * network)) (s : State) : State :=
  match acts with
  | [] => s
  | (a, net) :: rest => after rest (state (final (run (handler a) net s)))
  end.

(** The parts of the page that the render logic switches on and off. *)
Inductive widget : Type :=
| CreatorForms
| CreatorInfoBox (info : value)
| AccessForm
| VotingForm (poll : value)
| ResultsPanel (data : value)
| MessageBox (m : Message).

Definition when (b : bool) (w : widget) : list widget := if b then [w] else [].

Local Open Scope render_scope.

(** The box under the creation form: [{creatorInfo.poll_id}] and
    [{creatorInfo.creator_id}] are children of its paragraphs. *)
Definition CreatorInfo (info : value) : exn + list widget :=
  Render.child (get_opt info "poll_id") +++
  Render.child (get_opt info "creator_id") +++
  inr [CreatorInfoBox info].

(** The card with the voting form.  [pollData.options.map] runs while
    [App] builds its elements, before React looks at any child; then come
    the question and one label per option. *)
Definition VotingCard (poll : value) : exn + list widget :=
  match Render.options_of poll with
  | inl e => inl e
  | inr opts =>
      Render.child (get_opt poll "question") +++
      Render.children opts +++
      inr [VotingForm poll]
  end.

(** [ResultsDisplay] on a truthy [resultsData]: the destructuring cannot
    throw, [Object.entries(results)] can; the question, the total and each
    count are children. *)
Definition ResultsDisplay (resultsData : value) : exn + list widget :=
  match Render.entry_values (get_opt resultsData "results") with
  | inl e => inl e
  | inr votes =>
      Render.child (get_opt resultsData "question") +++
      Render.child (get_opt resultsData "total_votes") +++
      Render.children votes +++
      inr [ResultsPanel resultsData]
  end.

(** [Message]: nothing for a falsy text, else the text as a child. *)
Definition MessageLine (m : Message) : exn + list widget :=
  if truthy (text m) then Render.child (text m) +++ inr [MessageBox m]
  else inr [].

(** The page, in document order. *)
Definition render (s : State) : exn + list widget :=
  (if (view s =? "creator")%string then
     inr [CreatorForms] +++
     (if truthy (creatorInfo s) then CreatorInfo (creatorInfo s) else inr [])
   else inr []) +++
  (if (view s =? "voter")%string then
     inr (when (negb (truthy (pollData s)) && negb (truthy (voterResults s))) AccessForm) +++
     (if truthy (pollData s) then VotingCard (pollData s) else inr []) +++
     (if truthy (voterResults s) then ResultsDisplay (voterResults s) else inr [])
   else inr []) +++
  MessageLine (message s) +++
  (if truthy (creatorResults s) then ResultsDisplay (creatorResults s) else inr []).

Definition is_voting_form (w : widget) : bool :=
  match w with VotingForm _ => true | _ => false end.

(** Whether the page shows the voting form: the render goes through and
    the form is among its parts. *)
Definition shows_voting_form (s : State) : bool :=
  match render s with
  | inr parts => existsb is_voting_form parts
  | inl _ => false
  end.

End TabApp.

(** ** The session-based app ([my-voting-app/src/App.jsx]) *)

Module VotingApp.
Import JS Net Exec.
Local Open Scope handler_scope.

Definition post_json (path : string) (v : value) : request :=
  {| req_method := POST; req_url := API_URL ++ path; req_body := JsonBody v |}.

Definition get_url (path : string) : request :=
  {| req_method := GET; req_url := API_URL ++ path; req_body := NoBody |}.

(** *** [App]: session and view routing *)

(** The state of [App] together with the [localStorage] slot ['user']. *)
Record AppState : Type := {
  page : string;
  user : value;
  activePollId : value;
  stored_user : option string
}.

Definition app_initial (slot : option string) : AppState :=
  {| page := "home"; user := VNull; activePollId := VNull; stored_user := slot |}.

Definition setPage (p : string) : M AppState unit :=
  set (fun s => {| page := p; user := user s; activePollId := activePollId s;
                   stored_user := stored_user s |}).

Definition setUser (u : value) : M AppState unit :=
  set (fun s => {| page := page s; user := u; activePollId := activePollId s;
                   stored_user := stored_user s |}).

Definition setActivePollId (v : value) : M AppState unit :=
  set (fun s => {| page := page s; user := user s; activePollId := v;
                   stored_user := stored_user s |}).

Definition localStorage_removeItem_user : M AppState unit :=
  set (fun s => {| page := page s; user := user s; activePollId := activePollId s;
                   stored_user := None |}).

Definition dashboard_of (role : value) : string :=
  if is_str role "creator" then "creatorDashboard" else "voterDashboard".

Section Startup.
(** [JSON.parse], which returns a value or throws a [SyntaxError]. *)
Variable JSON_parse : string -> exn + value.

(** The [useEffect(..., [])] of [App]. *)
Definition restore : M AppState unit :=
  s <- read ;;
  match stored_user s with
  | Some storedUser =>
      if truthy (VStr storedUser) then
        parsedUser <- lift (JSON_parse storedUser) ;;
        setUser parsedUser ;;
        role <- lift (get parsedUser "role") ;;
        setPage (dashboard_of role)
      else ret tt
  | None => ret tt
  end.
End Startup.

Definition handleLogout : M AppState unit :=
  localStorage_removeItem_user ;;
  setUser VNull ;;
  setPage "home".

(** [navigateTo(newPage, pollId = null)] *)
Definition navigateTo (newPage : string) (pollId : value) : M AppState unit :=
  setActivePollId (match pollId with VUndef => VNull | v => v end) ;;
  setPage newPage.

(** The component [renderPage] returns, with its props. *)
Inductive screen : Type :=
| CreatorDashboardScreen (u : value)
| CreatePollFormScreen (u : value)
| PollAnalyticsScreen (pollId : value)
| VoterDashboardScreen (u : value)
| LoginScreen
| SignupScreen
| HomeScreen.

Definition renderPage (s : AppState) : screen :=
  if is_str (get_opt (user s) "role") "creator" then
    if (page s =? "creatorDashboard")%string then CreatorDashboardScreen (user s)
    else if (page s =? "createPoll")%string then CreatePollFormScreen (user s)
    else if (page s =? "analytics")%string then PollAnalyticsScreen (activePollId s)
    else CreatorDashboardScreen (user s)
  else if is_str (get_opt (user s) "role") "voter" then
    VoterDashboardScreen (user s)
  else
    if (page s =? "login")%string then LoginScreen
    else if (page s =? "signup")%string then SignupScreen
    else HomeScreen.

(** [goHome] of [Navbar] *)
Definition goHome : M AppState unit :=
  s <- read ;;
  homePage <- (if truthy (user s) then
                 role <- lift (get (user s) "role") ;;
                 ret (dashboard_of role)
               else ret "home") ;;
  navigateTo homePage VUndef.

(** Calls of the callbacks a child component gets from [App].
    [onLoginSuccess(u)] runs inside the child's [try]: [App] stores and
    sets the user, then reads [u.role]. *)
Definition call_onLoginSuccess {St} (u : value) : M St unit :=
  emit (Called "onLoginSuccess" [u]) ;;
  _ <- lift (get u "role") ;;
  ret tt.

Definition call_navigateTo {St} (newPage : string) : M St unit :=
  emit (Called "navigateTo" [VStr newPage]).

(** *** [AuthPage] *)

Module AuthPage.

(** The [useState] cells; [isSignup] is a prop and a parameter of the
    handler. *)
Record State : Type := {
  username : string;
  password : string;
  role : string;
  message : Message
}.

Definition setMessage (m : Message) : M State unit :=
  set (fun s => {| username := username s; password := password s;
                   role := role s; message := m |}).

Definition auth_request (isSignup : bool) (s : State) : request :=
  let endpoint := if isSignup then "/signup" else "/login" in
  let payload :=
    if isSignup then
      VObj [("username", VStr (username s)); ("password", VStr (password s));
            ("role", VStr (role s))]
    else VObj [("username", VStr (username s)); ("password", VStr (password s))] in
  post_json endpoint payload.

Definition handleSubmit (isSignup : bool) : M State unit :=
  s <- read ;;
  try_catch
    (response <- fetch (auth_request isSignup s) ;;
     data <- json (snd response) ;;
     (if negb (ok (fst response)) then
        e <- lift (get data "error") ;;
        throw (new_Error
                 (or_else e (VStr ("HTTP error! status: "
                                     ++ string_of_Z (fst response)))))
      else ret tt) ;;
     if isSignup then
       setMessage {| text := VStr "Signup successful! Please log in.";
                     isError := false |} ;;
       call_navigateTo "login"
     else
       u <- lift (get data "user") ;;
       call_onLoginSuccess u)
    (fun error => setMessage {| text := VStr (emessage error); isError := true |}).

End AuthPage.

(** *** [CreatorDashboard] *)

Module CreatorDashboard.

(** The props ([user]) and the [useState] cells. *)
Record State : Type := {
  user : value;
  polls : value;
  copiedPollId : value
}.

Definition initial (u : value) : State :=
  {| user := u; polls := VArr []; copiedPollId := VNull |}.

Definition setPolls (v : value) : M State unit :=
  set (fun s => {| user := user s; polls := v; copiedPollId := copiedPollId s |}).

Definition fetchPolls : M State unit :=
  s <- read ;;
  name <- lift (get (user s) "username") ;;
  response <- fetch (get_url ("/my_polls/" ++ to_string name)) ;;
  data <- json (snd response) ;;
  setPolls data.

(** [useEffect(() => { fetchPolls(); }, [user.username])] *)
Definition on_mount : M State unit := detach fetchPolls.

(** [confirmed] is the answer to [window.confirm]. *)
Definition handleClosePoll (confirmed : bool) (pollId : value) : M State unit :=
  s <- read ;;
  if negb confirmed then ret tt
  else
    try_catch
      (name <- lift (get (user s) "username") ;;
       response <- fetch (post_json "/close_poll"
                            (VObj [("poll_id", pollId); ("username", name)])) ;;
       data <- json (snd response) ;;
       (if negb (ok (fst response)) then
          e <- lift (get data "error") ;;
          throw (new_Error e)
        else ret tt) ;;
       emit (Alerted "Poll closed successfully") ;;
       detach fetchPolls)
      (fun error => emit (Alerted ("Error: " ++ emessage error))).

(** One element of the poll list. *)
Record PollSummary : Type := {
  poll_id : value;
  question : value;
  start_time : value;
  end_time : value;
  is_active : value
}.

Record status : Type := { status_text : string; color : string }.

Section Status.
(** The time value of [new Date(v)], in milliseconds; [None] is the
    invalid date, whose time value is [NaN]. *)
Variable Date_value : value -> option Z.

(** [now > end] on two [Date]s compares their time values, and is
    [false] when one of them is [NaN]. *)
Definition after (now : Z) (end_ : option Z) : bool :=
  match end_ with
  | Some t => (now >? t)%Z
  | None => false
  end.

(** [now] is the time value of [new Date()]. *)
Definition getStatus (now : Z) (poll : PollSummary) : status :=
  let end_ := Date_value (end_time poll) in
  if negb (truthy (is_active poll)) then {| status_text := "Closed"; color := "red" |}
  else if after now end_ then {| status_text := "Ended"; color := "gray" |}
  else {| status_text := "Active"; color := "green" |}.
End Status.

End CreatorDashboard.

(** *** [CreatePollForm] *)

Module CreatePollForm.

(** The [user] prop and the [useState] cells; [votersFile] is [None] while
    no file is selected. *)
Record State : Type := {
  user : value;
  question : string;
  options : string;
  voterInputMethod : string;
  votersText : string;
  votersFile : option file;
  startTime : string;
  endTime : string;
  message : Message
}.

Definition setMessage (m : Message) : M State unit :=
  set (fun s =>
    {| user := user s; question := question s; options := options s;
       voterInputMethod := voterInputMethod s; votersText := votersText s;
       votersFile := votersFile s; startTime := startTime s;
       endTime := endTime s; message := m |}).

Section Dates.
(** [new Date(s).toISOString()] on the value of a [datetime-local]
    input: the ISO text, or [None] where the date is invalid and
    [toISOString] throws a [RangeError]. *)
Variable toISOString : string -> option string.

Definition iso (s : string) : M State string :=
  match toISOString s with
  | Some t => ret t
  | None => throw (RangeError "Invalid time value")
  end.

Definition handleCreatePoll : M State unit :=
  s <- read ;;
  start_iso <- iso (startTime s) ;;
  end_iso <- iso (endTime s) ;;
  name <- lift (get (user s) "username") ;;
  let formData :=
    [("question", Text (question s));
     ("options", Text (options s));
     ("start_time", Text start_iso);
     ("end_time", Text end_iso);
     ("creator_username", Text (to_string name));
     ("voter_input_method", Text (voterInputMethod s))] in
  let send (formData : list (string * form_value)) : M State unit :=
    try_catch
      (response <- fetch {| req_method := POST;
                            req_url := API_URL ++ "/create_poll";
                            req_body := FormBody formData |} ;;
       data <- json (snd response) ;;
       (if negb (ok (fst response)) then
          e <- lift (get data "error") ;;
          throw (new_Error (or_else e (VStr "Failed to create poll")))
        else ret tt) ;;
       id <- lift (get data "poll_id") ;;
       setMessage {| text := VStr ("Poll created successfully! Poll ID: "
                                     ++ to_string id);
                     isError := false |} ;;
       emit (Scheduled 3000 "navigateTo" [VStr "creatorDashboard"]))
      (fun error => setMessage {| text := VStr (emessage error); isError := true |}) in
  if (voterInputMethod s =? "manual")%string then
    send (formData ++ [("voters_text", Text (votersText s))])%list
  else
    match votersFile s with
    | None =>
        setMessage {| text := VStr "Please select a CSV file to upload.";
                      isError := true |}
    | Some f => send (formData ++ [("voters_file", Upload f)])%list
    end.
End Dates.

End CreatePollForm.

(** *** [PollAnalyticsDashboard] *)

Module PollAnalyticsDashboard.

(** The [pollId] prop and the [useState] cells. *)
Record State : Type := {
  pollId : value;
  analytics : value;
  isLoading : bool
}.

Definition initial (id : value) : State :=
  {| pollId := id; analytics := VNull; isLoading := true |}.

Definition setAnalytics (v : value) : M State unit :=
  set (fun s => {| pollId := pollId s; analytics := v; isLoading := isLoading s |}).

Definition setIsLoading (b : bool) : M State unit :=
  set (fun s => {| pollId := pollId s; analytics := analytics s; isLoading := b |}).

Definition fetchAnalytics : M State unit :=
  s <- read ;;
  setIsLoading true ;;
  response <- fetch (get_url ("/analytics/" ++ to_string (pollId s))) ;;
  data <- json (snd response) ;;
  setAnalytics data ;;
  setIsLoading false.

(** [useEffect(() => { ...; fetchAnalytics(); }, [pollId])] *)
Definition on_mount : M State unit := detach fetchAnalytics.

End PollAnalyticsDashboard.

(** *** [VoterDashboard] *)

Module VoterDashboard.

(** The [useState] cells. *)
Record State : Type := {
  pollId : string;
  aadhar : string;
  pollData : value;
  selectedOption : string;
  message : Message
}.

Definition setPollId (v : string) : M State unit :=
  set (fun s => {| pollId := v; aadhar := aadhar s; pollData := pollData s;
                   selectedOption := selectedOption s; message := message s |}).

Definition setAadhar (v : string) : M State unit :=
  set (fun s => {| pollId := pollId s; aadhar := v; pollData := pollData s;
                   selectedOption := selectedOption s; message := message s |}).

Definition setPollData (v : value) : M State unit :=
  set (fun s => {| pollId := pollId s; aadhar := aadhar s; pollData := v;
                   selectedOption := selectedOption s; message := message s |}).

Definition setMessage (m : Message) : M State unit :=
  set (fun s => {| pollId := pollId s; aadhar := aadhar s; pollData := pollData s;
                   selectedOption := selectedOption s; message := m |}).

Definition show_error (error : exn) : M State unit :=
  setMessage {| text := VStr (emessage error); isError := true |}.

Definition status_request (s : State) : request :=
  get_url ("/poll_status/" ++ pollId s).

Definition vote_request (s : State) : request :=
  post_json "/vote"
    (VObj [("poll_id", VStr (pollId s));
           ("aadhar", VStr (aadhar s));
           ("selection", VStr (selectedOption s))]).

Definition handleFetchPoll : M State unit :=
  s <- read ;;
  setMessage {| text := VStr ""; isError := false |} ;;
  setPollData VNull ;;
  try_catch
    (response <- fetch (status_request s) ;;
     data <- json (snd response) ;;
     (if negb (ok (fst response)) then
        e <- lift (get data "error") ;;
        throw (new_Error e)
      else ret tt) ;;
     setPollData data)
    show_error.

Definition handleVote : M State unit :=
  s <- read ;;
  try_catch
    (response <- fetch (vote_request s) ;;
     data <- json (snd response) ;;
     (if negb (ok (fst response)) then
        e <- lift (get data "error") ;;
        throw (new_Error e)
      else ret tt) ;;
     m <- lift (get data "message") ;;
     setMessage {| text := m; isError := false |} ;;
     setPollData VNull ;;
     setPollId "" ;;
     setAadhar "")
    show_error.

(** What the card shows under its heading. *)
Inductive widget : Type :=
| MessageBox (m : Message)
| FindPollForm
| VoteForm (poll : value)
| InactiveNotice.

Local Open Scope render_scope.

(** [Message]: nothing for a falsy text, else the text as a child. *)
Definition MessageLine (m : Message) : exn + list widget :=
  if truthy (text m) then Render.child (text m) +++ inr [MessageBox m]
  else inr [].

(** [pollData.is_active] is read only where [pollData] is truthy, so
    the read cannot throw.  [pollData.options.map] runs, for an active
    poll, while the component builds its elements; React then takes the
    message, the question and the options as children, in this order. *)
Definition render (s : State) : exn + list widget :=
  match (if truthy (pollData s) && truthy (get_opt (pollData s) "is_active")
         then Render.options_of (pollData s) else inr []) with
  | inl e => inl e
  | inr opts =>
      MessageLine (message s) +++
      (if negb (truthy (pollData s)) then inr [FindPollForm]
       else
         Render.child (get_opt (pollData s) "question") +++
         (if truthy (get_opt (pollData s) "is_active") then
            Render.children opts +++ inr [VoteForm (pollData s)]
          else inr [InactiveNotice]))
  end.

Definition is_vote_form (w : widget) : bool :=
  match w with VoteForm _ => true | _ => false end.

(** Whether the card shows the voting form: the render goes through and
    the form is among its parts. *)
Definition shows_vote_form (s : State) : bool :=
  match render s with
  | inr parts => existsb is_vote_form parts
  | inl _ => false
  end.

End VoterDashboard.

End VotingApp.

(** ** Navigation while a session is open *)

Module Navigation.
Import JS Net Exec VotingApp.

(** One navigation request reaching [App]: a call of [navigateTo] by a
    child component, or a click on the title of the [Navbar]. *)
Inductive navigates : AppState -> AppState -> Prop :=
| nav_to (s : AppState) (newPage : string) (pollId : value) (net : network) :
    navigates s (state (final (run (navigateTo newPage pollId) net s)))
| nav_home (s : AppState) (net : network) :
    navigates s (state (final (run goHome net s))).

(** The states reached from [s] by any number of navigation requests. *)
Inductive reaches (s : AppState) : AppState -> Prop :=
| reaches_here : reaches s s
| reaches_step (s1 s2 : AppState) :
    reaches s s1 -> navigates s1 s2 -> reaches s s2.

Definition logged_in_as (r : string) (s : AppState) : Prop :=
  is_str (get_opt (user s) "role") r = true.

End Navigation.

(** ** Poll creation: what a request carries *)

Module Creation.
Import JS Net Exec VotingApp.

(** The entries of a request's form data that carry a list of voters. *)
Definition voter_lists (r : request) : list (string * form_value) :=
  match req_body r with
  | FormBody entries =>
      filter (fun e => (fst e =? "voters_text")%string || (fst e =? "voters_file")%string)
             entries
  | _ => []
  end.

(** Whether the statements before the choice of the voter list run
    through: both dates convert, and [user.username] can be read.  The
    handler checks none of this; where it fails, the handler throws before
    it looks at the file, outside its [try]. *)
Definition prepares (toISOString : string -> option string)
    (s : CreatePollForm.State) : bool :=
  match toISOString (CreatePollForm.startTime s),
        toISOString (CreatePollForm.endTime s),
        get (CreatePollForm.user s) "username" with
  | Some _, Some _, inr _ => true
  | _, _, _ => false
  end.

Definition csv_error : Message :=
  {| text := VStr "Please select a CSV file to upload."; isError := true |}.

End Creation.

(** ** Sample data for closed evaluations *)

Module Samples.
Import JS Net Exec.

(** A poll-status answer for a poll that has ended. *)
Definition ended_poll : value :=
  VObj [("question", VStr "Tea or coffee?");
        ("options", VArr [VStr "tea"; VStr "coffee"]);
        ("is_active", VBool false)].

(** The results of that poll. *)
Definition final_results : value :=
  VObj [("question", VStr "Tea or coffee?");
        ("results", VObj [("tea", VNum 2); ("coffee", VNum 1)]);
        ("total_votes", VNum 3);
        ("is_active", VBool false)].

(** A backend that answers the first request with the status of the poll
    that has ended, and every later one with its results. *)
Definition ended_backend : network :=
  fun sent _ =>
    match sent with
    | [] => Http 200 (Json ended_poll)
    | _ :: _ => Http 200 (Json final_results)
    end.

(** A backend that answers every request with status 200 and [v]. *)
Definition always (v : value) : network := fun _ _ => Http 200 (Json v).


(** A backend that answers every request with [status] and [v]. *)
Definition answering (status : Z) (v : value) : network :=
  fun _ _ => Http status (Json v).

(** No connection: every [fetch] rejects. *)
Definition offline : network := fun _ _ => Rejected "Failed to fetch".

(** The tab-based app on its voter tab, with a poll id typed in. *)
Definition voter_tab (id : string) : TabApp.State :=
  {| TabApp.view := "voter";
     TabApp.message := {| text := VStr ""; isError := false |};
     TabApp.question := ""; TabApp.options := ""; TabApp.voters := "";
     TabApp.creatorInfo := VNull;
     TabApp.managePollId := VStr ""; TabApp.creatorId := VStr "";
     TabApp.creatorResults := VNull;
     TabApp.voterPollId := id; TabApp.voterId := "v1";
     TabApp.pollData := VNull; TabApp.voterResults := VNull;
     TabApp.selectedOption := "" |}.

Definition logging_in (name pw : string) : VotingApp.AuthPage.State :=
  {| VotingApp.AuthPage.username := name;
     VotingApp.AuthPage.password := pw;
     VotingApp.AuthPage.role := "creator";
     VotingApp.AuthPage.message := {| text := VStr ""; isError := false |} |}.

Definition voter_looking_up (id : string) : VotingApp.VoterDashboard.State :=
  {| VotingApp.VoterDashboard.pollId := id;
     VotingApp.VoterDashboard.aadhar := "";
     VotingApp.VoterDashboard.pollData := VNull;
     VotingApp.VoterDashboard.selectedOption := "";
     VotingApp.VoterDashboard.message := {| text := VStr ""; isError := false |} |}.

End Samples.

(** ** Choice of the error text *)

Module ErrorPolicy.
Import JS.

(** The three-level choice: the [error] member if it is truthy, else the
    [message] member if it is truthy, else the fallback of the action. *)
Definition preferred (e m : value) (fallback : string) : string :=
  if truthy e then to_string e
  else if truthy m then to_string m
  else fallback.

(** The two-level choice: the [error] member if it is truthy, else the
    fallback. *)
Definition error_or (e : value) (fallback : string) : string :=
  if truthy e then to_string e else fallback.

End ErrorPolicy.

(** ** Rounding: what the renderer's numbers are compared with *)

Module Rounding.

(** [n / 10] is the decimal with one fractional digit nearest to the double
    [x >= 0], the larger one when two are equally near (the choice of
    [toFixed]); for [x = m * 2^e] with [e < 0] this is
    [10 x - 1/2 < n <= 10 x + 1/2], multiplied out. *)
Definition rounds_to_tenth (x : Num.double) (n : Z) : Prop :=
  match x with
  | S754_zero _ => n = 0
  | S754_finite false m e =>
      if (0 <=? e)%Z then n = 10 * Zpos m * 2 ^ e
      else 20 * Zpos m - 2 ^ (- e) < 2 * n * 2 ^ (- e) <= 20 * Zpos m + 2 ^ (- e)
  | _ => False
  end.

(** [n / 10] is within [1/20] of the exact quotient [votes / total * 100]:
    it is that quotient rounded to one decimal place. *)
Definition nearest_tenth (n votes total : Z) : Prop :=
  Z.abs (2 * n * total - 2000 * votes) <= total.

(** The position of an exact value [N / D] against the mantissa of a shift
    record: equal to it, below, at or above the midpoint to the next
    integer. *)
Definition locates (mrs : shr_record) (N D : Z) : Prop :=
  let m := shr_m mrs in
  match shr_r mrs, shr_s mrs with
  | false, false => N = m * D
  | false, true => m * D < N /\ 2 * N < (2 * m + 1) * D
  | true, false => 2 * N = (2 * m + 1) * D
  | true, true => (2 * m + 1) * D < 2 * N /\ N < (m + 1) * D
  end.

End Rounding.

(** ** Writing JSON text *)

Module JSONWrite.
Import JS JSONText.

(** [JSON.stringify] on the values of [value]: a reference serializer, the
    counterpart of the reader above.  [undefined] has no JSON text
    ([None]); inside an array it is written as [null], and a member whose
    value it is gets left out. *)

Definition hex_digit (n : nat) : ascii :=
  ascii_of_nat (if (n <? 10)%nat then 48 + n else 87 + n).

Definition escape (c : ascii) : string :=
  if (c =? quote)%char then String backslash (String quote EmptyString)
  else if (c =? backslash)%char then String backslash (String backslash EmptyString)
  else if (c =? "008")%char then "\b"
  else if (c =? "012")%char then "\f"
  else if (c =? "010")%char then "\n"
  else if (c =? "013")%char then "\r"
  else if (c =? "009")%char then "\t"
  else if (nat_of_ascii c <? 32)%nat then
    "\u00" ++ String (hex_digit (nat_of_ascii c / 16))
                (String (hex_digit (nat_of_ascii c mod 16)) EmptyString)
  else String c EmptyString.

Fixpoint escaped (s : string) : string :=
  match s with
  | EmptyString => EmptyString
  | String c rest => escape c ++ escaped rest
  end.

Definition quoted (s : string) : string :=
  String quote (escaped s ++ String quote EmptyString).

Fixpoint stringify (v : value) : option string :=
  match v with
  | VUndef => None
  | VNull => Some "null"
  | VBool true => Some "true"
  | VBool false => Some "false"
  | VNum z => Some (string_of_Z z)
  | VStr s => Some (quoted s)
  | VArr items =>
      Some ("[" ++ String.concat ","
              ((fix elements (l : list value) : list string :=
                  match l with
                  | [] => []
                  | x :: rest =>
                      match stringify x with
                      | Some t => t :: elements rest
                      | None => "null" :: elements rest
                      end
                  end) items) ++ "]")
  | VObj members =>
      Some ("{" ++ String.concat ","
              ((fix written (l : list (string * value)) : list string :=
                  match l with
                  | [] => []
                  | (k, x) :: rest =>
                      match stringify x with
                      | Some t => (quoted k ++ ":" ++ t) :: written rest
                      | None => written rest
                      end
                  end) members) ++ "}")
  end.

End JSONWrite.

(** ** The session: login, storage and reload *)

Module Session.
Import JS Net Exec VotingApp.
Local Open Scope handler_scope.

(** [localStorage.setItem('user', v)]: the stored text is [String(v)],
    which is ["undefined"] for [undefined]. *)
Definition localStorage_setItem_user (v : option string) : M AppState unit :=
  set (fun s => {| page := page s; user := user s; activePollId := activePollId s;
                   stored_user := Some (match v with
                                        | Some t => t
                                        | None => "undefined"
                                        end) |}).

Section Login.
(** [JSON.stringify], whose result is a text or [undefined] ([None]). *)
Variable JSON_stringify : value -> option string.

Definition onLoginSuccess (loggedInUser : value) : M AppState unit :=
  localStorage_setItem_user (JSON_stringify loggedInUser) ;;
  setUser loggedInUser ;;
  role <- lift (get loggedInUser "role") ;;
  setPage (dashboard_of role).
End Login.

(** Reloading the page: the component state starts over, the storage slot
    stays, and the startup effect runs. *)
Definition reload (JSON_parse : string -> exn + value) (net : network)
    (s : AppState) : outcome AppState unit :=
  run (restore JSON_parse) net (app_initial (stored_user s)).

(** The screens that need a session. *)
Definition for_creator (sc : screen) : bool :=
  match sc with
  | CreatorDashboardScreen _ | CreatePollFormScreen _ | PollAnalyticsScreen _ => true
  | _ => false
  end.

Definition for_voter (sc : screen) : bool :=
  match sc with
  | VoterDashboardScreen _ => true
  | _ => false
  end.

Definition has_role (r : string) (s : AppState) : bool :=
  is_str (get_opt (user s) "role") r.

End Session.

(** ** Handlers that let no exception out *)

Module Safety.
Import JS Net Exec.

(** [c] returns normally from every state, whatever the network does. *)
Definition never_throws {St A : Type} (c : M St A) : Prop :=
  forall (net : network) (w : world St), uncaught (c net w) = None.



End Safety.

(** ** The tab-based app: panels and inputs *)

Module Panels.
Import JS Net Exec TabApp.

Definition shown (v : value) : nat := if truthy v then 1%nat else 0%nat.

(** How many of the four data panels (created-poll box, creator results,
    voting form, voter results) have something to show. *)
Definition filled (s : State) : nat :=
  (shown (creatorInfo s) + shown (creatorResults s)
   + shown (pollData s) + shown (voterResults s))%nat.

(** The text inputs that no handler writes to: the three of the creation
    form and the two of the access form. *)
Definition typed (s : State) : string * string * string * string * string :=
  (question s, options s, voters s, voterPollId s, voterId s).

(** The two text inputs of the manage form, which [handleCreatePoll]
    fills in. *)
Definition manage_ids (s : State) : value * value :=
  (managePollId s, creatorId s).

End Panels.

(** ** The analytics dashboard: participation and what is rendered *)

Module Analytics.
Import JS Net Exec VotingApp.

(** [total_voters > 0 ? (total_votes / total_voters) * 100 : 0] *)
Definition participationRate (total_votes total_voters : Z) : Num.double :=
  if (total_voters >? 0)%Z then Results.share total_votes total_voters
  else Num.of_Z 0.

(** [participationRate.toFixed(1)], the text before the percent sign. *)
Definition participation_text (total_votes total_voters : Z) : option string :=
  Num.toFixed1 (participationRate total_votes total_voters).

(** What the component returns: the loading line, the failure line, or the
    dashboard built from [analytics.results]. *)
Inductive view : Type :=
| Loading
| CouldNotLoad
| Dashboard (results : value).

(** [Object.keys(analytics.results)] throws on [undefined] and [null];
    [Dashboard] stands for the render going on to build the page from
    [results]. *)
Definition render (s : PollAnalyticsDashboard.State) : exn + view :=
  if PollAnalyticsDashboard.isLoading s then inr Loading
  else if negb (truthy (PollAnalyticsDashboard.analytics s)) then inr CouldNotLoad
  else
    match get_opt (PollAnalyticsDashboard.analytics s) "results" with
    | VUndef | VNull => inl (TypeError "Cannot convert undefined or null to object")
    | results => inr (Dashboard results)
    end.

End Analytics.

(** ** The results renderer: the percentages of all options together *)

Module Totals.

Fixpoint sum (l : list Z) : Z :=
  match l with
  | [] => 0
  | x :: rest => x + sum rest
  end.

(** The rows of [ResultsDisplay] show the percentages [n / 10], one [n]
    per entry of [results] and in their order. *)
Fixpoint shows (results : list (string * Z)) (total_votes : Z) (ns : list Z) : Prop :=
  match results, ns with
  | [], [] => True
  | (_, votes) :: rest, n :: ns' =>
      Results.percentage votes total_votes = Some (JS.VStr (Num.fixed1 n))
      /\ shows rest total_votes ns'
  | _, _ => False
  end.

End Totals.

(** ** The first request of an action *)

Module Requests.
Import JS Net Exec TabApp.

(** The request a handler of the tab-based app starts with: none for a
    view change, and none for a vote without a selected option. *)
Definition first_request (a : interaction) (s : State) : option request :=
  match a with
  | ClickTab _ => None
  | SubmitCreatePoll =>
      Some (post_json "/create_poll"
              (VObj [("question", VStr (question s));
                     ("options", VStr (options s));
                     ("voters", VStr (voters s))]))
  | ClickManage action => Some (manage_request action s)
  | SubmitAccessPoll => Some (status_request s)
  | ClickVote =>
      if truthy (VStr (selectedOption s)) then Some (vote_request s) else None
  end.

(** How many requests an action can send at most. *)
Definition budget (a : interaction) : nat :=
  match a with
  | ClickTab _ => 0
  | SubmitAccessPoll => 2
  | _ => 1
  end.

(** The exception a response that carries no JSON value ends in: the
    rejection of [fetch], or the [SyntaxError] of [Response.json]. *)
Definition transport_error (r : response) : option exn :=
  match r with
  | Rejected msg => Some (TypeError msg)
  | Http _ (Malformed msg) => Some (SyntaxError msg)
  | Http _ (Json _) => None
  end.

End Requests.

(** ** What the user gets to see of an outcome *)

Module Feedback.
Import JS Net Exec VotingApp.

(** The [alert] boxes of a run, in order. *)
Fixpoint alerts (t : list effect) : list string :=
  match t with
  | [] => []
  | Alerted msg :: rest => msg :: alerts rest
  | _ :: rest => alerts rest
  end.

(** The timers a run has set. *)
Fixpoint timers (t : list effect) : list (Z * string * list value) :=
  match t with
  | [] => []
  | Scheduled delay callback args :: rest => (delay, callback, args) :: timers rest
  | _ :: rest => timers rest
  end.

(** The callbacks of [App] a run has called. *)
Fixpoint calls (t : list effect) : list (string * list value) :=
  match t with
  | [] => []
  | Called callback args :: rest => (callback, args) :: calls rest
  | _ :: rest => calls rest
  end.

(** Whether the voter's card shows a message box. *)
Definition shows_message (s : VoterDashboard.State) : bool :=
  match VoterDashboard.render s with
  | inr parts =>
      existsb (fun w => match w with VoterDashboard.MessageBox _ => true | _ => false end)
              parts
  | inl _ => false
  end.

End Feedback.

(** ** The tab-based app: the states a user can reach *)

Module Reachable.
Import JS Net Exec TabApp.

(** Whether the page in state [s] offers the control behind [a]: the two
    tab buttons always, the creator's forms on the creator tab, the access
    form on the voter tab while neither a poll nor results are there, the
    vote button while a poll is there. *)
Definition available (a : interaction) (s : State) : bool :=
  match a with
  | ClickTab newView => (newView =? "creator")%string || (newView =? "voter")%string
  | SubmitCreatePoll => (view s =? "creator")%string
  | ClickManage action =>
      (view s =? "creator")%string
      && ((action =? "end")%string || (action =? "results")%string)
  | SubmitAccessPoll =>
      (view s =? "voter")%string
      && negb (truthy (pollData s)) && negb (truthy (voterResults s))
  | ClickVote => (view s =? "voter")%string && truthy (pollData s)
  end.

(** Typing into an input or picking a radio button changes one of the
    input cells and none of the others. *)
Definition typing (s s' : State) : Prop :=
  view s' = view s /\ message s' = message s /\
  creatorInfo s' = creatorInfo s /\ creatorResults s' = creatorResults s /\
  pollData s' = pollData s /\ voterResults s' = voterResults s.

(** The states reached from the initial one when every handler has run to
    its end before the next action. *)
Inductive reachable : State -> Prop :=
| reach_initial : reachable initial
| reach_typing (s s' : State) : reachable s -> typing s s' -> reachable s'
| reach_action (s : State) (a : interaction) (net : network) :
    reachable s -> available a s = true ->
    reachable (state (final (run (handler a) net s))).

(** Each tab shows its own data only. *)
Definition separated (s : State) : Prop :=
  (view s = "creator" \/ view s = "voter") /\
  (view s = "voter" -> creatorInfo s = VNull /\ creatorResults s = VNull) /\
  (view s = "creator" -> pollData s = VNull /\ voterResults s = VNull).

End Reachable.

(** * Properties *)

Import JS Net Exec.

(** ** What a computation leaves unchanged *)

Section Frame.
Context {St : Type}.
Variable I : St -> Prop.

Lemma keeps_ret {A} (a : A) : keeps I (ret a).
Proof. intros net w H; exact H. Qed.

Lemma keeps_throw {A} (e : exn) : keeps I (@throw St A e).
Proof. intros net w H; exact H. Qed.

Lemma keeps_bind {A B} (c : M St A) (k : A -> M St B) :
  keeps I c -> (forall a, keeps I (k a)) -> keeps I (bind c k).
Proof.
  intros Hc Hk net w H. unfold bind.
  specialize (Hc net w H).
  destruct (c net w) as [a w'|e w']; simpl in *.
  - apply Hk; exact Hc.
  - exact Hc.
Qed.

Lemma keeps_try_catch {A} (c : M St A) (h : exn -> M St A) :
  keeps I c -> (forall e, keeps I (h e)) -> keeps I (try_catch c h).
Proof.
  intros Hc Hh net w H. unfold try_catch.
  specialize (Hc net w H).
  destruct (c net w) as [a w'|e w']; simpl in *.
  - exact Hc.
  - apply Hh; exact Hc.
Qed.

Lemma keeps_detach (c : M St unit) : keeps I c -> keeps I (detach c).
Proof.
  intros Hc net w H. unfold detach.
  specialize (Hc net w H).
  destruct (c net w) as [a w'|e w']; simpl in *; exact Hc.
Qed.

Lemma keeps_read : keeps I (@read St).
Proof. intros net w H; exact H. Qed.

Lemma keeps_set (f : St -> St) : (forall s, I s -> I (f s)) -> keeps I (set f).
Proof. intros Hf net w H; simpl; auto. Qed.

Lemma keeps_emit (e : effect) : keeps I (@emit St e).
Proof. intros net w H; exact H. Qed.

Lemma keeps_lift {A} (r : exn + A) : keeps I (@lift St A r).
Proof. destruct r; intros net w H; exact H. Qed.

Lemma keeps_fetch (r : request) : keeps I (@fetch St r).
Proof.
  intros net w H. unfold fetch.
  destruct (net (requests (trace w)) r); simpl; exact H.
Qed.

Lemma keeps_json (b : body) : keeps I (@json St b).
Proof. destruct b; intros net w H; exact H. Qed.

Lemma keeps_if {A} (b : bool) (c1 c2 : M St A) :
  keeps I c1 -> keeps I c2 -> keeps I (if b then c1 else c2).
Proof. destruct b; auto. Qed.

End Frame.

Create HintDb frame.
#[local] Hint Resolve keeps_ret keeps_throw keeps_read keeps_emit keeps_lift
  keeps_fetch keeps_json : frame.

Ltac frame :=
  repeat first
    [ apply keeps_bind; [ | intros ? ]
    | apply keeps_try_catch; [ | intros ? ]
    | apply keeps_if
    | apply keeps_detach
    | apply keeps_set; intros ? ?; simpl; assumption
    | solve [ auto with frame ] ].

(** ** Renders: parts in sequence *)

Section RenderFacts.
Context {W : Type}.
Local Open Scope render_scope.

Lemma seq_nil_l (b : exn + list W) : inr [] +++ b = b.
Proof. destruct b; reflexivity. Qed.

Lemma seq_nil_r (a : exn + list W) : a +++ inr [] = a.
Proof. destruct a as [ e | x ]; cbn; [ | rewrite app_nil_r ]; reflexivity. Qed.

Lemma child_of_ok (v : value) : Render.child_ok v = true -> @Render.child W v = inr [].
Proof. unfold Render.child. intros ->. reflexivity. Qed.

Lemma child_of_object (v : value) :
  Render.child_ok v = false -> @Render.child W v = inl Render.invalid_child.
Proof. unfold Render.child. intros ->. reflexivity. Qed.

Lemma children_spec (vs : list value) :
  @Render.children W vs
    = if forallb Render.child_ok vs then inr [] else inl Render.invalid_child.
Proof.
  induction vs as [ | v rest IH ]; [ reflexivity | ].
  cbn [Render.children forallb]. unfold Render.child.
  destruct (Render.child_ok v); cbn; [ | reflexivity ].
  rewrite IH. destruct (forallb Render.child_ok rest); reflexivity.
Qed.

Lemma all_parts_seq (P : W -> bool) (a b : exn + list W) :
  Render.all_parts P a = true -> Render.all_parts P b = true ->
  Render.all_parts P (a +++ b) = true.
Proof.
  destruct a as [ e | x ], b as [ e' | y ]; cbn; intros Ha Hb; try reflexivity.
  rewrite forallb_app, Ha, Hb. reflexivity.
Qed.

Lemma all_parts_child (P : W -> bool) (v : value) :
  Render.all_parts P (Render.child v) = true.
Proof. unfold Render.child. destruct (Render.child_ok v); reflexivity. Qed.

Lemma all_parts_children (P : W -> bool) (vs : list value) :
  Render.all_parts P (Render.children vs) = true.
Proof.
  rewrite children_spec. destruct (forallb Render.child_ok vs); reflexivity.
Qed.

Lemma all_parts_if (P : W -> bool) (c : bool) (a b : exn + list W) :
  Render.all_parts P a = true -> Render.all_parts P b = true ->
  Render.all_parts P (if c then a else b) = true.
Proof. destruct c; auto. Qed.

(** A part that no render has is not shown. *)
Lemma none_shown (f : W -> bool) (r : exn + list W) :
  Render.all_parts (fun w => negb (f w)) r = true ->
  match r with inr parts => existsb f parts | inl _ => false end = false.
Proof.
  destruct r as [ e | l ]; [ reflexivity | ]. cbn.
  induction l as [ | w l IH ]; [ reflexivity | ]. cbn.
  intros H. apply andb_true_iff in H. destruct H as [Hw Hl].
  apply negb_true_iff in Hw. rewrite Hw, (IH Hl). reflexivity.
Qed.

End RenderFacts.

Lemma VotingCard_of_poll (poll : value) :
  (Render.poll_ok poll = true -> TabApp.VotingCard poll = inr [TabApp.VotingForm poll]) /\
  (Render.poll_ok poll = false -> exists e, TabApp.VotingCard poll = inl e).
Proof.
  unfold Render.poll_ok, TabApp.VotingCard, Render.options_of.
  destruct (get_opt poll "options") as [ | | b | z | str | opts | ms ];
    try (split; [ intros H; discriminate H | intros _; eexists; reflexivity ]).
  rewrite children_spec. unfold Render.child.
  destruct (Render.child_ok (get_opt poll "question")),
           (forallb Render.child_ok opts); cbn;
    (split; [ intros H; first [ reflexivity | discriminate H ]
            | intros H; first [ discriminate H | eexists; reflexivity ] ]).
Qed.

Lemma ResultsDisplay_of_results (data : value) :
  (Render.results_ok data = true ->
   TabApp.ResultsDisplay data = inr [TabApp.ResultsPanel data]) /\
  (Render.results_ok data = false -> exists e, TabApp.ResultsDisplay data = inl e).
Proof.
  unfold Render.results_ok, TabApp.ResultsDisplay.
  destruct (Render.entry_values (get_opt data "results")) as [ e | votes ];
    [ split; [ intros H; discriminate H | intros _; eexists; reflexivity ] | ].
  rewrite children_spec. unfold Render.child.
  destruct (Render.child_ok (get_opt data "question")),
           (Render.child_ok (get_opt data "total_votes")),
           (forallb Render.child_ok votes); cbn;
    (split; [ intros H; first [ reflexivity | discriminate H ]
            | intros H; first [ discriminate H | eexists; reflexivity ] ]).
Qed.

(** Without a poll the tab-based page has no voting form, whatever else
    it shows or fails to show. *)
Lemma no_poll_hides_voting_form (s : TabApp.State) :
  truthy (TabApp.pollData s) = false -> TabApp.shows_voting_form s = false.
Proof.
  intros Hpoll. unfold TabApp.shows_voting_form. apply none_shown.
  unfold TabApp.render. rewrite Hpoll.
  assert (Hres : forall d,
             Render.all_parts (fun w => negb (TabApp.is_voting_form w))
               (TabApp.ResultsDisplay d) = true).
  { intros d. unfold TabApp.ResultsDisplay.
    destruct (Render.entry_values (get_opt d "results")); [ reflexivity | ].
    repeat apply all_parts_seq;
      first [ apply all_parts_child | apply all_parts_children | reflexivity ]. }
  repeat first
    [ apply all_parts_seq
    | apply all_parts_if
    | apply Hres
    | apply all_parts_child
    | reflexivity
    | unfold TabApp.CreatorInfo
    | unfold TabApp.MessageLine
    | unfold TabApp.when ].
  destruct (negb (truthy (TabApp.voterResults s))); reflexivity.
Qed.

(** Without a poll the voter's card has no voting form either. *)
Lemma no_poll_hides_vote_form (s : VotingApp.VoterDashboard.State) :
  truthy (VotingApp.VoterDashboard.pollData s) = false ->
  VotingApp.VoterDashboard.shows_vote_form s = false.
Proof.
  intros Hpoll. unfold VotingApp.VoterDashboard.shows_vote_form. apply none_shown.
  unfold VotingApp.VoterDashboard.render, VotingApp.VoterDashboard.MessageLine.
  rewrite Hpoll. cbn [andb negb].
  repeat first
    [ apply all_parts_seq | apply all_parts_if | apply all_parts_child | reflexivity ].
Qed.

(** ** The tab-based app: what a view change clears and what it keeps *)

Section TabFrame.
Import TabApp.
Variable k : string.

Let I (s : State) : Prop := selectedOption s = k.

Lemma clearMessages_keeps_selectedOption : keeps I clearMessages.
Proof. unfold clearMessages, setMessage, setCreatorInfo, setCreatorResults,
         setVoterResults, setPollData. frame. Qed.

Lemma handleAccessPoll_keeps_selectedOption : keeps I handleAccessPoll.
Proof.
  unfold handleAccessPoll.
  apply keeps_bind; [ auto with frame | intros s0 ].
  apply keeps_bind; [ apply clearMessages_keeps_selectedOption | intros _ ].
  unfold show_error, setMessage, setPollData, setVoterResults. frame.
Qed.

Lemma handleManageAction_keeps_selectedOption action :
  keeps I (handleManageAction action).
Proof.
  unfold handleManageAction.
  apply keeps_bind; [ auto with frame | intros s0 ].
  apply keeps_bind; [ apply clearMessages_keeps_selectedOption | intros _ ].
  unfold show_error, setMessage, setCreatorResults. frame.
Qed.

Lemma handleVote_keeps_selectedOption : keeps I handleVote.
Proof.
  unfold handleVote.
  apply keeps_bind; [ auto with frame | intros s0 ].
  apply keeps_bind; [ apply clearMessages_keeps_selectedOption | intros _ ].
  unfold show_error, setMessage, setPollData. frame.
Qed.

Lemma handleCreatePoll_keeps_selectedOption : keeps I handleCreatePoll.
Proof.
  unfold handleCreatePoll.
  apply keeps_bind; [ auto with frame | intros s0 ].
  apply keeps_bind; [ apply clearMessages_keeps_selectedOption | intros _ ].
  unfold show_error, setMessage, setCreatorInfo, setManagePollId, setCreatorId. frame.
Qed.

Lemma handleSetView_keeps_selectedOption newView : keeps I (handleSetView newView).
Proof.
  unfold handleSetView.
  apply keeps_bind; [ apply clearMessages_keeps_selectedOption | intros _ ].
  unfold setView. frame.
Qed.

Lemma handler_keeps_selectedOption (a : interaction) : keeps I (handler a).
Proof.
  destruct a; simpl.
  - apply handleSetView_keeps_selectedOption.
  - apply handleCreatePoll_keeps_selectedOption.
  - apply handleManageAction_keeps_selectedOption.
  - apply handleAccessPoll_keeps_selectedOption.
  - apply handleVote_keeps_selectedOption.
Qed.

Lemma after_keeps_selectedOption (acts : list (interaction * network)) (s : State) :
  I s -> I (after acts s).
Proof.
  revert s. induction acts as [ | [a net] rest IH ]; intros s Hs; simpl.
  - exact Hs.
  - apply IH. apply (handler_keeps_selectedOption a net {| state := s; trace := [] |}).
    exact Hs.
Qed.

End TabFrame.

(** C10.  In the tab-based app a view change ([handleSetView]) empties the
    message and resets [creatorInfo], [creatorResults], [voterResults] and
    [pollData] to [null], and it leaves [selectedOption] as it was; the
    selected option stays the same through any further view changes, poll
    accesses and other submissions, whatever the network answers. *)
Theorem handleSetView_clears_and_keeps_selection :
  forall (newView : string) (net : network) (s : TabApp.State)
         (later : list (TabApp.interaction * network)),
    let o := run (TabApp.handleSetView newView) net s in
    let s' := state (final o) in
    uncaught o = None /\
    TabApp.view s' = newView /\
    TabApp.message s' = {| text := VStr ""; isError := false |} /\
    TabApp.creatorInfo s' = VNull /\
    TabApp.creatorResults s' = VNull /\
    TabApp.voterResults s' = VNull /\
    TabApp.pollData s' = VNull /\
    TabApp.selectedOption s' = TabApp.selectedOption s /\
    TabApp.selectedOption (TabApp.after later s') = TabApp.selectedOption s.
Proof.
  intros newView net s later o s'.
  repeat split.
  apply (after_keeps_selectedOption (TabApp.selectedOption s)).
  reflexivity.
Qed.

(** ** The session-based app: routing *)

Section Routing.
Import VotingApp Navigation.

Lemma navigates_keeps_user (s s' : AppState) :
  navigates s s' -> user s' = user s.
Proof.
  intros H. inversion H as [s0 newPage pollId net | s0 net]; subst.
  - reflexivity.
  - destruct s as [p u a slot]. unfold goHome, run, bind, read. simpl.
    destruct u as [ | | b | z | str | items | members ]; simpl;
      try reflexivity;
      match goal with |- context [if ?c then _ else _] => destruct c end;
      reflexivity.
Qed.

Lemma reaches_keeps_user (s s' : AppState) :
  reaches s s' -> user s' = user s.
Proof.
  induction 1 as [ | s1 s2 _ IH Hstep ].
  - reflexivity.
  - rewrite (navigates_keeps_user _ _ Hstep). exact IH.
Qed.

Lemma voter_screen (s : AppState) :
  logged_in_as "voter" s -> renderPage s = VoterDashboardScreen (user s).
Proof.
  unfold logged_in_as, renderPage. intros H.
  destruct (get_opt (user s) "role") as [ | | b | z | r | items | members ];
    simpl in *; try discriminate H.
  apply String.eqb_eq in H. subst r. reflexivity.
Qed.

End Routing.

(** C9.  While a user whose role is ['voter'] is logged in, the screen that
    [renderPage] returns is the [VoterDashboard] of that user, whatever the
    current [page]: in every state reached through navigation requests
    ([navigateTo] with any view name and poll id, or the title link of the
    navigation bar) the screen is the same. *)
Theorem voter_sees_VoterDashboard_in_every_reached_state :
  forall s s' : VotingApp.AppState,
    Navigation.logged_in_as "voter" s ->
    Navigation.reaches s s' ->
    VotingApp.renderPage s' = VotingApp.VoterDashboardScreen (VotingApp.user s).
Proof.
  intros s s' Hrole Hreach.
  pose proof (reaches_keeps_user s s' Hreach) as Huser.
  rewrite <- Huser. apply voter_screen.
  unfold Navigation.logged_in_as in *. rewrite Huser. exact Hrole.
Qed.

Lemma voter_sees_VoterDashboard_witness :
  let alice := VObj [("username", VStr "alice"); ("role", VStr "voter")] in
  let s := {| VotingApp.page := "voterDashboard"; VotingApp.user := alice;
              VotingApp.activePollId := VNull; VotingApp.stored_user := None |} in
  let s' := {| VotingApp.page := "createPoll"; VotingApp.user := alice;
               VotingApp.activePollId := VNum 7; VotingApp.stored_user := None |} in
  Navigation.logged_in_as "voter" s /\
  Navigation.reaches s s' /\
  VotingApp.renderPage s' = VotingApp.VoterDashboardScreen alice.
Proof.
  intros alice s s'.
  assert (Hrole : Navigation.logged_in_as "voter" s) by reflexivity.
  assert (Hreach : Navigation.reaches s s').
  { apply (Navigation.reaches_step s s s').
    - apply Navigation.reaches_here.
    - exact (Navigation.nav_to s "createPoll" (VNum 7) (fun _ _ => Rejected "")). }
  split; [ exact Hrole | split; [ exact Hreach | ] ].
  exact (voter_sees_VoterDashboard_in_every_reached_state s s' Hrole Hreach).
Defined.

(** ** The creator's poll list: derived status *)

(** C5.  The status of a poll summary is decided by [is_active] and by the
    current time against [end_time], with Closed before Ended before Active:
    it is Closed exactly when [is_active] is falsy, whatever the time; Ended
    exactly when [is_active] is truthy and the current time is after the end
    time; and Active in every other case. *)
Theorem getStatus_precedence :
  forall (Date_value : value -> option Z) (now : Z)
         (poll : VotingApp.CreatorDashboard.PollSummary),
    let st := VotingApp.CreatorDashboard.status_text
                (VotingApp.CreatorDashboard.getStatus Date_value now poll) in
    let active := truthy (VotingApp.CreatorDashboard.is_active poll) in
    let ended := exists t, Date_value (VotingApp.CreatorDashboard.end_time poll) = Some t
                           /\ (t < now)%Z in
    (st = "Closed" <-> active = false) /\
    (st = "Ended" <-> active = true /\ ended) /\
    (st = "Active" <-> active = true /\ ~ ended) /\
    (st = "Closed" \/ st = "Ended" \/ st = "Active").
Proof.
  intros Date_value now poll. cbv zeta.
  unfold VotingApp.CreatorDashboard.getStatus, VotingApp.CreatorDashboard.after.
  destruct (truthy (VotingApp.CreatorDashboard.is_active poll)); simpl.
  - destruct (Date_value (VotingApp.CreatorDashboard.end_time poll)) as [t | ].
    + destruct (Z.gtb_spec now t) as [Hgt | Hle]; simpl.
      * repeat split; try discriminate; auto.
        -- exists t; split; [ reflexivity | lia ].
        -- intros [_ Hn]. exfalso. apply Hn. exists t; split; [ reflexivity | lia ].
      * repeat split; try discriminate; auto.
        -- intros [_ [t' [Ht' Hlt]]]. injection Ht' as <-. lia.
        -- intros [t' [Ht' Hlt]]. injection Ht' as <-. lia.
    + repeat split; try discriminate; auto.
      * intros [_ [t' [Ht' _]]]. discriminate Ht'.
      * intros [t' [Ht' _]]. discriminate Ht'.
  - repeat split; try discriminate; auto.
    + intros [H _]; discriminate H.
    + intros [H _]; discriminate H.
Qed.

(** ** Voting *)

(** C4.  When the server answers a vote with success (a 2xx status and a
    JSON body [data] other than [null]), both apps end with the poll detail
    cleared, so that the voting form is no longer shown, and with the
    message [data.message] as the server sent it, not marked as an error;
    the tab-based app stays on its view, the session-based app calls no
    navigation, and the vote is the only request. *)
Theorem vote_success_clears_poll_and_shows_server_message :
  forall (status : Z) (data m : value),
    ok status = true ->
    get data "message" = inr m ->
    (forall (net : network) (s : TabApp.State),
        TabApp.selectedOption s <> "" ->
        net [] (TabApp.vote_request s) = Http status (Json data) ->
        let o := run TabApp.handleVote net s in
        uncaught o = None /\
        TabApp.pollData (state (final o)) = VNull /\
        TabApp.shows_voting_form (state (final o)) = false /\
        TabApp.message (state (final o)) = {| text := m; isError := false |} /\
        TabApp.view (state (final o)) = TabApp.view s /\
        trace (final o) = [Fetched (TabApp.vote_request s)]) /\
    (forall (net : network) (s : VotingApp.VoterDashboard.State),
        net [] (VotingApp.VoterDashboard.vote_request s) = Http status (Json data) ->
        let o := run VotingApp.VoterDashboard.handleVote net s in
        uncaught o = None /\
        VotingApp.VoterDashboard.pollData (state (final o)) = VNull /\
        VotingApp.VoterDashboard.shows_vote_form (state (final o)) = false /\
        VotingApp.VoterDashboard.message (state (final o))
          = {| text := m; isError := false |} /\
        trace (final o) = [Fetched (VotingApp.VoterDashboard.vote_request s)]).
Proof.
  intros status data m Hok Hm. split.
  - intros net s Hsel Hnet o. subst o.
    unfold run, TabApp.handleVote, bind, read. simpl.
    rewrite (proj2 (String.eqb_neq _ _) Hsel). simpl.
    unfold try_catch, bind, fetch. simpl.
    rewrite Hnet. simpl. rewrite Hok. simpl. rewrite Hm. simpl.
    repeat split.
    apply no_poll_hides_voting_form. reflexivity.
  - intros net s Hnet o. subst o.
    unfold run, VotingApp.VoterDashboard.handleVote, bind, read. simpl.
    unfold try_catch, bind, fetch. simpl.
    rewrite Hnet. simpl. rewrite Hok. simpl. rewrite Hm. simpl.
    repeat split.
    apply no_poll_hides_vote_form. reflexivity.
Qed.

Lemma vote_success_witness :
  let status := 200%Z in
  let m := VStr "Vote cast successfully!" in
  let data := VObj [("message", m)] in
  let net : network := fun _ _ => Http status (Json data) in
  let s := {| TabApp.view := "voter";
              TabApp.message := {| text := VStr ""; isError := false |};
              TabApp.question := ""; TabApp.options := ""; TabApp.voters := "";
              TabApp.creatorInfo := VNull;
              TabApp.managePollId := VStr ""; TabApp.creatorId := VStr "";
              TabApp.creatorResults := VNull;
              TabApp.voterPollId := "p1"; TabApp.voterId := "v1";
              TabApp.pollData :=
                VObj [("question", VStr "Tea or coffee?");
                      ("options", VArr [VStr "tea"; VStr "coffee"]);
                      ("is_active", VBool true)];
              TabApp.voterResults := VNull;
              TabApp.selectedOption := "tea" |} in
  TabApp.shows_voting_form s = true /\
  TabApp.shows_voting_form (state (final (run TabApp.handleVote net s))) = false /\
  TabApp.message (state (final (run TabApp.handleVote net s)))
    = {| text := m; isError := false |}.
Proof.
  intros status m data net s.
  assert (Hok : ok status = true) by reflexivity.
  assert (Hm : get data "message" = inr m) by reflexivity.
  assert (Hsel : TabApp.selectedOption s <> "") by discriminate.
  assert (Hnet : net [] (TabApp.vote_request s) = Http status (Json data))
    by reflexivity.
  destruct (vote_success_clears_poll_and_shows_server_message status data m Hok Hm)
    as [Htab _].
  destruct (Htab net s Hsel Hnet) as (_ & _ & Hform & Hmsg & _).
  split; [ reflexivity | split; [ exact Hform | exact Hmsg ] ].
Defined.

(** ** Poll creation *)

(** One step of symbolic execution: case analysis on the innermost value a
    run branches on. *)
Ltac branch :=
  match goal with
  | |- context [match ?x with _ => _ end] =>
      lazymatch x with
      | context [match _ with _ => _ end] => fail
      | _ => destruct x eqn:?
      end
  end.

(** C3 (as amended).  A submission of the poll-creation form sends at
    most one request.  It sends exactly one when the statements before the
    choice of the voter list run through (both dates convert, the user has
    a [username] to read) and the list is there (manual method, or a file
    selected); when they do not run through, the handler throws before
    anything else happens: nothing is sent, no message is set, and the
    exception is caught nowhere.  A request that is sent carries exactly
    one list of voters: with the method ['manual'] the entry [voters_text]
    holding the text typed, otherwise the entry [voters_file] holding the
    file selected.  When the method is not ['manual'] (the CSV path) and
    no file is selected, no request is sent in any case, and the message is
    set to the error asking for a CSV file exactly when the statements
    before run through. *)
Theorem create_poll_attaches_exactly_one_voter_list :
  forall (toISOString : string -> option string) (net : network)
         (s : VotingApp.CreatePollForm.State),
    let o := run (VotingApp.CreatePollForm.handleCreatePoll toISOString) net s in
    let sent := requests (trace (final o)) in
    let manual := (VotingApp.CreatePollForm.voterInputMethod s =? "manual")%string in
    (List.length sent <= 1)%nat /\
    (Creation.prepares toISOString s = true ->
     manual = true \/ VotingApp.CreatePollForm.votersFile s <> None ->
     List.length sent = 1%nat) /\
    (Creation.prepares toISOString s = false ->
     sent = [] /\
     exists e, uncaught o = Some e /\ state (final o) = s) /\
    (forall r, In r sent ->
       if manual then
         Creation.voter_lists r
           = [("voters_text", Text (VotingApp.CreatePollForm.votersText s))]
       else
         exists f, VotingApp.CreatePollForm.votersFile s = Some f /\
                   Creation.voter_lists r = [("voters_file", Upload f)]) /\
    (manual = false ->
     VotingApp.CreatePollForm.votersFile s = None ->
     sent = [] /\
     if Creation.prepares toISOString s then
       uncaught o = None /\
       VotingApp.CreatePollForm.message (state (final o)) = Creation.csv_error
     else
       exists e, uncaught o = Some e /\
                 VotingApp.CreatePollForm.message (state (final o))
                   = VotingApp.CreatePollForm.message s).
Proof.
  intros toISOString net s o sent manual. subst sent o manual.
  unfold run, VotingApp.CreatePollForm.handleCreatePoll, bind, read,
    VotingApp.CreatePollForm.iso, try_catch, fetch, json, lift, Creation.prepares.
  simpl.
  repeat (branch; simpl).
  all: split; [ lia | split; [ | split; [ | split ] ] ];
    [ intros Hp Hsome;
      first [ reflexivity | discriminate Hp | destruct Hsome; congruence ]
    | intros Hp;
      first [ discriminate Hp
            | split; [ reflexivity | eexists; split; reflexivity ] ]
    | intros r Hin; simpl in Hin;
      first [ destruct Hin as [<- | []];
              first [ reflexivity | eexists; split; reflexivity ]
            | destruct Hin ]
    | intros Hm Hf; try congruence;
      (split; [ reflexivity | ]);
      first [ split; reflexivity | eexists; split; reflexivity ] ].
Qed.

Lemma create_poll_csv_without_file_witness :
  let toISOString : string -> option string :=
    fun t => if (t =? "")%string then None else Some (t ++ ":00.000Z") in
  let net : network := fun _ _ => Http 200 (Json (VObj [("poll_id", VStr "p1")])) in
  let s := {| VotingApp.CreatePollForm.user :=
                VObj [("username", VStr "alice"); ("role", VStr "creator")];
              VotingApp.CreatePollForm.question := "Tea or coffee?";
              VotingApp.CreatePollForm.options := "tea, coffee";
              VotingApp.CreatePollForm.voterInputMethod := "csv";
              VotingApp.CreatePollForm.votersText := "1234";
              VotingApp.CreatePollForm.votersFile := None;
              VotingApp.CreatePollForm.startTime := "2025-01-01T10:00";
              VotingApp.CreatePollForm.endTime := "2025-01-02T10:00";
              VotingApp.CreatePollForm.message :=
                {| text := VStr ""; isError := false |} |} in
  let o := run (VotingApp.CreatePollForm.handleCreatePoll toISOString) net s in
  requests (trace (final o)) = [] /\
  VotingApp.CreatePollForm.message (state (final o)) = Creation.csv_error.
Proof.
  intros toISOString net s o.
  destruct (create_poll_attaches_exactly_one_voter_list toISOString net s)
    as (_ & _ & _ & _ & Hcsv).
  assert (Hmethod : (VotingApp.CreatePollForm.voterInputMethod s =? "manual")%string
                    = false) by reflexivity.
  assert (Hfile : VotingApp.CreatePollForm.votersFile s = None) by reflexivity.
  destruct (Hcsv Hmethod Hfile) as [Hsent Hmsg].
  assert (Hp : Creation.prepares toISOString s = true) by reflexivity.
  rewrite Hp in Hmsg. destruct Hmsg as [_ Hm].
  split; [ exact Hsent | exact Hm ].
Defined.

(** C3, as first stated, fails for a date that does not convert: with the
    CSV method, no file selected and a start time that is no date (a text
    typed where the browser has no date picker), the handler throws a
    [RangeError] before it looks at the file; nothing is sent, but no error
    message is set either, and the exception is caught nowhere. *)
Lemma create_poll_invalid_date_sets_no_message :
  let toISOString : string -> option string :=
    fun t => if (t =? "soon")%string then None else Some (t ++ ":00.000Z") in
  let s := {| VotingApp.CreatePollForm.user :=
                VObj [("username", VStr "alice"); ("role", VStr "creator")];
              VotingApp.CreatePollForm.question := "Tea or coffee?";
              VotingApp.CreatePollForm.options := "tea, coffee";
              VotingApp.CreatePollForm.voterInputMethod := "csv";
              VotingApp.CreatePollForm.votersText := "";
              VotingApp.CreatePollForm.votersFile := None;
              VotingApp.CreatePollForm.startTime := "soon";
              VotingApp.CreatePollForm.endTime := "2025-01-02T10:00";
              VotingApp.CreatePollForm.message :=
                {| text := VStr ""; isError := false |} |} in
  let o := run (VotingApp.CreatePollForm.handleCreatePoll toISOString)
               Samples.offline s in
  requests (trace (final o)) = [] /\
  uncaught o = Some (RangeError "Invalid time value") /\
  isError (VotingApp.CreatePollForm.message (state (final o))) = false /\
  VotingApp.CreatePollForm.message (state (final o)) <> Creation.csv_error.
Proof. repeat split. intros H. discriminate H. Qed.

(** ** Poll access *)

Lemma member_of_object (data : value) (key : string) (v : value) :
  get data key = inr v -> truthy v = true -> truthy data = true.
Proof.
  destruct data; simpl; intros H Hv; try reflexivity; try discriminate H;
    injection H as <-; discriminate Hv.
Qed.

Lemma get_opt_of_get (data : value) (key : string) (v : value) :
  get data key = inr v -> get_opt data key = v.
Proof.
  destruct data; simpl; intros H; try discriminate H; injection H as <-; reflexivity.
Qed.

(** The page of the voter tab while the creator's results are empty: the
    access form, the voting card, the voter's results, the message. *)
Lemma render_voter_tab (s : TabApp.State) :
  TabApp.view s = "voter" ->
  truthy (TabApp.creatorResults s) = false ->
  TabApp.render s
    = ((inr (TabApp.when (negb (truthy (TabApp.pollData s))
                          && negb (truthy (TabApp.voterResults s))) TabApp.AccessForm)
        +++ (if truthy (TabApp.pollData s) then TabApp.VotingCard (TabApp.pollData s)
             else inr [])
        +++ (if truthy (TabApp.voterResults s)
             then TabApp.ResultsDisplay (TabApp.voterResults s) else inr []))
       +++ TabApp.MessageLine (TabApp.message s))%render.
Proof.
  intros Hview Hres. unfold TabApp.render. rewrite Hview, Hres.
  cbn [String.eqb Ascii.eqb Bool.eqb andb]. rewrite seq_nil_l, seq_nil_r. reflexivity.
Qed.

(** C2 (as amended).  In the tab-based app, a poll access whose status
    fetch succeeds with a falsy [is_active] issues exactly one follow-up
    request, the one for the results, and never shows the voting form.
    When that request succeeds with a JSON object, the object becomes the
    voter's results; the page shows them, under the message that the poll
    has ended, if [ResultsDisplay] can be built from the object ([results]
    is there; the question, the total and the counts are no objects), and
    otherwise the render throws.  With a truthy [is_active] the status
    fetch is the only request and its body becomes the poll; the voting
    form is shown exactly when it can be built from the body ([options] is
    an array; the question and the options are no objects), and otherwise
    the render throws.  In the session-based app the status fetch is the
    only request in both cases: the voting form is shown exactly when
    [is_active] is truthy and the form can be built, an active poll whose
    form cannot be built makes the render throw, and a poll that has ended
    gets the notice that it is not active. *)
Theorem poll_access_follow_up :
  forall (status : Z) (data active : value),
    ok status = true ->
    get data "is_active" = inr active ->
    (forall (net : network) (s : TabApp.State),
        TabApp.view s = "voter" ->
        net [] (TabApp.status_request s) = Http status (Json data) ->
        let o := run TabApp.handleAccessPoll net s in
        let s' := state (final o) in
        if truthy active then
          requests (trace (final o)) = [TabApp.status_request s] /\
          TabApp.pollData s' = data /\
          TabApp.shows_voting_form s' = Render.poll_ok data /\
          (Render.poll_ok data = true ->
           TabApp.render s' = inr [TabApp.VotingForm data]) /\
          (Render.poll_ok data = false -> exists e, TabApp.render s' = inl e)
        else
          requests (trace (final o))
            = [TabApp.status_request s; TabApp.results_request s] /\
          TabApp.shows_voting_form s' = false /\
          (forall (status2 : Z) (members : list (string * value)),
              ok status2 = true ->
              net [TabApp.status_request s] (TabApp.results_request s)
                = Http status2 (Json (VObj members)) ->
              TabApp.voterResults s' = VObj members /\
              (Render.results_ok (VObj members) = true ->
               TabApp.render s'
                 = inr [TabApp.ResultsPanel (VObj members);
                        TabApp.MessageBox
                          {| text := VStr "This poll has ended. Fetching results...";
                             isError := false |}]) /\
              (Render.results_ok (VObj members) = false ->
               exists e, TabApp.render s' = inl e))) /\
    (forall (net : network) (s : VotingApp.VoterDashboard.State),
        net [] (VotingApp.VoterDashboard.status_request s) = Http status (Json data) ->
        let o := run VotingApp.VoterDashboard.handleFetchPoll net s in
        let s' := state (final o) in
        requests (trace (final o)) = [VotingApp.VoterDashboard.status_request s] /\
        VotingApp.VoterDashboard.shows_vote_form s'
          = (truthy active && Render.poll_ok data)%bool /\
        (truthy active = true -> Render.poll_ok data = true ->
         VotingApp.VoterDashboard.render s'
           = inr [VotingApp.VoterDashboard.VoteForm data]) /\
        (truthy active = true -> Render.poll_ok data = false ->
         exists e, VotingApp.VoterDashboard.render s' = inl e) /\
        (truthy data = true -> truthy active = false ->
         Render.child_ok (get_opt data "question") = true ->
         VotingApp.VoterDashboard.render s'
           = inr [VotingApp.VoterDashboard.InactiveNotice])).
Proof.
  intros status data active Hok Hactive. split.
  - intros net s Hview Hnet o s'. subst s' o.
    unfold run, TabApp.handleAccessPoll, bind, read, try_catch, fetch. simpl.
    rewrite Hnet. simpl. rewrite Hok. simpl. rewrite Hactive. simpl.
    destruct (truthy active) eqn:Ha; simpl.
    + pose proof (member_of_object _ _ _ Hactive Ha) as Hd.
      assert (Hrender :
        TabApp.render
          {| TabApp.view := TabApp.view s;
             TabApp.message := {| text := VStr ""; isError := false |};
             TabApp.question := TabApp.question s;
             TabApp.options := TabApp.options s;
             TabApp.voters := TabApp.voters s;
             TabApp.creatorInfo := VNull;
             TabApp.managePollId := TabApp.managePollId s;
             TabApp.creatorId := TabApp.creatorId s;
             TabApp.creatorResults := VNull;
             TabApp.voterPollId := TabApp.voterPollId s;
             TabApp.voterId := TabApp.voterId s;
             TabApp.pollData := data;
             TabApp.voterResults := VNull;
             TabApp.selectedOption := TabApp.selectedOption s |}
        = TabApp.VotingCard data).
      { rewrite render_voter_tab by (first [ exact Hview | reflexivity ]).
        cbn [TabApp.pollData TabApp.voterResults TabApp.message truthy negb andb
             TabApp.when TabApp.MessageLine text String.eqb].
        rewrite Hd. cbn [negb andb TabApp.when]. rewrite seq_nil_l, seq_nil_r, seq_nil_r.
        reflexivity. }
      split; [ reflexivity | split; [ reflexivity | ] ].
      unfold TabApp.shows_voting_form. rewrite Hrender.
      destruct (VotingCard_of_poll data) as [Hyes Hno].
      destruct (Render.poll_ok data).
      * rewrite (Hyes eq_refl). repeat split. intros H; discriminate H.
      * destruct (Hno eq_refl) as [e He]. rewrite He.
        repeat split; [ intros H; discriminate H | intros _; exists e; reflexivity ].
    + split; [ | split ].
      * unfold json, lift. repeat (branch; simpl); reflexivity.
      * apply no_poll_hides_voting_form.
        unfold json, lift. repeat (branch; simpl); reflexivity.
      * intros status2 members Hok2 Hnet2.
        rewrite Hnet2. simpl. rewrite Hok2. simpl.
        split; [ reflexivity | ].
        rewrite render_voter_tab by (first [ exact Hview | reflexivity ]).
        cbn [TabApp.pollData TabApp.voterResults TabApp.message truthy negb andb
             TabApp.when TabApp.MessageLine text String.eqb Ascii.eqb Bool.eqb
             Render.child Render.child_ok].
        rewrite seq_nil_l, seq_nil_l.
        destruct (ResultsDisplay_of_results (VObj members)) as [Hyes Hno].
        split.
        -- intros Hres. rewrite (Hyes Hres). reflexivity.
        -- intros Hres. destruct (Hno Hres) as [e He]. rewrite He.
           exists e. reflexivity.
  - intros net s Hnet o s'. subst s' o.
    unfold run, VotingApp.VoterDashboard.handleFetchPoll, bind, read, try_catch,
      fetch. simpl.
    rewrite Hnet. simpl. rewrite Hok. simpl.
    split; [ reflexivity | ].
    unfold VotingApp.VoterDashboard.shows_vote_form,
      VotingApp.VoterDashboard.render, VotingApp.VoterDashboard.MessageLine.
    cbn [VotingApp.VoterDashboard.pollData VotingApp.VoterDashboard.message text
         truthy String.eqb negb].
    rewrite (get_opt_of_get _ _ _ Hactive).
    destruct (truthy active) eqn:Ha.
    + rewrite (member_of_object _ _ _ Hactive Ha). cbn [andb negb].
      unfold Render.poll_ok, Render.options_of.
      destruct (get_opt data "options") as [ | | b | z | str | opts | ms ];
        try (repeat split; intros; try discriminate; eexists; reflexivity).
      rewrite children_spec. unfold Render.child.
      destruct (Render.child_ok (get_opt data "question")),
               (forallb Render.child_ok opts); cbn;
        repeat split; intros; try discriminate; try reflexivity;
        eexists; reflexivity.
    + rewrite andb_false_r. cbn [andb].
      destruct (truthy data) eqn:Hd; cbn [negb andb].
      * unfold Render.child.
        destruct (Render.child_ok (get_opt data "question")); cbn;
          repeat split; intros; try discriminate; reflexivity.
      * repeat split; intros; discriminate.
Qed.

Lemma poll_access_follow_up_witness :
  let net := Samples.ended_backend in
  let s := Samples.voter_tab "p1" in
  let o := run TabApp.handleAccessPoll net s in
  requests (trace (final o)) = [TabApp.status_request s; TabApp.results_request s] /\
  TabApp.shows_voting_form (state (final o)) = false /\
  TabApp.render (state (final o))
    = inr [TabApp.ResultsPanel Samples.final_results;
           TabApp.MessageBox {| text := VStr "This poll has ended. Fetching results...";
                                isError := false |}].
Proof.
  intros net s o.
  assert (Hok : ok 200 = true) by reflexivity.
  assert (Hactive : get Samples.ended_poll "is_active" = inr (VBool false))
    by reflexivity.
  destruct (poll_access_follow_up 200 Samples.ended_poll (VBool false) Hok Hactive)
    as [Htab _].
  assert (Hview : TabApp.view s = "voter") by reflexivity.
  assert (Hnet : net [] (TabApp.status_request s) = Http 200 (Json Samples.ended_poll))
    by reflexivity.
  destruct (Htab net s Hview Hnet) as (Hsent & Hform & Hres).
  destruct (Hres 200 _ Hok eq_refl) as (_ & Hshown & _).
  split; [ exact Hsent | split; [ exact Hform | exact (Hshown eq_refl) ] ].
Defined.

(** C2, as first stated, fails in the session-based app: for a poll whose
    status comes back with [is_active = false], [handleFetchPoll] sends the
    status request and nothing else, and the dashboard shows the notice
    instead of results. *)
Lemma poll_access_session_sends_no_results_request :
  let s := Samples.voter_looking_up "p1" in
  let o := run VotingApp.VoterDashboard.handleFetchPoll
               (Samples.always Samples.ended_poll) s in
  get Samples.ended_poll "is_active" = inr (VBool false) /\
  requests (trace (final o)) = [VotingApp.VoterDashboard.status_request s] /\
  VotingApp.VoterDashboard.render (state (final o))
    = inr [VotingApp.VoterDashboard.InactiveNotice].
Proof. repeat split. Qed.

(** ** Error texts *)

Lemma new_Error_truthy (v : value) :
  truthy v = true -> emessage (new_Error v) = to_string v.
Proof. destruct v; simpl; intros H; try reflexivity; discriminate H. Qed.

(** C6 (as amended).  For a response with a non-2xx status and a JSON body
    other than [null], [handleManageAction] shows, as an error, the body's
    [error] member if it is truthy, else its [message] member if it is
    truthy, else the text ["Failed to <action> poll."]; the login and
    signup form ([handleSubmit]) shows the [error] member if it is truthy
    and else ["HTTP error! status: <status>"], without looking at the
    [message] member. *)
Theorem error_text_priority :
  forall (status : Z) (data e m : value),
    ok status = false ->
    get data "error" = inr e ->
    get data "message" = inr m ->
    (forall (action : string) (net : network) (s : TabApp.State),
        net [] (TabApp.manage_request action s) = Http status (Json data) ->
        TabApp.message (state (final (run (TabApp.handleManageAction action) net s)))
          = {| text := VStr (ErrorPolicy.preferred e m ("Failed to " ++ action ++ " poll."));
               isError := true |}) /\
    (forall (isSignup : bool) (net : network) (s : VotingApp.AuthPage.State),
        net [] (VotingApp.AuthPage.auth_request isSignup s) = Http status (Json data) ->
        VotingApp.AuthPage.message
          (state (final (run (VotingApp.AuthPage.handleSubmit isSignup) net s)))
          = {| text := VStr (ErrorPolicy.error_or e
                               ("HTTP error! status: " ++ string_of_Z status));
               isError := true |}).
Proof.
  intros status data e m Hok He Hm. split.
  - intros action net s Hnet.
    unfold run, TabApp.handleManageAction, bind, read, try_catch, fetch.
    cbn -[new_Error truthy to_string].
    rewrite Hnet. cbn -[new_Error truthy to_string].
    rewrite Hok. cbn -[new_Error truthy to_string].
    rewrite He. cbn -[new_Error truthy to_string].
    unfold ErrorPolicy.preferred.
    destruct (truthy e) eqn:Te; cbn -[new_Error truthy to_string].
    + rewrite (new_Error_truthy e Te). reflexivity.
    + rewrite Hm. unfold or_else. cbn -[new_Error truthy to_string].
      destruct (truthy m) eqn:Tm; cbn -[new_Error truthy to_string].
      * rewrite (new_Error_truthy m Tm). reflexivity.
      * reflexivity.
  - intros isSignup net s Hnet.
    unfold run, VotingApp.AuthPage.handleSubmit, bind, read, try_catch, fetch.
    cbn -[new_Error truthy to_string].
    rewrite Hnet. cbn -[new_Error truthy to_string].
    rewrite Hok. cbn -[new_Error truthy to_string].
    rewrite He. cbn -[new_Error truthy to_string].
    unfold ErrorPolicy.error_or, or_else.
    destruct (truthy e) eqn:Te; cbn -[new_Error truthy to_string].
    + rewrite (new_Error_truthy e Te). reflexivity.
    + reflexivity.
Qed.

Lemma error_text_priority_witness :
  let data := VObj [("message", VStr "Poll not found")] in
  let net := Samples.answering 404 data in
  let s := TabApp.initial in
  TabApp.message (state (final (run (TabApp.handleManageAction "end") net s)))
    = {| text := VStr "Poll not found"; isError := true |}.
Proof.
  intros data net s.
  assert (Hok : ok 404 = false) by reflexivity.
  assert (He : get data "error" = inr VUndef) by reflexivity.
  assert (Hm : get data "message" = inr (VStr "Poll not found")) by reflexivity.
  destruct (error_text_priority 404 data VUndef (VStr "Poll not found") Hok He Hm)
    as [Hmanage _].
  assert (Hnet : net [] (TabApp.manage_request "end" s) = Http 404 (Json data))
    by reflexivity.
  exact (Hmanage "end" net s Hnet).
Defined.

(** C6, as first stated, fails for the login form: a 401 answer that
    carries only a [message] member is shown as the generic status text,
    not as the server's message. *)
Lemma login_error_ignores_message_member :
  let data := VObj [("message", VStr "Invalid credentials")] in
  let o := run (VotingApp.AuthPage.handleSubmit false)
               (Samples.answering 401 data) (Samples.logging_in "alice" "x") in
  get data "error" = inr VUndef /\
  get data "message" = inr (VStr "Invalid credentials") /\
  VotingApp.AuthPage.message (state (final o))
    = {| text := VStr "HTTP error! status: 401"; isError := true |}.
Proof. repeat split. Qed.

(** ** Startup: restoring the session *)

Section Restore.
Import VotingApp.
Variable JSON_parse : string -> exn + value.
Variable net : network.

(** With no stored session, or an empty one, nothing changes: no user, and
    the view is home. *)
Lemma restore_absent (slot : option string) :
  slot = None \/ slot = Some "" ->
  run (restore JSON_parse) net (app_initial slot)
    = Returned tt {| state := app_initial slot; trace := [] |}.
Proof. intros [-> | ->]; reflexivity. Qed.

(** A stored text that parses to an object becomes the user, and the view
    is the dashboard of its role. *)
Lemma restore_session (stored : string) (members : list (string * value)) :
  stored <> "" ->
  JSON_parse stored = inr (VObj members) ->
  run (restore JSON_parse) net (app_initial (Some stored))
    = Returned tt
        {| state := {| page := dashboard_of (lookup "role" members);
                       user := VObj members;
                       activePollId := VNull;
                       stored_user := Some stored |};
           trace := [] |}.
Proof.
  intros Hne Hparse.
  unfold run, restore, bind, read. simpl.
  rewrite (proj2 (String.eqb_neq _ _) Hne). simpl.
  rewrite Hparse. reflexivity.
Qed.

End Restore.

(** C7 does not hold of the code for a malformed slot: a stored text that
    [JSON.parse] rejects makes the startup effect throw.  The exception is
    caught nowhere; the state is still the initial one (no user, view home),
    but the effect has not returned normally. *)
Theorem restore_malformed_slot_throws :
  forall (JSON_parse : string -> exn + value) (net : network)
         (stored : string) (e : exn),
    stored <> "" ->
    JSON_parse stored = inl e ->
    run (VotingApp.restore JSON_parse) net (VotingApp.app_initial (Some stored))
      = Threw e {| state := VotingApp.app_initial (Some stored); trace := [] |}.
Proof.
  intros JSON_parse net stored e Hne Hparse.
  unfold run, VotingApp.restore, bind, read. simpl.
  rewrite (proj2 (String.eqb_neq _ _) Hne). simpl.
  rewrite Hparse. reflexivity.
Qed.

Lemma restore_malformed_slot_witness :
  uncaught (run (VotingApp.restore JSONText.parse) Samples.offline
                (VotingApp.app_initial (Some "{")))
    = Some (SyntaxError "Unexpected token in JSON").
Proof.
  assert (Hne : "{" <> "") by discriminate.
  assert (Hparse : JSONText.parse "{" = inl (SyntaxError "Unexpected token in JSON"))
    by reflexivity.
  rewrite (restore_malformed_slot_throws JSONText.parse Samples.offline "{" _ Hne Hparse).
  reflexivity.
Defined.

(** The stored session of a creator, and a stored [null]: the first is
    restored, the second parses but has no [role] to read. *)
Example restore_alice :
  let stored := "{" ++ JSONText.member "username" (JSONText.lit "alice") ++ ","
                    ++ JSONText.member "role" (JSONText.lit "creator") ++ "}" in
  let o := run (VotingApp.restore JSONText.parse) Samples.offline
               (VotingApp.app_initial (Some stored)) in
  uncaught o = None /\
  VotingApp.page (state (final o)) = "creatorDashboard" /\
  VotingApp.user (state (final o))
    = VObj [("username", VStr "alice"); ("role", VStr "creator")].
Proof. repeat split. Qed.

Example restore_null :
  uncaught (run (VotingApp.restore JSONText.parse) Samples.offline
                (VotingApp.app_initial (Some "null")))
    = Some (TypeError "Cannot read properties of null (reading 'role')").
Proof. reflexivity. Qed.

(** ** Requests made outside a [try] *)

(** C8 does not hold of the code for the poll list and the analytics: when
    [fetch] rejects, [fetchPolls] and [fetchAnalytics] end with the
    exception uncaught (on mount: a rejection nobody handles), the poll
    list is left as it was, the analytics stay in the loading state, and no
    message is produced; [handleClosePoll], in the same component, catches
    the same failure and reports it. *)
Theorem list_and_analytics_failures_are_uncaught :
  forall (msg : string) (members : list (string * value)) (id : value),
    let net : network := fun _ _ => Rejected msg in
    let s := VotingApp.CreatorDashboard.initial (VObj members) in
    let a := VotingApp.PollAnalyticsDashboard.initial id in
    uncaught (run VotingApp.CreatorDashboard.fetchPolls net s)
      = Some (TypeError msg) /\
    state (final (run VotingApp.CreatorDashboard.fetchPolls net s)) = s /\
    In (Unhandled (TypeError msg))
       (trace (final (run VotingApp.CreatorDashboard.on_mount net s))) /\
    uncaught (run VotingApp.PollAnalyticsDashboard.fetchAnalytics net a)
      = Some (TypeError msg) /\
    VotingApp.PollAnalyticsDashboard.isLoading
      (state (final (run VotingApp.PollAnalyticsDashboard.fetchAnalytics net a)))
      = true /\
    In (Unhandled (TypeError msg))
       (trace (final (run VotingApp.PollAnalyticsDashboard.on_mount net a))) /\
    uncaught (run (VotingApp.CreatorDashboard.handleClosePoll true id) net s) = None /\
    In (Alerted ("Error: " ++ msg))
       (trace (final (run (VotingApp.CreatorDashboard.handleClosePoll true id) net s))).
Proof.
  intros msg members id net s a.
  repeat split; simpl; auto.
Qed.

(** A failure status goes unnoticed as well: the body of a 500 answer is
    stored as the poll list. *)
Example fetchPolls_stores_error_body :
  let body := VObj [("error", VStr "database unavailable")] in
  let s := VotingApp.CreatorDashboard.initial (VObj [("username", VStr "alice")]) in
  let o := run VotingApp.CreatorDashboard.fetchPolls (Samples.answering 500 body) s in
  uncaught o = None /\ VotingApp.CreatorDashboard.polls (state (final o)) = body.
Proof. repeat split. Qed.

(** ** Binary64 arithmetic: rounding to nearest *)

Section Binary64.
Import Rounding.
Local Open Scope Z_scope.

Lemma digits2_pos_bounds (p : positive) :
  2 ^ (Zpos (digits2_pos p) - 1) <= Zpos p < 2 ^ Zpos (digits2_pos p).
Proof.
  induction p as [p IH | p IH | ]; simpl digits2_pos.
  - rewrite Pos2Z.inj_succ.
    replace (Z.succ (Zpos (digits2_pos p)) - 1) with (Z.succ (Zpos (digits2_pos p) - 1)) by lia.
    rewrite !Z.pow_succ_r by lia. lia.
  - rewrite Pos2Z.inj_succ.
    replace (Z.succ (Zpos (digits2_pos p)) - 1) with (Z.succ (Zpos (digits2_pos p) - 1)) by lia.
    rewrite !Z.pow_succ_r by lia. lia.
  - simpl. lia.
Qed.

Lemma digits2_pos_unique (p : positive) (d : Z) :
  2 ^ (d - 1) <= Zpos p < 2 ^ d -> Zpos (digits2_pos p) = d.
Proof.
  intros [Hlo Hhi].
  pose proof (digits2_pos_bounds p) as [Hlo' Hhi'].
  assert (0 < d).
  { destruct (Z.ltb_spec 0 d) as [|Hd]; [ assumption | ].
    assert (2 ^ d <= 2 ^ 0) by (apply Z.pow_le_mono_r; lia).
    simpl in *. lia. }
  destruct (Z.lt_trichotomy (Zpos (digits2_pos p)) d) as [Hlt | [Heq | Hgt]].
  - assert (2 ^ Zpos (digits2_pos p) <= 2 ^ (d - 1)) by (apply Z.pow_le_mono_r; lia). lia.
  - exact Heq.
  - assert (2 ^ d <= 2 ^ (Zpos (digits2_pos p) - 1)) by (apply Z.pow_le_mono_r; lia). lia.
Qed.

Lemma iter_pos_nat {A} (f : A -> A) (p : positive) (x : A) :
  iter_pos f p x = Nat.iter (Pos.to_nat p) f x.
Proof.
  revert x. induction p as [p IH | p IH | ]; intros x; cbn [iter_pos].
  - rewrite !IH. rewrite Pos2Nat.inj_xI.
    replace (S (2 * Pos.to_nat p)) with (Pos.to_nat p + S (Pos.to_nat p))%nat by lia.
    rewrite Nat.iter_add. rewrite Nat.iter_succ_r. reflexivity.
  - rewrite !IH. rewrite Pos2Nat.inj_xO.
    replace (2 * Pos.to_nat p)%nat with (Pos.to_nat p + Pos.to_nat p)%nat by lia.
    rewrite Nat.iter_add. reflexivity.
  - reflexivity.
Qed.

Lemma shr_1_eq (m : Z) (r s : bool) :
  0 <= m ->
  shr_1 (Build_shr_record m r s) = Build_shr_record (m / 2) (Z.odd m) (r || s).
Proof.
  intros Hm. destruct m as [ | [p | p | ] | p ]; try lia; unfold shr_1.
  - reflexivity.
  - f_equal. rewrite Pos2Z.inj_xI. apply Z.div_unique with (r := 1); lia.
  - f_equal. rewrite Pos2Z.inj_xO. apply Z.div_unique with (r := 0); lia.
  - reflexivity.
Qed.

Lemma shr_1_m (mrs : shr_record) :
  0 <= shr_m mrs -> shr_m (shr_1 mrs) = shr_m mrs / 2.
Proof.
  destruct mrs as [m r s]. intros Hm. simpl in Hm.
  rewrite shr_1_eq by exact Hm. reflexivity.
Qed.

Lemma shr_1_locates (mrs : shr_record) (N D : Z) :
  0 <= shr_m mrs -> 0 < D -> locates mrs N D -> locates (shr_1 mrs) N (2 * D).
Proof.
  destruct mrs as [m r s]. intros Hm HD H. simpl in Hm.
  rewrite shr_1_eq by exact Hm.
  unfold locates in *. simpl shr_m in *. simpl shr_r in *. simpl shr_s in *.
  pose proof (Z.div_mod m 2 ltac:(lia)) as Hdm.
  rewrite Zmod_odd in Hdm.
  set (q := m / 2) in *. clearbody q.
  destruct (Z.odd m), r, s; simpl orb; cbv iota; nia.
Qed.

Lemma iter_shr_1 (k : nat) (mrs : shr_record) (N D : Z) :
  0 <= shr_m mrs -> 0 < D -> locates mrs N D ->
  let r := Nat.iter k shr_1 mrs in
  shr_m r = shr_m mrs / 2 ^ Z.of_nat k /\ locates r N (2 ^ Z.of_nat k * D).
Proof.
  intros Hm HD H. induction k as [ | k IH ].
  - change (Nat.iter 0 shr_1 mrs) with mrs. change (Z.of_nat 0) with 0.
    rewrite Z.pow_0_r, Z.div_1_r, Z.mul_1_l. split; [ reflexivity | exact H ].
  - cbn zeta in *. rewrite Nat.iter_succ. destruct IH as [IHm IHl].
    assert (Hk : 0 < 2 ^ Z.of_nat k) by (apply Z.pow_pos_nonneg; lia).
    assert (Hnn : 0 <= shr_m (Nat.iter k shr_1 mrs)).
    { rewrite IHm. apply Z.div_pos; lia. }
    rewrite Nat2Z.inj_succ, Z.pow_succ_r by lia.
    split.
    + rewrite shr_1_m by exact Hnn. rewrite IHm.
      rewrite Z.div_div by lia. f_equal. lia.
    + replace (2 * 2 ^ Z.of_nat k * D) with (2 * (2 ^ Z.of_nat k * D)) by lia.
      apply shr_1_locates; [ exact Hnn | lia | exact IHl ].
Qed.

Lemma round_nearest_even_close (mrs : shr_record) (N D : Z) :
  0 < D -> locates mrs N D ->
  let m' := round_nearest_even (shr_m mrs) (loc_of_shr_record mrs) in
  (m' = shr_m mrs \/ m' = shr_m mrs + 1) /\ Z.abs (2 * m' * D - 2 * N) <= D.
Proof.
  destruct mrs as [m r s]. unfold locates. simpl shr_m. simpl shr_r. simpl shr_s.
  intros HD H.
  destruct r, s; cbn -[Z.mul Z.add Z.sub Z.even].
  - split; [ right; reflexivity | apply Z.abs_le; nia ].
  - destruct (Z.even m); (split; [ auto | apply Z.abs_le; nia ]).
  - split; [ left; reflexivity | apply Z.abs_le; nia ].
  - split; [ left; reflexivity | apply Z.abs_le; nia ].
Qed.

Lemma fexp_53 (x : Z) : fexp 53 1024 x = Z.max (x - 53) (-1074).
Proof. reflexivity. Qed.

Lemma shr_m_of_loc (m : Z) (l : location) : shr_m (shr_record_of_loc m l) = m.
Proof. destruct l as [ | [ | | ] ]; reflexivity. Qed.

Lemma shr_fexp_eq (m e : Z) (l : location) :
  let n := fexp 53 1024 (Zdigits2 m + e) - e in
  0 <= n ->
  shr_fexp 53 1024 m e l
    = (Nat.iter (Z.to_nat n) shr_1 (shr_record_of_loc m l), e + n).
Proof.
  intros n Hn. unfold shr_fexp. fold n. unfold shr.
  destruct n as [ | p | p ]; try lia.
  - rewrite Z.add_0_r. reflexivity.
  - rewrite iter_pos_nat. reflexivity.
Qed.

Lemma Zdigits2_bounds (m : Z) :
  0 < m -> 2 ^ (Zdigits2 m - 1) <= m < 2 ^ Zdigits2 m.
Proof.
  destruct m as [ | p | p ]; try lia. intros _. apply digits2_pos_bounds.
Qed.

Lemma Zdigits2_unique (m d : Z) :
  0 < m -> 2 ^ (d - 1) <= m < 2 ^ d -> Zdigits2 m = d.
Proof.
  destruct m as [ | p | p ]; try lia. intros _. apply digits2_pos_unique.
Qed.

(** Shifting a mantissa of [d >= 53] digits right by [d - 53] leaves 53
    digits. *)
Lemma shift_to_53 (m d : Z) :
  53 <= d -> 2 ^ (d - 1) <= m < 2 ^ d ->
  2 ^ 52 <= m / 2 ^ (d - 53) < 2 ^ 53.
Proof.
  intros Hd [Hlo Hhi].
  assert (Hp : 0 < 2 ^ (d - 53)) by (apply Z.pow_pos_nonneg; lia).
  assert (E1 : 2 ^ (d - 1) = 2 ^ 52 * 2 ^ (d - 53)).
  { rewrite <- Z.pow_add_r by lia. f_equal. lia. }
  assert (E2 : 2 ^ d = 2 ^ 53 * 2 ^ (d - 53)).
  { rewrite <- Z.pow_add_r by lia. f_equal. lia. }
  split.
  - apply Z.div_le_lower_bound; [ exact Hp | ]. rewrite Z.mul_comm, <- E1. exact Hlo.
  - apply Z.div_lt_upper_bound; [ exact Hp | ]. rewrite Z.mul_comm, <- E2. exact Hhi.
Qed.

Lemma round_aux_spec (mx ex : Z) (lx : location) (N D : Z) :
  0 < D -> 0 < mx ->
  locates (shr_record_of_loc mx lx) N D ->
  53 <= Zdigits2 mx ->
  -1074 <= ex + Zdigits2 mx - 53 ->
  ex + Zdigits2 mx <= 1023 ->
  exists (m : positive) (e : Z),
    binary_round_aux 53 1024 false mx ex lx = S754_finite false m e /\
    2 ^ 52 <= Zpos m < 2 ^ 53 /\
    ex + Zdigits2 mx - 53 <= e <= ex + Zdigits2 mx - 52 /\
    Z.abs (2 * Zpos m * 2 ^ (e - ex) * D - 2 * N) <= 2 ^ (e - ex) * D.
Proof.
  intros HD Hmx Hloc Hd Hlo Hhi.
  pose proof (Zdigits2_bounds mx Hmx) as Hb.
  set (d := Zdigits2 mx) in *.
  unfold binary_round_aux.
  assert (Hn : fexp 53 1024 (d + ex) - ex = d - 53) by (rewrite fexp_53; lia).
  rewrite shr_fexp_eq by (fold d; lia). fold d. rewrite Hn.
  destruct (iter_shr_1 (Z.to_nat (d - 53)) (shr_record_of_loc mx lx) N D)
    as [Hm1 Hl1]; [ rewrite shr_m_of_loc; lia | exact HD | exact Hloc | ].
  rewrite shr_m_of_loc in Hm1.
  rewrite Z2Nat.id in Hm1, Hl1 by lia.
  set (r1 := Nat.iter (Z.to_nat (d - 53)) shr_1 (shr_record_of_loc mx lx)) in *.
  pose proof (shift_to_53 mx d Hd Hb) as Hm1b. rewrite <- Hm1 in Hm1b.
  assert (Hp : 0 < 2 ^ (d - 53)) by (apply Z.pow_pos_nonneg; lia).
  assert (HD1 : 0 < 2 ^ (d - 53) * D) by (apply Z.mul_pos_pos; assumption).
  destruct (round_nearest_even_close r1 N (2 ^ (d - 53) * D) HD1 Hl1) as [Hm2 Herr].
  set (m2 := round_nearest_even (shr_m r1) (loc_of_shr_record r1)) in *.
  set (e1 := ex + (d - 53)) in *.
  assert (Hm2b : 2 ^ 52 <= m2 <= 2 ^ 53) by lia.
  assert (Hm2pos : 0 < m2) by (assert (0 < 2 ^ 52) by reflexivity; lia).
  destruct (Z.eq_dec m2 (2 ^ 53)) as [Heq | Hne].
  - assert (Hd2 : Zdigits2 m2 = 54).
    { apply Zdigits2_unique; [ exact Hm2pos | ]. rewrite Heq. split; [ reflexivity | reflexivity ]. }
    rewrite shr_fexp_eq by (rewrite Hd2, fexp_53; unfold e1; lia).
    rewrite Hd2.
    replace (fexp 53 1024 (54 + e1) - e1) with 1 by (rewrite fexp_53; unfold e1; lia).
    rewrite Heq.
    change (Nat.iter (Z.to_nat 1) shr_1 (shr_record_of_loc (2 ^ 53) loc_Exact))
      with (Build_shr_record (2 ^ 52) false false).
    cbn [shr_m]. change (2 ^ 52) with (Zpos (Z.to_pos (2 ^ 52))).
    cbv iota.
    replace (e1 + 1 <=? 1024 - 53) with true by (symmetry; apply Z.leb_le; unfold e1; lia).
    exists (Z.to_pos (2 ^ 52)), (e1 + 1).
    split; [ reflexivity | ].
    split; [ split; reflexivity | ].
    split; [ unfold e1; lia | ].
    replace (e1 + 1 - ex) with (1 + (d - 53)) by (unfold e1; lia).
    rewrite Z.pow_add_r by lia.
    rewrite Heq in Herr.
    change (Zpos (Z.to_pos (2 ^ 52))) with (2 ^ 52).
    change (2 ^ 1) with 2.
    change (2 ^ 53) with (2 * 2 ^ 52) in Herr.
    apply Z.abs_le. apply Z.abs_le in Herr.
    set (P := 2 ^ (d - 53)) in *. set (K := 2 ^ 52) in *. nia.
  - assert (Hd2 : Zdigits2 m2 = 53).
    { apply Zdigits2_unique; [ exact Hm2pos | ]. change (53 - 1) with 52. lia. }
    rewrite shr_fexp_eq by (rewrite Hd2, fexp_53; unfold e1; lia).
    rewrite Hd2.
    replace (fexp 53 1024 (53 + e1) - e1) with 0 by (rewrite fexp_53; unfold e1; lia).
    change (Nat.iter (Z.to_nat 0) shr_1 (shr_record_of_loc m2 loc_Exact))
      with (Build_shr_record m2 false false).
    cbn [shr_m].
    destruct m2 as [ | p | p ] eqn:Em2; try lia.
    replace (e1 + 0 <=? 1024 - 53) with true by (symmetry; apply Z.leb_le; unfold e1; lia).
    exists p, (e1 + 0).
    split; [ reflexivity | ].
    split; [ lia | ].
    split; [ unfold e1; lia | ].
    replace (e1 + 0 - ex) with (d - 53) by (unfold e1; lia).
    replace (2 * Z.pos p * 2 ^ (d - 53) * D) with (2 * Z.pos p * (2 ^ (d - 53) * D)) by ring.
    exact Herr.
Qed.

Lemma Zdigits2_range (m a b : Z) :
  0 < m -> 0 <= a -> 2 ^ a <= m < 2 ^ b -> a < Zdigits2 m <= b.
Proof.
  intros Hm Ha [Hlo Hhi].
  pose proof (Zdigits2_bounds m Hm) as [Hlo' Hhi'].
  set (d := Zdigits2 m) in *.
  split.
  - destruct (Z.ltb_spec a d) as [ | Hle ]; [ assumption | ].
    assert (2 ^ d <= 2 ^ a) by (apply Z.pow_le_mono_r; lia).
    lia.
  - destruct (Z.leb_spec d b) as [ | Hgt ]; [ assumption | ].
    assert (0 <= b).
    { destruct (Z.leb_spec 0 b); [ assumption | ].
      rewrite (Z.pow_neg_r 2 b) in Hhi by lia. lia. }
    assert (2 ^ b <= 2 ^ (d - 1)) by (apply Z.pow_le_mono_r; lia).
    lia.
Qed.

Lemma round_aux_exact (mx : positive) (ex : Z) :
  Zdigits2 (Zpos mx) = 53 -> -1074 <= ex <= 971 ->
  binary_round_aux 53 1024 false (Zpos mx) ex loc_Exact = S754_finite false mx ex.
Proof.
  intros Hd He. unfold binary_round_aux.
  assert (Hn : fexp 53 1024 (53 + ex) - ex = 0) by (rewrite fexp_53; lia).
  rewrite shr_fexp_eq by (rewrite Hd, Hn; lia).
  rewrite Hd, Hn.
  change (Nat.iter (Z.to_nat 0) shr_1 (shr_record_of_loc (Zpos mx) loc_Exact))
    with (Build_shr_record (Zpos mx) false false).
  cbn [shr_m loc_of_shr_record round_nearest_even].
  rewrite shr_fexp_eq by (rewrite Z.add_0_r, Hd, Hn; lia).
  rewrite Z.add_0_r, Hd, Hn.
  change (Nat.iter (Z.to_nat 0) shr_1 (shr_record_of_loc (Zpos mx) loc_Exact))
    with (Build_shr_record (Zpos mx) false false).
  cbn [shr_m]. rewrite Z.add_0_r.
  replace (ex <=? 1024 - 53) with true by (symmetry; apply Z.leb_le; lia).
  reflexivity.
Qed.

Lemma iter_xO (p d : positive) : Zpos (Pos.iter xO p d) = Zpos p * 2 ^ Zpos d.
Proof.
  induction d as [ | d IH ] using Pos.peano_ind.
  - simpl Pos.iter. rewrite Pos2Z.inj_xO. change (2 ^ 1) with 2. lia.
  - rewrite Pos.iter_succ, Pos2Z.inj_xO, IH, Pos2Z.inj_succ, Z.pow_succ_r by lia. lia.
Qed.

(** The double of a positive integer below 2^53 is the integer itself. *)
Lemma of_Z_spec (z : Z) :
  0 < z < 2 ^ 53 ->
  exists (m : positive) (e : Z),
    Num.of_Z z = S754_finite false m e /\
    2 ^ 52 <= Zpos m < 2 ^ 53 /\
    e = Zdigits2 z - 53 /\ -52 <= e <= 0 /\
    Zpos m = z * 2 ^ (- e).
Proof.
  intros [Hpos Hlt].
  destruct z as [ | p | p ]; try lia.
  pose proof (Zdigits2_bounds (Zpos p) Hpos) as Hb.
  assert (Hd : 0 < Zdigits2 (Zpos p) <= 53).
  { apply Zdigits2_range; [ lia | lia | ]. change (2 ^ 0) with 1. lia. }
  unfold Num.of_Z, binary_normalize, binary_round.
  change (Zpos (digits2_pos p)) with (Zdigits2 (Zpos p)).
  set (d := Zdigits2 (Zpos p)) in *.
  rewrite Z.add_0_r, fexp_53.
  replace (Z.max (d - 53) (-1074)) with (d - 53) by lia.
  unfold shl_align. rewrite Z.sub_0_r.
  destruct (d - 53) as [ | k | k ] eqn:Ek; try lia.
  - assert (Hd53 : d = 53) by lia.
    rewrite round_aux_exact by (fold d; lia).
    exists p, 0. rewrite Hd53 in Hb. change (53 - 1) with 52 in Hb.
    repeat split; try lia.
  - assert (Hq : Zpos (Pos.iter xO p k) = Zpos p * 2 ^ (53 - d)).
    { rewrite iter_xO. f_equal. f_equal. lia. }
    assert (Hp : 0 < 2 ^ (53 - d)) by (apply Z.pow_pos_nonneg; lia).
    assert (E1 : 2 ^ 52 = 2 ^ (d - 1) * 2 ^ (53 - d)).
    { rewrite <- Z.pow_add_r by lia. f_equal. lia. }
    assert (E2 : 2 ^ 53 = 2 ^ d * 2 ^ (53 - d)).
    { rewrite <- Z.pow_add_r by lia. f_equal. lia. }
    assert (Hq53 : 2 ^ 52 <= Zpos (Pos.iter xO p k) < 2 ^ 53).
    { rewrite Hq, E1, E2. split.
      - apply Z.mul_le_mono_nonneg_r; lia.
      - apply Z.mul_lt_mono_pos_r; lia. }
    rewrite round_aux_exact.
    + exists (Pos.iter xO p k), (Z.neg k).
      split; [ reflexivity | ].
      split; [ exact Hq53 | ].
      split; [ lia | ].
      split; [ lia | ].
      rewrite Hq. f_equal. f_equal. lia.
    + apply Zdigits2_unique; [ lia | exact Hq53 ].
    + lia.
Qed.

Lemma new_location_locates (q r N D : Z) :
  0 < D -> 0 <= r < D -> N = q * D + r ->
  locates (shr_record_of_loc q (new_location D r)) N D.
Proof.
  intros HD Hr HN. unfold new_location, new_location_even, new_location_odd.
  pose proof (Zmod_even D) as Hev.
  pose proof (Z.div_mod D 2 ltac:(lia)) as Hdm.
  destruct (Z.even D) eqn:Eev.
  - destruct (Z.eqb_spec r 0) as [-> | Hr0].
    + unfold locates. simpl. lia.
    + destruct (Z.compare_spec (2 * r) D); unfold locates; cbn -[Z.mul Z.add]; nia.
  - destruct (Z.eqb_spec r 0) as [-> | Hr0].
    + unfold locates. simpl. lia.
    + destruct (Z.compare_spec (2 * r + 1) D); unfold locates; cbn -[Z.mul Z.add]; nia.
Qed.

Lemma SFdiv_core_eq (m1 m2 : positive) (e1 e2 : Z) :
  Zdigits2 (Zpos m1) = 53 -> Zdigits2 (Zpos m2) = 53 ->
  -1021 <= e1 - e2 ->
  SFdiv_core_binary 53 1024 (Zpos m1) e1 (Zpos m2) e2
    = (Zpos m1 * 2 ^ 53 / Zpos m2, e1 - e2 - 53,
       new_location (Zpos m2) ((Zpos m1 * 2 ^ 53) mod Zpos m2)).
Proof.
  intros Hd1 Hd2 He. unfold SFdiv_core_binary.
  rewrite Hd1, Hd2, fexp_53.
  replace (Z.min (Z.max (53 + e1 - (53 + e2) - 53) (-1074)) (e1 - e2))
    with (e1 - e2 - 53) by lia.
  replace (e1 - e2 - (e1 - e2 - 53)) with 53 by lia.
  cbv iota. rewrite Z.shiftl_mul_pow2 by lia.
  unfold Z.div, Z.modulo.
  destruct (Z.div_eucl (Zpos m1 * 2 ^ 53) (Zpos m2)) as [q r]. reflexivity.
Qed.

(** Division of two positive doubles with 53-bit mantissas: the result is
    within half a unit in the last place of the exact quotient. *)
Lemma div_spec (m1 m2 : positive) (e1 e2 : Z) :
  2 ^ 52 <= Zpos m1 < 2 ^ 53 -> 2 ^ 52 <= Zpos m2 < 2 ^ 53 ->
  -52 <= e1 <= 0 -> -52 <= e2 <= 0 ->
  exists (m : positive) (e : Z),
    Num.div (S754_finite false m1 e1) (S754_finite false m2 e2)
      = S754_finite false m e /\
    2 ^ 52 <= Zpos m < 2 ^ 53 /\
    0 <= e - (e1 - e2 - 53) <= 2 /\
    Z.abs (2 * Zpos m * 2 ^ (e - (e1 - e2 - 53)) * Zpos m2 - 2 * (Zpos m1 * 2 ^ 53))
      <= 2 ^ (e - (e1 - e2 - 53)) * Zpos m2.
Proof.
  intros H1 H2 He1 He2.
  assert (Hd1 : Zdigits2 (Zpos m1) = 53) by (apply Zdigits2_unique; [ lia | exact H1 ]).
  assert (Hd2 : Zdigits2 (Zpos m2) = 53) by (apply Zdigits2_unique; [ lia | exact H2 ]).
  unfold Num.div, SFdiv.
  rewrite SFdiv_core_eq by (assumption || lia).
  change (xorb false false) with false.
  set (N := Zpos m1 * 2 ^ 53). set (D := Zpos m2).
  assert (HD : 0 < D) by (unfold D; lia).
  pose proof (Z.div_mod N D ltac:(lia)) as Hdm.
  pose proof (Z.mod_pos_bound N D HD) as Hr.
  set (q := N / D) in *. set (r := N mod D) in *.
  assert (Hq : 2 ^ 52 <= q < 2 ^ 54).
  { assert (K52 : 2 ^ 52 = 4503599627370496) by reflexivity.
    assert (K53 : 2 ^ 53 = 9007199254740992) by reflexivity.
    assert (K54 : 2 ^ 54 = 18014398509481984) by reflexivity.
    unfold q, N. fold D in H2. rewrite K52, K53 in *. rewrite K54.
    split.
    - apply Z.div_le_lower_bound; [ exact HD | ]. lia.
    - apply Z.div_lt_upper_bound; [ exact HD | ]. lia. }
  assert (Hqpos : 0 < q) by (assert (0 < 2 ^ 52) by reflexivity; lia).
  assert (Hdq : 52 < Zdigits2 q <= 54) by (apply Zdigits2_range; lia).
  destruct (round_aux_spec q (e1 - e2 - 53) (new_location D r) N D)
    as (m & e & Hres & Hm & He & Herr); try lia.
  - apply new_location_locates; lia.
  - exists m, e. split; [ exact Hres | ].
    split; [ exact Hm | ]. split; [ lia | exact Herr ].
Qed.

(** Multiplication of two positive doubles with 53-bit mantissas: the
    result is within half a unit in the last place of the exact product. *)
Lemma mul_spec (m1 m2 : positive) (e1 e2 : Z) :
  2 ^ 52 <= Zpos m1 < 2 ^ 53 -> 2 ^ 52 <= Zpos m2 < 2 ^ 53 ->
  -1000 <= e1 + e2 <= 900 ->
  exists (m : positive) (e : Z),
    Num.mul (S754_finite false m1 e1) (S754_finite false m2 e2)
      = S754_finite false m e /\
    2 ^ 52 <= Zpos m < 2 ^ 53 /\
    52 <= e - (e1 + e2) <= 54 /\
    Z.abs (2 * Zpos m * 2 ^ (e - (e1 + e2)) * 1 - 2 * (Zpos m1 * Zpos m2))
      <= 2 ^ (e - (e1 + e2)) * 1.
Proof.
  intros H1 H2 He.
  unfold Num.mul, SFmul. change (xorb false false) with false.
  rewrite Pos2Z.inj_mul.
  set (N := Zpos m1 * Zpos m2).
  assert (HN : 2 ^ 104 <= N < 2 ^ 106).
  { assert (K52 : 2 ^ 52 = 4503599627370496) by reflexivity.
    assert (K53 : 2 ^ 53 = 9007199254740992) by reflexivity.
    change (2 ^ 104) with (4503599627370496 * 4503599627370496).
    change (2 ^ 106) with (9007199254740992 * 9007199254740992).
    unfold N. rewrite K52, K53 in *. nia. }
  assert (HNpos : 0 < N) by (assert (0 < 2 ^ 104) by reflexivity; lia).
  assert (Hd : 104 < Zdigits2 N <= 106) by (apply Zdigits2_range; lia).
  destruct (round_aux_spec N (e1 + e2) loc_Exact N 1)
    as (m & e & Hres & Hm & Hex & Herr); try lia.
  - unfold locates. simpl. lia.
  - exists m, e. split; [ exact Hres | ].
    split; [ exact Hm | ]. split; [ lia | exact Herr ].
Qed.

Lemma of_Z_100 : Num.of_Z 100 = S754_finite false 7036874417766400 (-46).
Proof. reflexivity. Qed.

(** The error analysis: a quotient [q = mq / A] within half an ulp of
    [v / t], a product [p = mp / B] within half an ulp of [100 q], and [n]
    the nearest integer to [10 p], give [n / 10] within [1/20] of
    [100 v / t], as long as [v] is at most 10^12. *)
Lemma tenth_of_share (v t mq mp A B n : Z) :
  1 <= v <= 10 ^ 12 -> 1 <= t -> 0 < A -> 0 < B ->
  2 ^ 52 <= mq < 2 ^ 53 -> 2 ^ 52 <= mp < 2 ^ 53 ->
  Z.abs (2 * mq * t - 2 * v * A) <= t ->
  Z.abs (2 * mp * A - 200 * mq * B) <= A ->
  20 * mp - B < 2 * n * B <= 20 * mp + B ->
  Z.abs (2 * n * t - 2000 * v) <= t.
Proof.
  intros Hv Ht HA HB Hmq Hmp H1 H2 H3.
  change (10 ^ 12) with 1000000000000 in Hv.
  change (2 ^ 52) with 4503599627370496 in *.
  change (2 ^ 53) with 9007199254740992 in *.
  apply Z.abs_le in H1. apply Z.abs_le in H2.
  set (r1 := 2 * mq * t - 2 * v * A) in *.
  set (r2 := 2 * mp * A - 200 * mq * B) in *.
  set (r3 := 20 * mp - 2 * n * B).
  assert (Hr3 : - B <= r3 < B) by (unfold r3; lia).
  set (E := 2 * n * t - 2000 * v).
  assert (Hid : 2 * A * B * E = 2000 * B * r1 + 20 * t * r2 - 2 * A * t * r3).
  { unfold E, r1, r2, r3. ring. }
  (* t is small against A *)
  assert (F1 : 4000 * t < A).
  { assert (G : 9007199254740991 * t <= 2 * v * A) by (unfold r1 in H1; nia).
    assert (G' : 2 * v * A <= 2000000000000 * A) by nia.
    nia. }
  (* t is small against B *)
  assert (F2 : 45 * t <= B).
  { assert (G : 9007199254740991 * A <= 200 * mq * B) by (unfold r2 in H2; nia).
    assert (G1 : 2 * mq * t <= 2 * v * A + t) by (unfold r1 in H1; lia).
    assert (G2 : 9007199254740991 * A * (2 * t) <= 200 * B * (2 * v * A + t)).
    { transitivity (200 * mq * B * (2 * t)).
      - apply Z.mul_le_mono_nonneg_r; lia.
      - replace (200 * mq * B * (2 * t)) with (200 * B * (2 * mq * t)) by ring.
        apply Z.mul_le_mono_nonneg_l; lia. }
    assert (G3 : 200 * B * (2 * v * A + t) <= 200 * B * ((2 * v + 1) * A)).
    { apply Z.mul_le_mono_nonneg_l; [ lia | nia ]. }
    assert (G4 : 9007199254740991 * (2 * t) * A <= 200 * B * (2 * v + 1) * A).
    { replace (9007199254740991 * (2 * t) * A) with (9007199254740991 * A * (2 * t)) by ring.
      replace (200 * B * (2 * v + 1) * A) with (200 * B * ((2 * v + 1) * A)) by ring.
      lia. }
    assert (G5 : 9007199254740991 * (2 * t) <= 200 * B * (2 * v + 1)).
    { apply Z.mul_le_mono_pos_r with (p := A); assumption. }
    assert (G6 : 200 * B * (2 * v + 1) <= 200 * B * 2000000000001).
    { apply Z.mul_le_mono_nonneg_l; lia. }
    lia. }
  assert (Hb1 : - (2000 * B * t) <= 2000 * B * r1 <= 2000 * B * t) by nia.
  assert (Hb2 : - (20 * t * A) <= 20 * t * r2 <= 20 * t * A) by nia.
  assert (Hb3 : - (2 * A * t * B) <= 2 * A * t * r3 <= 2 * A * t * B) by nia.
  assert (Hs1 : 2000 * B * t + 20 * t * A < 2 * A * B) by nia.
  assert (HAB : 0 < 2 * A * B) by nia.
  assert (Hlt : - (2 * A * B * (t + 1)) < 2 * A * B * E < 2 * A * B * (t + 1)).
  { rewrite Hid. replace (2 * A * B * (t + 1)) with (2 * A * B * t + 2 * A * B) by ring.
    replace (2 * A * t * B) with (2 * A * B * t) in Hb3 by ring. lia. }
  apply Z.abs_le. fold E.
  destruct Hlt as [Hlo Hhi].
  split.
  - assert (- (t + 1) < E).
    { apply Z.mul_lt_mono_pos_l with (p := 2 * A * B); [ exact HAB | ].
      replace (2 * A * B * - (t + 1)) with (- (2 * A * B * (t + 1))) by ring. exact Hlo. }
    lia.
  - assert (E < t + 1).
    { apply Z.mul_lt_mono_pos_l with (p := 2 * A * B); [ exact HAB | exact Hhi ]. }
    lia.
Qed.

Lemma tenths_rounds (m : positive) (e : Z) :
  rounds_to_tenth (S754_finite false m e) (Num.tenths m e).
Proof.
  unfold rounds_to_tenth, Num.tenths.
  destruct (Z.leb_spec 0 e) as [He | He]; [ reflexivity | ].
  assert (HA : 0 < 2 ^ (- e)) by (apply Z.pow_pos_nonneg; lia).
  replace (2 ^ (- e + 1)) with (2 * 2 ^ (- e)) by (rewrite Z.pow_add_r by lia; change (2 ^ 1) with 2; lia).
  set (A := 2 ^ (- e)) in *.
  pose proof (Z.div_mod (20 * Zpos m + A) (2 * A) ltac:(lia)) as Hdm.
  pose proof (Z.mod_pos_bound (20 * Zpos m + A) (2 * A) ltac:(lia)) as Hr.
  set (n := (20 * Zpos m + A) / (2 * A)) in *. nia.
Qed.

Lemma percentage_of_positive (v t : Z) :
  0 < v < 2 ^ 53 -> 0 < t < 2 ^ 53 ->
  exists (m : positive) (e : Z),
    Results.share v t = S754_finite false m e /\
    Results.percentage v t = Some (VStr (Num.fixed1 (Num.tenths m e))) /\
    (v <= 10 ^ 12 -> nearest_tenth (Num.tenths m e) v t).
Proof.
  intros Hv Ht.
  destruct (of_Z_spec v Hv) as (mv & ev & Ev & Hmv & Hev & Hevr & Hvm).
  destruct (of_Z_spec t Ht) as (mt & et & Et & Hmt & Het & Hetr & Htm).
  destruct (div_spec mv mt ev et Hmv Hmt Hevr Hetr) as (mq & e_q & E_q & Hmq & Hk & Hqerr).
  assert (H100 : 2 ^ 52 <= Zpos 7036874417766400 < 2 ^ 53).
  { change (2 ^ 52) with 4503599627370496.
    change (2 ^ 53) with 9007199254740992. lia. }
  destruct (mul_spec mq 7036874417766400 e_q (-46) Hmq H100 ltac:(lia))
    as (mp & e_p & E_p & Hmp & Hk' & Hperr).
  exists mp, e_p.
  assert (Hshare : Results.share v t = S754_finite false mp e_p).
  { unfold Results.share. rewrite Ev, Et, E_q, of_Z_100. exact E_p. }
  split; [ exact Hshare | ].
  split.
  - unfold Results.percentage.
    replace (t >? 0) with true by (symmetry; apply Z.gtb_lt; lia).
    fold (Results.share v t). rewrite Hshare. unfold Num.toFixed1.
    assert (Hsmall : Num.ge_1e21 mp e_p = false).
    { unfold Num.ge_1e21.
      change (2 ^ 53) with 9007199254740992 in Hmp.
      change (10 ^ 21) with 1000000000000000000000.
      destruct (Z.leb_spec 0 e_p) as [Hep | Hep].
      - apply Z.leb_gt.
        assert (2 ^ e_p <= 2 ^ 9) by (apply Z.pow_le_mono_r; lia).
        assert (0 < 2 ^ e_p) by (apply Z.pow_pos_nonneg; lia).
        change (2 ^ 9) with 512 in *. nia.
      - apply Z.leb_gt.
        assert (0 < 2 ^ (- e_p)) by (apply Z.pow_pos_nonneg; lia). nia. }
    rewrite Hsmall. reflexivity.
  - intros Hv12. unfold nearest_tenth.
    assert (Hdv : Zdigits2 v <= 40).
    { apply (Zdigits2_range v 0 40); [ lia | lia | ].
      change (2 ^ 0) with 1. change (2 ^ 40) with 1099511627776.
      change (10 ^ 12) with 1000000000000 in Hv12. lia. }
    assert (Heq : e_q <= -12) by lia.
    assert (Hep : e_p <= -4) by lia.
    pose proof (tenths_rounds mp e_p) as Hn. unfold rounds_to_tenth in Hn.
    replace (0 <=? e_p) with false in Hn by (symmetry; apply Z.leb_gt; lia).
    set (n := Num.tenths mp e_p) in *.
    set (A := 2 ^ (- e_q)). set (B := 2 ^ (- e_p)) in *.
    assert (HA : 0 < A) by (apply Z.pow_pos_nonneg; lia).
    assert (HB : 0 < B) by (apply Z.pow_pos_nonneg; lia).
    apply (tenth_of_share v t (Zpos mq) (Zpos mp) A B n); try assumption; try lia.
    + (* the quotient *)
      set (k := e_q - (ev - et - 53)) in *.
      set (X := 2 ^ k * 2 ^ (- et)).
      assert (HX : 0 < X).
      { apply Z.mul_pos_pos; apply Z.pow_pos_nonneg; lia. }
      assert (HXA : X * A = 2 ^ (- ev) * 2 ^ 53).
      { unfold X, A. rewrite <- !Z.pow_add_r by lia. f_equal. unfold k. lia. }
      rewrite Hvm, Htm in Hqerr.
      apply Z.abs_le in Hqerr. apply Z.abs_le.
      assert (E1 : 2 * Zpos mq * 2 ^ k * (t * 2 ^ (- et)) - 2 * (v * 2 ^ (- ev) * 2 ^ 53)
                   = X * (2 * Zpos mq * t - 2 * v * A)).
      { replace (2 * (v * 2 ^ (- ev) * 2 ^ 53)) with (2 * v * (2 ^ (- ev) * 2 ^ 53)) by ring.
        rewrite <- HXA. unfold X. ring. }
      assert (E2 : 2 ^ k * (t * 2 ^ (- et)) = X * t) by (unfold X; ring).
      rewrite E1, E2 in Hqerr.
      split.
      * apply Z.mul_le_mono_pos_l with (p := X); [ exact HX | ].
        replace (X * - t) with (- (X * t)) by ring. lia.
      * apply Z.mul_le_mono_pos_l with (p := X); [ exact HX | lia ].
    + (* the product *)
      set (k := e_p - (e_q + -46)) in *.
      assert (Hk2 : 0 < 2 ^ k) by (apply Z.pow_pos_nonneg; lia).
      assert (HAB : A * 2 ^ 46 = 2 ^ k * B).
      { unfold A, B. rewrite <- !Z.pow_add_r by lia. f_equal. unfold k. lia. }
      change (Zpos 7036874417766400) with (100 * 2 ^ 46) in Hperr.
      apply Z.abs_le in Hperr. apply Z.abs_le.
      assert (E1 : A * (2 * Zpos mp * 2 ^ k * 1 - 2 * (Zpos mq * (100 * 2 ^ 46)))
                   = 2 ^ k * (2 * Zpos mp * A - 200 * Zpos mq * B)).
      { replace (A * (2 * Zpos mp * 2 ^ k * 1 - 2 * (Zpos mq * (100 * 2 ^ 46))))
          with (2 ^ k * (2 * Zpos mp * A) - 200 * Zpos mq * (A * 2 ^ 46)) by ring.
        rewrite HAB. ring. }
      assert (Hmul : - (A * (2 ^ k * 1)) <= A * (2 * Zpos mp * 2 ^ k * 1 - 2 * (Zpos mq * (100 * 2 ^ 46))) <= A * (2 ^ k * 1)).
      { split.
        - replace (- (A * (2 ^ k * 1))) with (A * - (2 ^ k * 1)) by ring.
          apply Z.mul_le_mono_nonneg_l; lia.
        - apply Z.mul_le_mono_nonneg_l; lia. }
      rewrite E1 in Hmul.
      replace (A * (2 ^ k * 1)) with (2 ^ k * A) in Hmul by ring.
      split.
      * apply Z.mul_le_mono_pos_l with (p := 2 ^ k); [ exact Hk2 | ].
        replace (2 ^ k * - A) with (- (2 ^ k * A)) by ring. lia.
      * apply Z.mul_le_mono_pos_l with (p := 2 ^ k); [ exact Hk2 | lia ].
Qed.

End Binary64.

(** ** The results renderer *)

Lemma percentage_of_zero (t : Z) :
  (0 < t < 2 ^ 53)%Z ->
  Results.share 0 t = S754_zero false /\
  Results.percentage 0 t = Some (VStr (Num.fixed1 0)).
Proof.
  intros Ht.
  destruct (of_Z_spec t Ht) as (mt & et & Et & _).
  assert (Hshare : Results.share 0 t = S754_zero false).
  { unfold Results.share. rewrite Et. reflexivity. }
  split; [ exact Hshare | ].
  unfold Results.percentage.
  replace (t >? 0)%Z with true by (symmetry; apply Z.gtb_lt; lia).
  rewrite Hshare. reflexivity.
Qed.

(** What one row shows, for counts a Number holds exactly. *)
Lemma percentage_rounds (votes total : Z) :
  (0 <= votes < 2 ^ 53)%Z -> (0 <= total < 2 ^ 53)%Z ->
  (total = 0%Z -> Results.percentage votes total = Some (VNum 0)) /\
  ((0 < total)%Z ->
   exists n : Z,
     Results.percentage votes total = Some (VStr (Num.fixed1 n)) /\
     Rounding.rounds_to_tenth (Results.share votes total) n /\
     ((votes <= 10 ^ 12)%Z -> Rounding.nearest_tenth n votes total)).
Proof.
  intros Hv Ht. split.
  - intros ->. reflexivity.
  - intros Hpos.
    destruct (Z.eq_dec votes 0) as [-> | Hnz].
    + destruct (percentage_of_zero total ltac:(lia)) as [Hshare Hpct].
      exists 0%Z. split; [ exact Hpct | ]. split.
      * rewrite Hshare. reflexivity.
      * intros _. unfold Rounding.nearest_tenth. simpl. lia.
    + destruct (percentage_of_positive votes total ltac:(lia) ltac:(lia))
        as (m & e & Hshare & Hpct & Hnear).
      exists (Num.tenths m e). split; [ exact Hpct | ]. split.
      * rewrite Hshare. apply tenths_rounds.
      * exact Hnear.
Qed.

(** The rows of [ResultsDisplay]: one per entry of [results], in their
    order, each with the percentage of its own count. *)
Lemma result_items_rows (d : Results.ResultsPayload) :
  map fst (Results.result_items d) = Results.results d /\
  forall (label : string) (votes : Z) (shown : option value),
    In (label, votes, shown) (Results.result_items d) ->
    In (label, votes) (Results.results d) /\
    shown = Results.percentage votes (Results.total_votes d).
Proof.
  unfold Results.result_items. split.
  - rewrite map_map. rewrite <- (map_id (Results.results d)) at 2.
    apply map_ext. intros [o v]. reflexivity.
  - intros label votes shown Hin.
    apply in_map_iff in Hin. destruct Hin as ([o v] & Heq & Hin).
    injection Heq as -> -> <-. split; [ exact Hin | reflexivity ].
Qed.

(** C1.  For vote counts that are integers a Number holds exactly
    (below 2^53): with [total_votes = 0] the percentage is the number 0;
    with [total_votes > 0] it is the text of a decimal with one fractional
    digit, [n / 10], which is the double [votes / total_votes * 100]
    rounded to one decimal place by [toFixed(1)], and, for up to 10^12
    votes, is the exact quotient [votes / total_votes * 100] rounded to one
    decimal place (no further from it than 1/20).  [ResultsDisplay] shows
    one row per entry of any results mapping, in the order of the
    entries, and the percentage of every row is that of the row's own
    count: 0 when [total_votes = 0], and else the rounded quotient.  For
    the results [{A: 1, B: 1}] with 2 votes in total both options show
    50.0. *)
Theorem percentage_is_share_rounded_to_one_decimal :
  (forall votes total : Z,
      (0 <= votes < 2 ^ 53)%Z -> (0 <= total < 2 ^ 53)%Z ->
      (total = 0%Z -> Results.percentage votes total = Some (VNum 0)) /\
      ((0 < total)%Z ->
       exists n : Z,
         Results.percentage votes total = Some (VStr (Num.fixed1 n)) /\
         Rounding.rounds_to_tenth (Results.share votes total) n /\
         ((votes <= 10 ^ 12)%Z -> Rounding.nearest_tenth n votes total))) /\
  (forall d : Results.ResultsPayload,
      (0 <= Results.total_votes d < 2 ^ 53)%Z ->
      Forall (fun entry => (0 <= snd entry < 2 ^ 53)%Z) (Results.results d) ->
      map fst (Results.result_items d) = Results.results d /\
      forall (label : string) (votes : Z) (shown : option value),
        In (label, votes, shown) (Results.result_items d) ->
        In (label, votes) (Results.results d) /\
        (Results.total_votes d = 0%Z -> shown = Some (VNum 0)) /\
        ((0 < Results.total_votes d)%Z ->
         exists n : Z,
           shown = Some (VStr (Num.fixed1 n)) /\
           Rounding.rounds_to_tenth (Results.share votes (Results.total_votes d)) n /\
           ((votes <= 10 ^ 12)%Z ->
            Rounding.nearest_tenth n votes (Results.total_votes d)))) /\
  Results.result_items
    {| Results.question := VStr "Tea or coffee?";
       Results.results := [("A", 1%Z); ("B", 1%Z)];
       Results.total_votes := 2;
       Results.is_active := VBool false |}
    = [("A", 1%Z, Some (VStr "50.0")); ("B", 1%Z, Some (VStr "50.0"))].
Proof.
  split; [ exact percentage_rounds | split; [ | reflexivity ] ].
  intros d Ht Hall.
  destruct (result_items_rows d) as [Hrows Hrow].
  split; [ exact Hrows | ].
  intros label votes shown Hin.
  destruct (Hrow label votes shown Hin) as [Hentry ->].
  split; [ exact Hentry | ].
  rewrite Forall_forall in Hall.
  exact (percentage_rounds votes (Results.total_votes d) (Hall _ Hentry) Ht).
Qed.

Lemma percentage_half_witness :
  Results.percentage 1 2 = Some (VStr "50.0") /\
  exists n : Z,
    Some (VStr "33.3") = Some (VStr (Num.fixed1 n)) /\ Rounding.nearest_tenth n 1 3.
Proof.
  assert (Hv : (0 <= 1 < 2 ^ 53)%Z) by (split; [ lia | reflexivity ]).
  assert (Ht : (0 <= 2 < 2 ^ 53)%Z) by (split; [ lia | reflexivity ]).
  assert (Hsmall : (1 <= 10 ^ 12)%Z) by (intro C; discriminate C).
  destruct percentage_is_share_rounded_to_one_decimal as (Hone & Hrows & _).
  split.
  - destruct (Hone 1 2 Hv Ht) as (_ & H).
    destruct (H ltac:(lia)) as (n & Hpct & _ & Hnear).
    specialize (Hnear Hsmall). unfold Rounding.nearest_tenth in Hnear.
    assert (Hn : n = 500%Z) by lia.
    rewrite Hn in Hpct. exact Hpct.
  - pose (d := {| Results.question := VStr "Tea or coffee?";
                  Results.results := [("tea", 1%Z); ("coffee", 2%Z)];
                  Results.total_votes := 3;
                  Results.is_active := VBool false |}).
    assert (Ht3 : (0 <= Results.total_votes d < 2 ^ 53)%Z)
      by (split; [ cbn; lia | reflexivity ]).
    assert (Hall : Forall (fun entry => (0 <= snd entry < 2 ^ 53)%Z) (Results.results d)).
    { repeat (apply Forall_cons; [ split; [ cbn; lia | reflexivity ] | ]).
      apply Forall_nil. }
    destruct (Hrows d Ht3 Hall) as [_ Hrow].
    destruct (Hrow "tea" 1%Z (Some (VStr "33.3")) (or_introl eq_refl)) as (_ & _ & H).
    destruct (H ltac:(cbn; lia)) as (n & Hshown & _ & Hnear).
    exists n. split; [ exact Hshown | exact (Hnear Hsmall) ].
Defined.

(** Where the double and the exact quotient part ways: 3 votes of 2000 are
    0.15 percent, the double nearest to it lies just below, and [toFixed]
    shows 0.1; a tie of the exact quotient may go either way. *)
Example percentage_tie_below : Results.percentage 3 2000 = Some (VStr "0.1").
Proof. reflexivity. Qed.

Example percentage_tie_above : Results.percentage 1 2000 = Some (VStr "0.1").
Proof. reflexivity. Qed.

Example percentage_thirds :
  Results.percentage 1 3 = Some (VStr "33.3") /\
  Results.percentage 2 3 = Some (VStr "66.7").
Proof. split; reflexivity. Qed.

(** * Further properties *)

(** ** Handlers that let no exception out *)

Section NeverThrows.
Import Safety.
Context {St : Type}.

Lemma safe_ret {A} (a : A) : never_throws (@ret St A a).
Proof. intros net w; reflexivity. Qed.

Lemma safe_read : never_throws (@read St).
Proof. intros net w; reflexivity. Qed.

Lemma safe_set (f : St -> St) : never_throws (set f).
Proof. intros net w; reflexivity. Qed.

Lemma safe_emit (e : effect) : never_throws (@emit St e).
Proof. intros net w; reflexivity. Qed.

Lemma safe_bind {A B} (c : M St A) (k : A -> M St B) :
  never_throws c -> (forall a, never_throws (k a)) -> never_throws (bind c k).
Proof.
  intros Hc Hk net w. unfold bind.
  specialize (Hc net w). destruct (c net w) as [a w' | e w'].
  - apply Hk.
  - discriminate Hc.
Qed.

(** A [try] whose [catch] block cannot throw lets nothing out, whatever
    its body does. *)
Lemma safe_try_catch {A} (c : M St A) (h : exn -> M St A) :
  (forall e, never_throws (h e)) -> never_throws (try_catch c h).
Proof.
  intros Hh net w. unfold try_catch.
  destruct (c net w) as [a w' | e w']; [ reflexivity | apply Hh ].
Qed.

Lemma safe_detach (c : M St unit) : never_throws (detach c).
Proof. intros net w. unfold detach. destruct (c net w); reflexivity. Qed.

Lemma safe_if {A} (b : bool) (c1 c2 : M St A) :
  never_throws c1 -> never_throws c2 -> never_throws (if b then c1 else c2).
Proof. destruct b; auto. Qed.

End NeverThrows.

Ltac safe :=
  repeat first
    [ apply safe_bind; [ | intros ? ]
    | apply safe_try_catch; intros ?
    | apply safe_if
    | apply safe_detach
    | apply safe_set
    | apply safe_emit
    | apply safe_read
    | apply safe_ret ].

(** X1.  No handler of the tab-based app lets an exception out: a view
    change, a poll creation, a manage action, a poll access and a vote all
    return normally from every state, whatever the network does (a
    rejected fetch, a body that is not JSON, a [null] body). *)
Theorem tab_handlers_never_throw :
  forall a : TabApp.interaction, Safety.never_throws (TabApp.handler a).
Proof.
  intros a.
  destruct a; simpl;
    unfold TabApp.handleSetView, TabApp.handleCreatePoll, TabApp.handleManageAction,
      TabApp.handleAccessPoll, TabApp.handleVote, TabApp.clearMessages,
      TabApp.show_error, TabApp.setMessage, TabApp.setCreatorInfo,
      TabApp.setCreatorResults, TabApp.setVoterResults, TabApp.setPollData,
      TabApp.setView;
    safe.
Qed.


(** ** The tab-based app: votes, panels, inputs and requests *)

(** From here on evaluation leaves the JavaScript primitives folded where
    their argument is unknown, so that [branch] splits on their results
    and not inside them. *)
#[local] Arguments JS.truthy v : simpl nomatch.
#[local] Arguments JS.get v k : simpl nomatch.
#[local] Arguments JS.or_else a b : simpl nomatch.
#[local] Arguments JS.new_Error v : simpl nomatch.
#[local] Arguments Net.ok status : simpl nomatch.

Ltac step := cbn.

(** X3.  In the tab-based app a click on the vote button always hides the
    voting form, whether the vote went through, failed, or was not sent at
    all; without a selected option nothing is sent, and the message is the
    error asking to select an option. *)
Theorem tab_vote_always_hides_the_form :
  forall (net : network) (s : TabApp.State),
    let o := run TabApp.handleVote net s in
    TabApp.pollData (state (final o)) = VNull /\
    TabApp.shows_voting_form (state (final o)) = false /\
    (TabApp.selectedOption s = "" ->
     trace (final o) = [] /\
     TabApp.message (state (final o))
       = {| text := VStr "Please select an option to vote."; isError := true |}).
Proof.
  intros net s o. subst o.
  assert (Hpoll : TabApp.pollData (state (final (run TabApp.handleVote net s))) = VNull).
  { unfold run, TabApp.handleVote, bind, read, try_catch, fetch, json, lift. step.
    repeat (branch; step); reflexivity. }
  split; [ exact Hpoll | split ].
  - apply no_poll_hides_voting_form. rewrite Hpoll. reflexivity.
  - intros Hsel. unfold run, TabApp.handleVote, bind, read. simpl.
    rewrite Hsel. simpl. split; reflexivity.
Qed.

Lemma tab_vote_without_selection_witness :
  let s := Samples.voter_tab "p1" in
  trace (final (run TabApp.handleVote Samples.offline s)) = [] /\
  isError (TabApp.message (state (final (run TabApp.handleVote Samples.offline s))))
    = true.
Proof.
  intros s.
  destruct (tab_vote_always_hides_the_form Samples.offline s) as (_ & _ & H).
  destruct (H eq_refl) as [Ht Hm].
  split; [ exact Ht | rewrite Hm; reflexivity ].
Defined.

Lemma create_success_state (status : Z) (data poll_id creator_id : value)
    (net : network) (s : TabApp.State) :
  ok status = true ->
  get data "poll_id" = inr poll_id ->
  get data "creator_id" = inr creator_id ->
  net [] (TabApp.post_json "/create_poll"
            (VObj [("question", VStr (TabApp.question s));
                   ("options", VStr (TabApp.options s));
                   ("voters", VStr (TabApp.voters s))]))
    = Http status (Json data) ->
  let created := state (final (run TabApp.handleCreatePoll net s)) in
  TabApp.creatorInfo created = data /\
  TabApp.managePollId created = poll_id /\
  TabApp.creatorId created = creator_id.
Proof.
  intros Hok Hp Hc Hnet.
  intros created. subst created.
  repeat split;
    unfold run, TabApp.handleCreatePoll, bind, read, try_catch, fetch, json, lift; step;
    rewrite Hnet; step; rewrite Hok; step; rewrite Hp; step; rewrite Hc; step;
    reflexivity.
Qed.

Lemma after_cons (a : TabApp.interaction) (net : network)
    (rest : list (TabApp.interaction * network)) (s : TabApp.State) :
  TabApp.after ((a, net) :: rest) s
    = TabApp.after rest (state (final (run (TabApp.handler a) net s))).
Proof. reflexivity. Qed.

Lemma click_tab_keeps_ids (v : string) (net : network) (s : TabApp.State) :
  TabApp.managePollId (state (final (run (TabApp.handler (TabApp.ClickTab v)) net s)))
    = TabApp.managePollId s /\
  TabApp.creatorId (state (final (run (TabApp.handler (TabApp.ClickTab v)) net s)))
    = TabApp.creatorId s.
Proof. split; reflexivity. Qed.

Lemma tabs_keep_ids (net : network) (tabs : list string) (s : TabApp.State) :
  TabApp.managePollId (TabApp.after (map (fun v => (TabApp.ClickTab v, net)) tabs) s)
    = TabApp.managePollId s /\
  TabApp.creatorId (TabApp.after (map (fun v => (TabApp.ClickTab v, net)) tabs) s)
    = TabApp.creatorId s.
Proof.
  revert s. induction tabs as [ | v l IH ]; intros s.
  - split; reflexivity.
  - rewrite map_cons, after_cons.
    destruct (IH (state (final (run (TabApp.handler (TabApp.ClickTab v)) net s))))
      as [H1 H2].
    destruct (click_tab_keeps_ids v net s) as [H3 H4].
    rewrite H1, H2, H3, H4. split; reflexivity.
Qed.

(** X4.  After a poll creation that the server answers with success, the
    two manage buttons send the poll id and the creator id that the server
    returned, also after any number of view changes in between. *)
Theorem tab_manage_uses_created_ids :
  forall (status : Z) (data poll_id creator_id : value) (net : network)
         (s : TabApp.State) (tabs : list string) (action : string),
    ok status = true ->
    get data "poll_id" = inr poll_id ->
    get data "creator_id" = inr creator_id ->
    net [] (TabApp.post_json "/create_poll"
              (VObj [("question", VStr (TabApp.question s));
                     ("options", VStr (TabApp.options s));
                     ("voters", VStr (TabApp.voters s))]))
      = Http status (Json data) ->
    let created := state (final (run TabApp.handleCreatePoll net s)) in
    let later :=
      TabApp.after (map (fun v => (TabApp.ClickTab v, net)) tabs) created in
    TabApp.creatorInfo created = data /\
    TabApp.manage_request action later
      = TabApp.post_json (if (action =? "end")%string then "/end_poll" else "/results")
          (VObj [("poll_id", poll_id); ("creator_id", creator_id)]).
Proof.
  intros status data poll_id creator_id net s tabs action Hok Hp Hc Hnet created later.
  pose proof (create_success_state status data poll_id creator_id net s Hok Hp Hc Hnet)
    as (Hinfo & Hid & Hcid).
  fold created in Hinfo, Hid, Hcid.
  split; [ exact Hinfo | ].
  unfold TabApp.manage_request.
  destruct (tabs_keep_ids net tabs created) as [H1 H2].
  subst later. rewrite H1, H2, Hid, Hcid. reflexivity.
Qed.

Lemma tab_manage_uses_created_ids_witness :
  let data := VObj [("poll_id", VStr "p7"); ("creator_id", VStr "secret")] in
  let net := Samples.always data in
  let created := state (final (run TabApp.handleCreatePoll net TabApp.initial)) in
  TabApp.manage_request "end"
    (TabApp.after [(TabApp.ClickTab "voter", net); (TabApp.ClickTab "creator", net)]
       created)
    = TabApp.post_json "/end_poll"
        (VObj [("poll_id", VStr "p7"); ("creator_id", VStr "secret")]).
Proof.
  intros data net created.
  destruct (tab_manage_uses_created_ids 200 data (VStr "p7") (VStr "secret") net
              TabApp.initial ["voter"; "creator"] "end"
              eq_refl eq_refl eq_refl eq_refl) as [_ H].
  exact H.
Defined.


Lemma tab_handler_keeps_inputs (a : TabApp.interaction) (net : network)
    (s : TabApp.State) :
  Panels.typed (state (final (run (TabApp.handler a) net s))) = Panels.typed s.
Proof.
  destruct a; cbn [TabApp.handler];
    unfold run, TabApp.handleSetView, TabApp.handleCreatePoll,
      TabApp.handleManageAction, TabApp.handleAccessPoll, TabApp.handleVote,
      bind, read, try_catch, fetch, json, lift, Panels.typed;
    step;
    repeat (branch; step); reflexivity.
Qed.

Lemma tab_handler_keeps_manage_ids (a : TabApp.interaction) (net : network)
    (s : TabApp.State) :
  a <> TabApp.SubmitCreatePoll ->
  Panels.manage_ids (state (final (run (TabApp.handler a) net s))) = Panels.manage_ids s.
Proof.
  intros Ha.
  destruct a; try (exfalso; apply Ha; reflexivity); cbn [TabApp.handler];
    unfold run, TabApp.handleSetView, TabApp.handleManageAction,
      TabApp.handleAccessPoll, TabApp.handleVote,
      bind, read, try_catch, fetch, json, lift, Panels.manage_ids;
    step;
    repeat (branch; step); reflexivity.
Qed.

(** X6.  What the handlers of the tab-based app do to the text inputs.
    The question, the options, the voter list, the poll id and the voter
    id are changed by no handler: after any sequence of view changes,
    submissions and clicks, each against any network, they are what they
    were (a created poll does not empty the creation form, a vote does not
    empty the access form).  The two inputs of the manage form, the poll
    id and the creator id, are changed by the poll creation and by nothing
    else: a sequence of actions without a poll creation leaves them as
    they were too. *)
Theorem tab_actions_keep_inputs :
  forall (acts : list (TabApp.interaction * network)) (s : TabApp.State),
    Panels.typed (TabApp.after acts s) = Panels.typed s /\
    (Forall (fun act => fst act <> TabApp.SubmitCreatePoll) acts ->
     Panels.manage_ids (TabApp.after acts s) = Panels.manage_ids s).
Proof.
  intros acts. induction acts as [ | [a net] rest IH ]; intros s.
  - split; reflexivity.
  - rewrite after_cons.
    destruct (IH (state (final (run (TabApp.handler a) net s)))) as [IHt IHm].
    split.
    + rewrite IHt. apply tab_handler_keeps_inputs.
    + intros Hall. inversion Hall as [ | act l Ha Hrest ]; subst.
      rewrite (IHm Hrest). apply tab_handler_keeps_manage_ids. exact Ha.
Qed.

Lemma tab_actions_keep_inputs_witness :
  let s := TabApp.after [(TabApp.SubmitCreatePoll,
                          Samples.always (VObj [("poll_id", VStr "p7");
                                                ("creator_id", VStr "secret")]))]
             TabApp.initial in
  let acts := [(TabApp.ClickManage "end", Samples.offline);
               (TabApp.ClickTab "voter", Samples.offline);
               (TabApp.SubmitAccessPoll, Samples.offline)] in
  Panels.manage_ids s = (VStr "p7", VStr "secret") /\
  Panels.manage_ids (TabApp.after acts s) = Panels.manage_ids s.
Proof.
  intros s acts. split; [ reflexivity | ].
  destruct (tab_actions_keep_inputs acts s) as [_ H].
  apply H. unfold acts.
  repeat (apply Forall_cons; [ cbn; intros C; discriminate C | ]).
  apply Forall_nil.
Defined.

(** X7.  No handler of the tab-based app repeats a request: a view change
    sends none, a poll access at most two (the status and the results),
    every other action at most one; and the first request sent is the one
    of the action, built from the state at the click. *)
Theorem tab_handlers_send_no_more_than_budget :
  forall (a : TabApp.interaction) (net : network) (s : TabApp.State),
    let sent := requests (trace (final (run (TabApp.handler a) net s))) in
    (List.length sent <= Requests.budget a)%nat /\
    hd_error sent = Requests.first_request a s.
Proof.
  intros a net s sent. subst sent.
  destruct a; cbn [TabApp.handler Requests.budget Requests.first_request];
    unfold run, TabApp.handleSetView, TabApp.handleCreatePoll,
      TabApp.handleManageAction, TabApp.handleAccessPoll, TabApp.handleVote,
      bind, read, try_catch, fetch, json, lift;
    step;
    repeat (branch; step); split; first [ reflexivity | lia ].
Qed.

(** X8.  When the first request of an action of the tab-based app gets no
    JSON answer (the fetch is rejected, or the body is not JSON), the
    message is the exception's text, marked as an error, no data panel is
    filled, and that request is the only one. *)
Theorem tab_transport_failure_is_shown :
  forall (a : TabApp.interaction) (net : network) (s : TabApp.State)
         (r : request) (e : exn),
    Requests.first_request a s = Some r ->
    Requests.transport_error (net [] r) = Some e ->
    let o := run (TabApp.handler a) net s in
    TabApp.message (state (final o)) = {| text := VStr (emessage e); isError := true |} /\
    Panels.filled (state (final o)) = 0%nat /\
    trace (final o) = [Fetched r].
Proof.
  intros a net s r e Hfirst Herr o. subst o.
  destruct a; cbn [Requests.first_request] in Hfirst; try discriminate Hfirst.
  - injection Hfirst as <-.
    unfold Requests.transport_error in Herr.
    cbn [TabApp.handler].
    unfold run, TabApp.handleCreatePoll, bind, read, try_catch, fetch; step.
    destruct (net [] _) as [ msg | status [ v | msg ] ];
      try discriminate Herr; injection Herr as <-; repeat split.
  - injection Hfirst as <-.
    unfold Requests.transport_error in Herr.
    cbn [TabApp.handler].
    unfold run, TabApp.handleManageAction, bind, read, try_catch, fetch; step.
    destruct (net [] _) as [ msg | status [ v | msg ] ];
      try discriminate Herr; injection Herr as <-; repeat split.
  - injection Hfirst as <-.
    unfold Requests.transport_error in Herr.
    cbn [TabApp.handler].
    unfold run, TabApp.handleAccessPoll, bind, read, try_catch, fetch; step.
    destruct (net [] _) as [ msg | status [ v | msg ] ];
      try discriminate Herr; injection Herr as <-; repeat split.
  - cbn [TabApp.handler].
    unfold run, TabApp.handleVote, bind, read, try_catch, fetch.
    cbn [state trace].
    destruct (truthy (VStr (TabApp.selectedOption s))); try discriminate Hfirst.
    injection Hfirst as <-.
    unfold Requests.transport_error in Herr. step.
    destruct (net [] _) as [ msg | status [ v | msg ] ];
      try discriminate Herr; injection Herr as <-; repeat split.
Qed.

Lemma tab_transport_failure_witness :
  TabApp.message
    (state (final (run (TabApp.handler TabApp.SubmitAccessPoll) Samples.offline
                     (Samples.voter_tab "p1"))))
    = {| text := VStr "Failed to fetch"; isError := true |}.
Proof.
  destruct (tab_transport_failure_is_shown TabApp.SubmitAccessPoll Samples.offline
              (Samples.voter_tab "p1") _ _ eq_refl eq_refl) as [H _].
  exact H.
Defined.

(** X9.  A poll creation that ends with an error message leaves the poll
    id and the creator id of the manage form as they were: the two ids
    are overwritten only by a creation that went through. *)
Theorem tab_failed_creation_keeps_ids :
  forall (net : network) (s : TabApp.State),
    let s' := state (final (run TabApp.handleCreatePoll net s)) in
    isError (TabApp.message s') = true ->
    TabApp.managePollId s' = TabApp.managePollId s /\
    TabApp.creatorId s' = TabApp.creatorId s.
Proof.
  intros net s s'. subst s'.
  unfold run, TabApp.handleCreatePoll, bind, read, try_catch, fetch, json, lift; step.
  destruct (net [] _) as [ msg | status [ data | msg ] ]; step;
    try (intros _; split; reflexivity).
  destruct (ok status); step.
  - destruct data; step; intros H; try discriminate H; split; reflexivity.
  - destruct (get data "error"); step; intros _; split; reflexivity.
Qed.

Lemma tab_failed_creation_witness :
  let s := TabApp.initial in
  TabApp.managePollId (state (final (run TabApp.handleCreatePoll Samples.offline s)))
    = TabApp.managePollId s.
Proof.
  intros s.
  destruct (tab_failed_creation_keeps_ids Samples.offline s eq_refl) as [H _].
  exact H.
Defined.

(** ** The session: role gating, logout, login and reload *)

Section SessionFacts.
Import VotingApp Session.

(** X10.  The screen [renderPage] returns needs a session exactly when
    there is one of the matching role: a creator screen (dashboard, poll
    form, analytics) is returned if and only if the user's role is
    ['creator'], the voter dashboard if and only if it is ['voter'],
    whatever [page] holds; without a user the screen is the login form,
    the signup form or the home page. *)
Theorem renderPage_is_gated_by_role :
  forall s : AppState,
    for_creator (renderPage s) = has_role "creator" s /\
    for_voter (renderPage s) = has_role "voter" s /\
    (truthy (user s) = false ->
     renderPage s = LoginScreen \/ renderPage s = SignupScreen \/ renderPage s = HomeScreen).
Proof.
  intros [p u a slot]. unfold renderPage, has_role, for_creator, for_voter.
  cbn [page user activePollId].
  destruct (get_opt u "role") as [ | | b | z | r | items | members ] eqn:Hrole;
    cbn [is_str];
    try (repeat split; try (intros _);
         destruct (p =? "login")%string, (p =? "signup")%string; auto; fail).
  destruct (r =? "creator")%string eqn:Hc.
  - apply String.eqb_eq in Hc. subst r. cbn.
    repeat split;
      try (destruct (p =? "creatorDashboard")%string, (p =? "createPoll")%string,
             (p =? "analytics")%string; reflexivity).
    intros Hu. destruct u; try discriminate Hu; discriminate Hrole.
  - destruct (r =? "voter")%string eqn:Hv.
    + repeat split. intros Hu. destruct u; try discriminate Hu; discriminate Hrole.
    + repeat split; try (intros _);
        destruct (p =? "login")%string, (p =? "signup")%string; auto.
Qed.

Lemma renderPage_anonymous_witness :
  renderPage (app_initial None) = HomeScreen.
Proof.
  destruct (renderPage_is_gated_by_role (app_initial None)) as (_ & _ & H).
  destruct (H eq_refl) as [H1 | [H1 | H1]];
    [ discriminate H1 | discriminate H1 | exact H1 ].
Defined.

(** X11.  Logout, from any state and whatever the role was, empties the
    storage slot, drops the user and shows the home page, sends nothing
    and cannot throw; a reload afterwards starts without a session, on
    the home page, with any parser. *)
Theorem logout_ends_the_session :
  forall (net : network) (s : AppState),
    let o := run handleLogout net s in
    uncaught o = None /\
    trace (final o) = [] /\
    stored_user (state (final o)) = None /\
    user (state (final o)) = VNull /\
    renderPage (state (final o)) = HomeScreen /\
    (forall (JSON_parse : string -> exn + value) (net' : network),
        reload JSON_parse net' (state (final o))
          = Returned tt {| state := app_initial None; trace := [] |}).
Proof.
  intros net s o. subst o. repeat split.
Qed.

(** X12.  A login survives a reload.  When the text written for the user
    parses back to the same value, [onLoginSuccess] followed by a reload
    of the page ends with the same user, the same page and the same
    screen as the login itself, and the startup does not throw. *)
Theorem login_survives_reload :
  forall (JSON_stringify : value -> option string)
         (JSON_parse : string -> exn + value)
         (u role : value) (t : string) (net net' : network) (s : AppState),
    JSON_stringify u = Some t ->
    t <> "" ->
    JSON_parse t = inr u ->
    get u "role" = inr role ->
    let logged := state (final (run (onLoginSuccess JSON_stringify u) net s)) in
    let o := reload JSON_parse net' logged in
    user logged = u /\
    page logged = dashboard_of role /\
    stored_user logged = Some t /\
    uncaught o = None /\
    user (state (final o)) = u /\
    page (state (final o)) = dashboard_of role /\
    renderPage (state (final o)) = renderPage logged.
Proof.
  intros JSON_stringify JSON_parse u role t net net' s Hs Hne Hp Hrole logged o.
  assert (Hlogged : logged = {| page := dashboard_of role; user := u;
                                activePollId := activePollId s;
                                stored_user := Some t |}).
  { subst logged. unfold run, onLoginSuccess, localStorage_setItem_user, bind, set.
    cbn [state trace]. rewrite Hs, Hrole. reflexivity. }
  assert (Ho : o = Returned tt {| state := {| page := dashboard_of role; user := u;
                                              activePollId := VNull;
                                              stored_user := Some t |};
                                  trace := [] |}).
  { subst o. rewrite Hlogged. unfold reload, run, restore, bind, read.
    cbn [state trace stored_user app_initial]. cbn [truthy].
    rewrite (proj2 (String.eqb_neq _ _) Hne). cbn [negb].
    rewrite Hp. cbn [lift]. unfold ret, setUser, set. cbn [state trace].
    rewrite Hrole. reflexivity. }
  rewrite Ho, Hlogged. cbn [state final uncaught page user stored_user].
  repeat split.
  unfold renderPage, dashboard_of. cbn [page user activePollId].
  destruct (is_str (get_opt u "role") "creator") eqn:Hc; [ | reflexivity ].
  rewrite (get_opt_of_get _ _ _ Hrole) in Hc. rewrite Hc. reflexivity.
Qed.

Lemma login_survives_reload_witness :
  let alice := VObj [("username", VStr "alice"); ("role", VStr "creator")] in
  let logged := state (final (run (onLoginSuccess JSONWrite.stringify alice)
                                Samples.offline (app_initial None))) in
  renderPage logged = CreatorDashboardScreen alice /\
  renderPage (state (final (reload JSONText.parse Samples.offline logged)))
    = renderPage logged.
Proof.
  intros alice logged. split; [ reflexivity | ].
  assert (Hs : JSONWrite.stringify alice
                 = Some ("{" ++ JSONText.member "username" (JSONText.lit "alice") ++ ","
                             ++ JSONText.member "role" (JSONText.lit "creator") ++ "}"))
    by reflexivity.
  assert (Hne : "{" ++ JSONText.member "username" (JSONText.lit "alice") ++ ","
                    ++ JSONText.member "role" (JSONText.lit "creator") ++ "}" <> "")
    by discriminate.
  destruct (login_survives_reload JSONWrite.stringify JSONText.parse alice
              (VStr "creator") _ Samples.offline Samples.offline (app_initial None)
              Hs Hne eq_refl eq_refl) as (_ & _ & _ & _ & _ & _ & H).
  exact H.
Defined.

(** X13.  A login answer without a [user] member poisons the storage.
    [onLoginSuccess(undefined)] writes the text ["undefined"] into the
    slot and sets the user before it throws on reading the role; every
    later startup with a parser that rejects that text throws, and the
    text stays in the slot. *)
Theorem login_without_user_poisons_storage :
  forall (JSON_stringify : value -> option string)
         (JSON_parse : string -> exn + value) (e : exn)
         (net net' : network) (s : AppState),
    JSON_stringify VUndef = None ->
    JSON_parse "undefined" = inl e ->
    let o := run (onLoginSuccess JSON_stringify VUndef) net s in
    uncaught o
      = Some (TypeError "Cannot read properties of undefined (reading 'role')") /\
    stored_user (state (final o)) = Some "undefined" /\
    page (state (final o)) = page s /\
    uncaught (reload JSON_parse net' (state (final o))) = Some e /\
    stored_user (state (final (reload JSON_parse net' (state (final o)))))
      = Some "undefined".
Proof.
  intros JSON_stringify JSON_parse e net net' s Hs Hp o. subst o.
  unfold reload, run, onLoginSuccess, localStorage_setItem_user, restore, bind, set,
    read.
  cbn [state trace]. rewrite Hs. cbn. rewrite Hp. repeat split.
Qed.

Lemma login_without_user_witness :
  uncaught (reload JSONText.parse Samples.offline
              (state (final (run (onLoginSuccess JSONWrite.stringify VUndef)
                               Samples.offline (app_initial None)))))
    = Some (SyntaxError "Unexpected token in JSON").
Proof.
  destruct (login_without_user_poisons_storage JSONWrite.stringify JSONText.parse _
              Samples.offline Samples.offline (app_initial None) eq_refl eq_refl)
    as (_ & _ & _ & H & _).
  exact H.
Defined.

(** X14.  The title link of the navigation bar cannot throw, keeps the
    user, forgets the poll under inspection, and leads to the start
    screen of the role: the creator dashboard for a creator, the voter
    dashboard for a voter, the home page otherwise. *)
Theorem goHome_leads_to_the_start_screen :
  forall (net : network) (s : AppState),
    let o := run goHome net s in
    uncaught o = None /\
    user (state (final o)) = user s /\
    activePollId (state (final o)) = VNull /\
    stored_user (state (final o)) = stored_user s /\
    renderPage (state (final o))
      = (if has_role "creator" s then CreatorDashboardScreen (user s)
         else if has_role "voter" s then VoterDashboardScreen (user s)
         else HomeScreen).
Proof.
  intros net [p u a slot] o. subst o.
  unfold run, goHome, navigateTo, has_role, renderPage, bind, read, dashboard_of.
  cbn [state trace user page].
  destruct u as [ | | b | z | str | items | members ]; cbn;
    try (repeat split; fail);
    try (match goal with |- context [if ?c then _ else _] => destruct c end;
         repeat split; fail).
Qed.

End SessionFacts.

(** ** The session-based app: forms and their outcomes *)

Section FormFacts.
Import VotingApp.

(** X15.  What the login and signup form does with a success answer.  A
    signup shows its confirmation and asks for the login page, without
    opening a session; a login hands the [user] member of the answer to
    [onLoginSuccess] and leaves the form as it is.  When that member has
    no readable [role] (it is missing, or [null]), the callback has still
    been called with it, and the form shows the [TypeError] as an error. *)
Theorem auth_success_paths :
  forall (status : Z) (data : value) (net : network) (s : AuthPage.State),
    ok status = true ->
    (net [] (AuthPage.auth_request true s) = Http status (Json data) ->
     let o := run (AuthPage.handleSubmit true) net s in
     AuthPage.message (state (final o))
       = {| text := VStr "Signup successful! Please log in."; isError := false |} /\
     trace (final o)
       = [Fetched (AuthPage.auth_request true s); Called "navigateTo" [VStr "login"]]) /\
    (forall u : value,
        net [] (AuthPage.auth_request false s) = Http status (Json data) ->
        get data "user" = inr u ->
        let o := run (AuthPage.handleSubmit false) net s in
        trace (final o)
          = [Fetched (AuthPage.auth_request false s); Called "onLoginSuccess" [u]] /\
        match get u "role" with
        | inr _ => state (final o) = s
        | inl e =>
            AuthPage.message (state (final o))
              = {| text := VStr (emessage e); isError := true |}
        end).
Proof.
  intros status data net s Hok. split.
  - intros Hnet o. subst o.
    unfold run, AuthPage.handleSubmit, bind, read, try_catch, fetch.
    cbn [state trace requests]. rewrite Hnet. step. rewrite Hok. step.
    split; reflexivity.
  - intros u Hnet Hu o. subst o.
    unfold run, AuthPage.handleSubmit, call_onLoginSuccess, bind, read, try_catch, fetch.
    cbn [state trace requests]. rewrite Hnet. step. rewrite Hok. step.
    rewrite Hu. step.
    destruct (get u "role") as [ e | r ]; step.
    + split; reflexivity.
    + split; [ reflexivity | destruct s; reflexivity ].
Qed.

Lemma auth_success_witness :
  let alice := VObj [("username", VStr "alice"); ("role", VStr "creator")] in
  let s := Samples.logging_in "alice" "x" in
  trace (final (run (AuthPage.handleSubmit false)
                  (Samples.always (VObj [("user", alice)])) s))
    = [Fetched (AuthPage.auth_request false s); Called "onLoginSuccess" [alice]].
Proof.
  intros alice s.
  destruct (auth_success_paths 200 (VObj [("user", alice)])
              (Samples.always (VObj [("user", alice)])) s eq_refl) as [_ H].
  destruct (H alice eq_refl eq_refl) as [Ht _].
  exact Ht.
Defined.

(** A message without text gets no box on the voter's card. *)
Lemma no_text_no_message_box (s : VoterDashboard.State) :
  truthy (text (VoterDashboard.message s)) = false -> Feedback.shows_message s = false.
Proof.
  intros Htext. unfold Feedback.shows_message. apply none_shown.
  unfold VoterDashboard.render, VoterDashboard.MessageLine. rewrite Htext.
  destruct (if truthy (VoterDashboard.pollData s)
               && truthy (get_opt (VoterDashboard.pollData s) "is_active")
            then Render.options_of (VoterDashboard.pollData s) else inr [])
    as [ e | opts ]; [ reflexivity | ].
  repeat first
    [ apply all_parts_seq | apply all_parts_if | apply all_parts_child
    | apply all_parts_children | reflexivity ].
Qed.

(** X16.  In the voter's dashboard a failure answer without an error text
    goes unnoticed.  When the status is not 2xx and the body's [error]
    member is missing or the empty string, the poll lookup and the vote
    end with an error message whose text is empty, so that no message box
    is shown: after the lookup the card shows the lookup form and nothing
    else, after the vote it shows what it showed before, less the
    message. *)
Theorem voter_failure_without_error_text_is_silent :
  forall (status : Z) (data e : value) (net : network) (s : VoterDashboard.State),
    ok status = false ->
    get data "error" = inr e ->
    e = VUndef \/ e = VStr "" ->
    (net [] (VoterDashboard.status_request s) = Http status (Json data) ->
     let s' := state (final (run VoterDashboard.handleFetchPoll net s)) in
     VoterDashboard.message s' = {| text := VStr ""; isError := true |} /\
     VoterDashboard.render s' = inr [VoterDashboard.FindPollForm]) /\
    (net [] (VoterDashboard.vote_request s) = Http status (Json data) ->
     let s' := state (final (run VoterDashboard.handleVote net s)) in
     VoterDashboard.message s' = {| text := VStr ""; isError := true |} /\
     Feedback.shows_message s' = false /\
     VoterDashboard.pollData s' = VoterDashboard.pollData s).
Proof.
  intros status data e net s Hok He Hempty. split.
  - intros Hnet s'. subst s'.
    unfold run, VoterDashboard.handleFetchPoll, bind, read, try_catch, fetch.
    cbn [state trace requests]. step. rewrite Hnet. step. rewrite Hok. step.
    rewrite He. destruct Hempty as [-> | ->]; split; reflexivity.
  - intros Hnet s'. subst s'.
    unfold run, VoterDashboard.handleVote, bind, read, try_catch, fetch.
    cbn [state trace requests]. rewrite Hnet. step. rewrite Hok. step.
    rewrite He.
    destruct Hempty as [-> | ->]; step;
      (split; [ reflexivity | split; [ | reflexivity ] ]);
      apply no_text_no_message_box; reflexivity.
Qed.

Lemma voter_failure_silent_witness :
  VoterDashboard.render
    (state (final (run VoterDashboard.handleFetchPoll
                     (Samples.answering 404 (VObj [("message", VStr "Poll not found")]))
                     (Samples.voter_looking_up "p1"))))
    = inr [VoterDashboard.FindPollForm].
Proof.
  destruct (voter_failure_without_error_text_is_silent 404
              (VObj [("message", VStr "Poll not found")]) VUndef
              (Samples.answering 404 (VObj [("message", VStr "Poll not found")]))
              (Samples.voter_looking_up "p1") eq_refl eq_refl (or_introl eq_refl))
    as [H _].
  destruct (H eq_refl) as [_ Hr]. exact Hr.
Defined.

(** X17.  A vote in the voter's dashboard ends in one of two ways,
    whatever the network does.  Either the message is an error, and the
    poll, the poll id and the Aadhaar number are what they were, so that
    the form stays and can be sent again; or the message is not an error,
    the poll is gone and both inputs are empty.  The selected option is
    kept in both. *)
Theorem voter_vote_fails_whole_or_clears_all :
  forall (net : network) (s : VoterDashboard.State),
    let s' := state (final (run VoterDashboard.handleVote net s)) in
    VoterDashboard.selectedOption s' = VoterDashboard.selectedOption s /\
    ((isError (VoterDashboard.message s') = true /\
      VoterDashboard.pollData s' = VoterDashboard.pollData s /\
      VoterDashboard.pollId s' = VoterDashboard.pollId s /\
      VoterDashboard.aadhar s' = VoterDashboard.aadhar s) \/
     (isError (VoterDashboard.message s') = false /\
      VoterDashboard.pollData s' = VNull /\
      VoterDashboard.pollId s' = "" /\
      VoterDashboard.aadhar s' = "")).
Proof.
  intros net s s'. subst s'.
  unfold run, VoterDashboard.handleVote, bind, read, try_catch, fetch, json, lift.
  step.
  repeat (branch; step);
    (split; [ reflexivity | ]);
    first [ left; repeat split; reflexivity | right; repeat split; reflexivity ].
Qed.

(** X18.  Closing a poll from the creator's dashboard.  Declined in the
    confirmation box, it does nothing at all.  Confirmed, it ends with
    exactly one alert, whatever the network does and whatever the user
    object is: either the alert reports success, and the poll list has
    been asked for again (two requests in all); or the alert is
    ["Error: "] followed by the exception's text, no more than the
    closing request has been sent, and the component state is untouched. *)
Theorem close_poll_alerts_once :
  forall (pollId : value) (net : network) (s : CreatorDashboard.State),
    run (CreatorDashboard.handleClosePoll false pollId) net s
      = Returned tt {| state := s; trace := [] |} /\
    let o := run (CreatorDashboard.handleClosePoll true pollId) net s in
    (Feedback.alerts (trace (final o)) = ["Poll closed successfully"] /\
     List.length (requests (trace (final o))) = 2%nat) \/
    (exists m : string,
        Feedback.alerts (trace (final o)) = ["Error: " ++ m] /\
        (List.length (requests (trace (final o))) <= 1)%nat /\
        state (final o) = s).
Proof.
  intros pollId net s. split; [ reflexivity | ].
  intros o. subst o.
  unfold run, CreatorDashboard.handleClosePoll, CreatorDashboard.fetchPolls, detach,
    bind, read, try_catch, fetch, json, lift.
  step.
  repeat (branch; step); try congruence;
    first
      [ left; split; reflexivity
      | right; eexists; split; [ reflexivity | ];
        split; [ cbn; lia | destruct s; reflexivity ] ].
Qed.

(** X19.  The poll form schedules the way back to the dashboard only for
    a poll the server has accepted.  A submission ends with nothing sent
    and nothing scheduled (a date that is no date, no user, or no file
    selected), or with one request and an error message, or with one
    request answered with a 2xx status, a message that is no error, and
    the navigation to the creator dashboard scheduled after three
    seconds. *)
Theorem create_poll_schedules_navigation_only_on_success :
  forall (toISOString : string -> option string) (net : network)
         (s : CreatePollForm.State),
    let o := run (CreatePollForm.handleCreatePoll toISOString) net s in
    trace (final o) = [] \/
    (exists r : request,
        trace (final o) = [Fetched r] /\
        isError (CreatePollForm.message (state (final o))) = true) \/
    (exists (r : request) (status : Z) (data : value),
        trace (final o)
          = [Fetched r; Scheduled 3000 "navigateTo" [VStr "creatorDashboard"]] /\
        net [] r = Http status (Json data) /\
        ok status = true /\
        isError (CreatePollForm.message (state (final o))) = false).
Proof.
  intros toISOString net s o. subst o.
  unfold run, CreatePollForm.handleCreatePoll, CreatePollForm.iso, bind, read,
    try_catch, fetch, json, lift.
  step.
  repeat (branch; step); subst; try congruence;
    first
      [ left; reflexivity
      | right; left; eexists; split; reflexivity
      | right; right; eexists; eexists; eexists;
        split; [ reflexivity | ];
        split; [ eassumption | ];
        split; [ apply negb_false_iff; assumption | reflexivity ] ].
Qed.

(** X20.  No handler of the session-based app repeats a request: the
    login and signup form, the poll form, the poll lookup, the vote, the
    poll list and the analytics send at most one request per run, and the
    closing of a poll at most two (the closing and the new list). *)
Theorem session_handlers_send_no_request_twice :
  forall net : network,
    (forall isSignup s,
        (List.length (requests (trace (final
           (run (AuthPage.handleSubmit isSignup) net s)))) <= 1)%nat) /\
    (forall toISOString s,
        (List.length (requests (trace (final
           (run (CreatePollForm.handleCreatePoll toISOString) net s)))) <= 1)%nat) /\
    (forall s,
        (List.length (requests (trace (final
           (run VoterDashboard.handleFetchPoll net s)))) <= 1)%nat) /\
    (forall s,
        (List.length (requests (trace (final
           (run VoterDashboard.handleVote net s)))) <= 1)%nat) /\
    (forall s,
        (List.length (requests (trace (final
           (run CreatorDashboard.fetchPolls net s)))) <= 1)%nat) /\
    (forall s,
        (List.length (requests (trace (final
           (run PollAnalyticsDashboard.fetchAnalytics net s)))) <= 1)%nat) /\
    (forall confirmed pollId s,
        (List.length (requests (trace (final
           (run (CreatorDashboard.handleClosePoll confirmed pollId) net s)))) <= 2)%nat).
Proof.
  intros net.
  repeat split; intros;
    unfold run, AuthPage.handleSubmit, CreatePollForm.handleCreatePoll,
      CreatePollForm.iso, VoterDashboard.handleFetchPoll, VoterDashboard.handleVote,
      CreatorDashboard.fetchPolls, PollAnalyticsDashboard.fetchAnalytics,
      CreatorDashboard.handleClosePoll, CreatorDashboard.fetchPolls,
      call_onLoginSuccess, call_navigateTo, detach,
      bind, read, try_catch, fetch, json, lift;
    step;
    repeat (branch; step); lia.
Qed.

End FormFacts.

(** ** The tab-based app: manage actions and reachable states *)

(** X21.  The two manage buttons differ in the endpoint and in what they
    do with a success answer, and in nothing else.  For the action
    ['end'] the request goes to [/end_poll] and the answer's [message] is
    shown, not as an error, with no results; for any other action tag it
    goes to [/results] and the answer becomes the creator's results, with
    no message.  In both cases it is the only request. *)
Theorem manage_action_dispatch :
  forall (action : string) (status : Z) (data : value) (net : network)
         (s : TabApp.State),
    ok status = true ->
    net [] (TabApp.manage_request action s) = Http status (Json data) ->
    let o := run (TabApp.handleManageAction action) net s in
    trace (final o) = [Fetched (TabApp.manage_request action s)] /\
    if (action =? "end")%string then
      req_url (TabApp.manage_request action s) = API_URL ++ "/end_poll" /\
      TabApp.creatorResults (state (final o)) = VNull /\
      (forall m, get data "message" = inr m ->
                 TabApp.message (state (final o)) = {| text := m; isError := false |})
    else
      req_url (TabApp.manage_request action s) = API_URL ++ "/results" /\
      TabApp.creatorResults (state (final o)) = data /\
      TabApp.message (state (final o)) = {| text := VStr ""; isError := false |}.
Proof.
  intros action status data net s Hok Hnet o. subst o.
  unfold run, TabApp.handleManageAction, bind, read, try_catch, fetch.
  cbn [state trace requests]. step. rewrite Hnet. step. rewrite Hok. step.
  unfold TabApp.manage_request.
  destruct (action =? "end")%string; step.
  - unfold lift. destruct (get data "message") as [ e | m ]; step;
      (split; [ reflexivity | ]); (split; [ reflexivity | ]);
      (split; [ reflexivity | ]); intros m' Hm; congruence.
  - repeat split.
Qed.

Lemma manage_action_dispatch_witness :
  let data := VObj [("message", VStr "Poll ended.")] in
  TabApp.message
    (state (final (run (TabApp.handleManageAction "end") (Samples.always data)
                     TabApp.initial)))
    = {| text := VStr "Poll ended."; isError := false |}.
Proof.
  intros data.
  destruct (manage_action_dispatch "end" 200 data (Samples.always data) TabApp.initial
              eq_refl eq_refl) as (_ & _ & _ & H).
  exact (H (VStr "Poll ended.") eq_refl).
Defined.

Lemma action_separates (a : TabApp.interaction) (net : network) (s : TabApp.State) :
  Reachable.available a s = true ->
  Reachable.separated (state (final (run (TabApp.handler a) net s))).
Proof.
  unfold Reachable.separated.
  destruct a; cbn [Reachable.available TabApp.handler]; intros Hav.
  - apply orb_true_iff in Hav.
    destruct Hav as [Hv | Hv]; apply String.eqb_eq in Hv; subst newView;
      (split; [ | split ]); cbn; auto.
  - apply String.eqb_eq in Hav.
    unfold run, TabApp.handleCreatePoll, bind, read, try_catch, fetch, json, lift.
    step. repeat (branch; step); rewrite Hav;
      (split; [ | split ]); auto; intros H; discriminate H.
  - apply andb_true_iff in Hav. destruct Hav as [Hav _].
    apply String.eqb_eq in Hav.
    unfold run, TabApp.handleManageAction, bind, read, try_catch, fetch, json, lift.
    step. repeat (branch; step); rewrite Hav;
      (split; [ | split ]); auto; intros H; discriminate H.
  - apply andb_true_iff in Hav. destruct Hav as [Hav _].
    apply andb_true_iff in Hav. destruct Hav as [Hav _].
    apply String.eqb_eq in Hav.
    unfold run, TabApp.handleAccessPoll, bind, read, try_catch, fetch, json, lift.
    step. repeat (branch; step); rewrite Hav;
      (split; [ | split ]); auto; intros H; discriminate H.
  - apply andb_true_iff in Hav. destruct Hav as [Hav _].
    apply String.eqb_eq in Hav.
    unfold run, TabApp.handleVote, bind, read, try_catch, fetch, json, lift.
    step. repeat (branch; step); rewrite Hav;
      (split; [ | split ]); auto; intros H; discriminate H.
Qed.

(** X22.  Each tab shows its own data only.  In every state reached from
    the initial one by typing and by the controls the page offers, every
    handler having run to its end before the next action, the view is one
    of the two tabs; on the voter tab there is no created-poll box and no
    creator's results, and on the creator tab there is no poll to vote on
    and no voter's results. *)
Theorem tabs_show_their_own_data :
  forall s : TabApp.State, Reachable.reachable s -> Reachable.separated s.
Proof.
  intros s H. induction H as [ | s s' _ IH Ht | s a net _ _ Hav ].
  - unfold Reachable.separated. cbn. repeat split; auto; intros H; discriminate H.
  - destruct Ht as (Hv & _ & Hci & Hcr & Hpd & Hvr).
    unfold Reachable.separated in *. rewrite Hv, Hci, Hcr, Hpd, Hvr. exact IH.
  - apply action_separates. exact Hav.
Qed.

Lemma tabs_show_their_own_data_witness :
  let data := VObj [("poll_id", VStr "p7"); ("creator_id", VStr "secret")] in
  let s := TabApp.after [(TabApp.SubmitCreatePoll, Samples.always data);
                         (TabApp.ClickTab "voter", Samples.offline)] TabApp.initial in
  TabApp.view s = "voter" /\ TabApp.creatorInfo s = VNull.
Proof.
  intros data s.
  assert (Hr : Reachable.reachable s).
  { apply (Reachable.reach_action _ (TabApp.ClickTab "voter") Samples.offline);
      [ | reflexivity ].
    apply (Reachable.reach_action _ TabApp.SubmitCreatePoll (Samples.always data));
      [ | reflexivity ].
    apply Reachable.reach_initial. }
  destruct (tabs_show_their_own_data s Hr) as (_ & Hvoter & _).
  split; [ reflexivity | ]. destruct (Hvoter eq_refl) as [H _]. exact H.
Defined.

(** ** The analytics dashboard *)

Section AnalyticsFacts.
Import VotingApp.

(** X23.  The participation rate of the analytics dashboard.  Without
    eligible voters the text is [0.0]; otherwise, for counts a Number
    holds exactly, it is a decimal [n / 10] with one fractional digit,
    and for up to 10^12 votes it is the exact quotient
    [total_votes / total_voters * 100] rounded to one decimal place.  The
    rate is not capped: more votes than voters give more than 100. *)
Theorem participation_text_is_rate_rounded :
  forall votes voters : Z,
    (0 <= votes < 2 ^ 53)%Z -> (voters < 2 ^ 53)%Z ->
    ((voters <= 0)%Z -> Analytics.participation_text votes voters = Some "0.0") /\
    ((0 < voters)%Z ->
     exists n : Z,
       Analytics.participation_text votes voters = Some (Num.fixed1 n) /\
       ((votes <= 10 ^ 12)%Z -> Rounding.nearest_tenth n votes voters)).
Proof.
  intros votes voters Hv Ht. unfold Analytics.participation_text,
    Analytics.participationRate. split.
  - intros Hz. replace (voters >? 0)%Z with false by (symmetry; rewrite Z.gtb_ltb; apply Z.ltb_ge; lia).
    reflexivity.
  - intros Hpos.
    replace (voters >? 0)%Z with true by (symmetry; apply Z.gtb_lt; lia).
    destruct (Z.eq_dec votes 0) as [-> | Hnz].
    + destruct (percentage_of_zero voters ltac:(lia)) as [Hshare _].
      exists 0%Z. rewrite Hshare. split; [ reflexivity | ].
      intros _. unfold Rounding.nearest_tenth. cbn -[Z.mul]. lia.
    + destruct (percentage_of_positive votes voters ltac:(lia) ltac:(lia))
        as (m & e & Hshare & Hpct & Hnear).
      exists (Num.tenths m e). split; [ | exact Hnear ].
      unfold Results.percentage in Hpct.
      replace (voters >? 0)%Z with true in Hpct by (symmetry; apply Z.gtb_lt; lia).
      destruct (Num.toFixed1 (Results.share votes voters)) as [ t | ];
        [ | discriminate Hpct ].
      cbn [option_map] in Hpct. congruence.
Qed.

Lemma participation_text_witness :
  Analytics.participation_text 3 4 = Some "75.0".
Proof.
  assert (Hv : (0 <= 3 < 2 ^ 53)%Z) by (split; [ lia | reflexivity ]).
  assert (Ht : (4 < 2 ^ 53)%Z) by reflexivity.
  destruct (participation_text_is_rate_rounded 3 4 Hv Ht) as [_ H].
  destruct (H ltac:(lia)) as (n & Htext & Hnear).
  assert (Hsmall : (3 <= 10 ^ 12)%Z) by (intro C; discriminate C).
  specialize (Hnear Hsmall). unfold Rounding.nearest_tenth in Hnear.
  assert (Hn : n = 750%Z) by lia.
  rewrite Hn in Htext. exact Htext.
Defined.

(** X24.  The analytics dashboard takes any JSON answer for analytics,
    whatever its status.  An answer that is an object without [results]
    (an error answer, say) is stored, the loading state ends, and the
    render that follows throws on [Object.keys(analytics.results)]. *)
Theorem analytics_answer_without_results_breaks_render :
  forall (status : Z) (data : value) (net : network) (id : value),
    net [] (get_url ("/analytics/" ++ to_string id)) = Http status (Json data) ->
    truthy data = true ->
    get_opt data "results" = VUndef \/ get_opt data "results" = VNull ->
    let o := run PollAnalyticsDashboard.fetchAnalytics net
                 (PollAnalyticsDashboard.initial id) in
    uncaught o = None /\
    PollAnalyticsDashboard.analytics (state (final o)) = data /\
    PollAnalyticsDashboard.isLoading (state (final o)) = false /\
    Analytics.render (state (final o))
      = inl (TypeError "Cannot convert undefined or null to object").
Proof.
  intros status data net id Hnet Hd Hres o. subst o.
  unfold run, PollAnalyticsDashboard.fetchAnalytics, bind, read, fetch.
  cbn [state trace requests PollAnalyticsDashboard.initial
       PollAnalyticsDashboard.pollId PollAnalyticsDashboard.setIsLoading set].
  rewrite Hnet. step. repeat split.
  unfold Analytics.render. cbn [PollAnalyticsDashboard.isLoading
    PollAnalyticsDashboard.analytics]. rewrite Hd. cbn [negb].
  destruct Hres as [-> | ->]; reflexivity.
Qed.

Lemma analytics_answer_without_results_witness :
  let data := VObj [("error", VStr "Poll not found")] in
  Analytics.render
    (state (final (run PollAnalyticsDashboard.fetchAnalytics (Samples.answering 404 data)
                     (PollAnalyticsDashboard.initial (VStr "p9")))))
    = inl (TypeError "Cannot convert undefined or null to object").
Proof.
  intros data.
  destruct (analytics_answer_without_results_breaks_render 404 data
              (Samples.answering 404 data) (VStr "p9") eq_refl eq_refl
              (or_introl eq_refl)) as (_ & _ & _ & H).
  exact H.
Defined.

End AnalyticsFacts.

(** ** The results renderer: all options together *)

Section TotalsFacts.
Local Open Scope Z_scope.

Lemma sum_bounds (l : list Z) :
  Forall (fun v => 0 <= v) l -> 0 <= Totals.sum l /\ Forall (fun v => v <= Totals.sum l) l.
Proof.
  induction 1 as [ | v l Hv _ [IH1 IH2] ]; cbn [Totals.sum].
  - split; [ lia | constructor ].
  - split; [ lia | ]. constructor; [ lia | ].
    eapply Forall_impl; [ | exact IH2 ]. cbn. intros; lia.
Qed.

Lemma rows_near (t : Z) (results : list (string * Z)) :
  0 < t < 2 ^ 53 ->
  Forall (fun v => 0 <= v <= 10 ^ 12) (map snd results) ->
  exists ns : list Z,
    Totals.shows results t ns /\
    Z.abs (2 * t * Totals.sum ns - 2000 * Totals.sum (map snd results))
      <= Z.of_nat (List.length results) * t.
Proof.
  intros Ht. induction results as [ | [o v] rest IH ]; intros Hall.
  - exists []. split; [ exact I | ]. cbn [Totals.sum map List.length Z.of_nat]. lia.
  - cbn [map snd] in Hall. inversion Hall as [ | ? ? Hv Hrest ]; subst.
    destruct (IH Hrest) as (ns & Hshows & Hsum).
    assert (Hn : exists n, Results.percentage v t = Some (VStr (Num.fixed1 n))
                           /\ Z.abs (2 * n * t - 2000 * v) <= t).
    { assert (H53 : 10 ^ 12 < 2 ^ 53) by reflexivity.
      destruct (Z.eq_dec v 0) as [-> | Hnz].
      - destruct (percentage_of_zero t Ht) as [_ Hpct].
        exists 0. split; [ exact Hpct | ]. cbn -[Z.mul]. lia.
      - destruct (percentage_of_positive v t ltac:(lia) Ht) as (m & e & _ & Hpct & Hnear).
        exists (Num.tenths m e). split; [ exact Hpct | ].
        apply Hnear. lia. }
    destruct Hn as (n & Hpct & Hnear).
    exists (n :: ns). split.
    + cbn [Totals.shows]. split; assumption.
    + cbn [Totals.sum map snd List.length].
      rewrite Nat2Z.inj_succ. lia.
Qed.

(** X25.  The percentages of a results display add up to 100 up to
    rounding.  For non-negative counts that add up to [total_votes], with
    0 < total_votes <= 10^12, the rows show decimals [n / 10] whose sum is
    no further from 100 than 0.05 per option. *)
Theorem displayed_percentages_add_up :
  forall (results : list (string * Z)) (total_votes : Z),
    Forall (fun v => 0 <= v) (map snd results) ->
    Totals.sum (map snd results) = total_votes ->
    0 < total_votes <= 10 ^ 12 ->
    exists ns : list Z,
      Totals.shows results total_votes ns /\
      Z.abs (2 * Totals.sum ns - 2000) <= Z.of_nat (List.length results).
Proof.
  intros results t Hpos Hsum Ht.
  assert (H53 : 10 ^ 12 < 2 ^ 53) by reflexivity.
  destruct (sum_bounds _ Hpos) as [_ Hle]. rewrite Hsum in Hle.
  assert (Hall : Forall (fun v => 0 <= v <= 10 ^ 12) (map snd results)).
  { rewrite Forall_forall in *. intros v Hin.
    specialize (Hpos v Hin). specialize (Hle v Hin). cbn in Hle. lia. }
  destruct (rows_near t results ltac:(lia) Hall) as (ns & Hshows & Hnear).
  exists ns. split; [ exact Hshows | ].
  rewrite Hsum in Hnear.
  set (k := Z.of_nat (List.length results)) in *.
  set (S := Totals.sum ns) in *.
  apply Z.abs_le in Hnear. apply Z.abs_le. nia.
Qed.

Lemma displayed_percentages_witness :
  exists ns : list Z,
    Totals.shows [("A", 1); ("B", 1); ("C", 1)] 3 ns /\
    Z.abs (2 * Totals.sum ns - 2000) <= 3.
Proof.
  assert (Hpos : Forall (fun v => 0 <= v) (map snd [("A", 1); ("B", 1); ("C", 1)]))
    by (cbn [map snd]; repeat (apply Forall_cons; [ lia | ]); apply Forall_nil).
  assert (Ht : 0 < 3 <= 10 ^ 12) by (split; [ lia | intro C; discriminate C ]).
  exact (displayed_percentages_add_up [("A", 1); ("B", 1); ("C", 1)] 3 Hpos eq_refl Ht).
Defined.

End TotalsFacts.
